(** * The provisioning saga of deploy-script

    A shallow embedding of the domain workflow of the repository
    (src/index.ts, src/lib/utils.ts, src/lib/namecheap.ts,
    src/lib/cloudflare.ts, src/lib/vercel.ts, src/lib/config.ts,
    src/lib/deploy.ts) and the properties of its retrier, its polling
    waiters, its DNS batch, its saga, its rollback and its deployment.

    Asynchronous functions are modelled as computations in a state and
    exception monad.  The state holds the outside world (the three
    providers, seen through their HTTP answers) and an observation log:
    every HTTP request a provider function sends, every [delay] and every
    line the saga, the rollback, the retrier and the waiters write through
    [logger].  The console output of the single-request provider functions
    themselves is not part of the log.  Numbers are integers: attempt
    counts, delays in milliseconds and years are in [Z]. *)

From Stdlib Require Import String Ascii ZArith List Bool Lia DecimalString.
Import ListNotations.

Local Open Scope string_scope.
Local Open Scope list_scope.
Local Open Scope Z_scope.

Infix "+++" := String.append (right associativity, at level 60).

(** ** JavaScript values the code relies on *)

(** A string is falsy exactly when it is empty; [undefined] is falsy. *)
Definition truthy (s : string) : bool := negb (String.eqb s "").

Definition truthy_opt (o : option string) : bool :=
  match o with
  | Some s => truthy s
  | None => false
  end.

(** [a || d] on an optional string. *)
Definition or_else (o : option string) (d : string) : string :=
  match o with
  | Some s => if truthy s then s else d
  | None => d
  end.

(** An optional string inside a template literal. *)
Definition tmpl (o : option string) : string :=
  match o with
  | Some s => s
  | None => "undefined"
  end.

(** [Array.prototype.join] on strings. *)
Definition join (sep : string) (l : list string) : string := String.concat sep l.

(** [String.prototype.split] with a one-character separator. *)
Fixpoint split (sep : ascii) (s : string) : list string :=
  match s with
  | EmptyString => [EmptyString]
  | String c rest =>
      if Ascii.eqb c sep then EmptyString :: split sep rest
      else match split sep rest with
           | [] => [String c EmptyString]
           | p :: ps => String c p :: ps
           end
  end.

(** Decimal rendering of an integral number. *)
Definition string_of_Z (z : Z) : string := NilZero.string_of_int (Z.to_int z).

(** What a [throw] carries: an [Error] with its message, or [undefined]. *)
Inductive Thrown : Type :=
| Undefined
| Error (message : string).

(** ** Computations *)

Inductive Outcome (A : Type) : Type :=
| Ret (a : A)
| Throw (e : Thrown).
Arguments Ret {A} a.
Arguments Throw {A} e.

Definition M (St A : Type) : Type := St -> Outcome A * St.

Definition ret {St A} (a : A) : M St A := fun s => (Ret a, s).

Definition throw {St A} (e : Thrown) : M St A := fun s => (Throw e, s).

Definition bind {St A B} (m : M St A) (k : A -> M St B) : M St B :=
  fun s =>
    match m s with
    | (Ret a, s') => k a s'
    | (Throw e, s') => (Throw e, s')
    end.

(** [try { m } catch (e) { h e }] *)
Definition tryCatch {St A} (m : M St A) (h : Thrown -> M St A) : M St A :=
  fun s =>
    match m s with
    | (Ret a, s') => (Ret a, s')
    | (Throw e, s') => h e s'
    end.

Notation "x <- m ;; k" := (bind m (fun x => k))
  (at level 61, m at next level, right associativity).
Notation "m ;;; k" := (bind m (fun _ => k))
  (at level 61, right associativity).

(** [if (c) { m }] with no else branch. *)
Definition when {St} (c : bool) (m : M St unit) : M St unit :=
  if c then m else ret tt.

(** [error.message]: reading a property of [undefined] is a TypeError. *)
Definition message_of {St} (e : Thrown) : M St string :=
  match e with
  | Error m => ret m
  | Undefined =>
      throw (Error "Cannot read properties of undefined (reading 'message')")
  end.

(** ** Data exchanged with the providers *)

Module RecordType.
Inductive t : Type := A | AAAA | CNAME | TXT | MX.

Definition to_string (k : t) : string :=
    match k with
    | A => "A" | AAAA => "AAAA" | CNAME => "CNAME" | TXT => "TXT" | MX => "MX"
    end.
End RecordType.

Module DNSRecord.
Record t : Type := mk {
    type : RecordType.t;
    name : string;
    content : string;
    ttl : option Z;
    proxied : option bool;
    priority : option Z
  }.
End DNSRecord.

Module VerificationRecord.
Record t : Type := mk { type : string; name : string; value : string }.
End VerificationRecord.

Module AvailabilityResult.
Record t : Type := mk {
    available : bool;
    domain : string;
    isPremium : option bool;
    premiumPrice : option string;
    regularPrice : option string;
    errorMessage : option string
  }.
End AvailabilityResult.

Module PurchaseResult.
Record t : Type := mk {
    success : bool;
    domainId : option string;
    transactionId : option string;
    orderId : option string;
    chargedAmount : option string;
    errorMessage : option string
  }.
End PurchaseResult.

Module SetNameserversResult.
Record t : Type := mk { success : bool; errorMessage : option string }.
End SetNameserversResult.

Module CloudflareZone.
Record t : Type := mk {
    id : string;
    name : string;
    status : string;
    nameServers : list string
  }.
End CloudflareZone.

Module CreateZoneResult.
Record t : Type := mk {
    success : bool;
    zone : option CloudflareZone.t;
    errorMessage : option string;
    alreadyExists : option bool
  }.
End CreateZoneResult.

Module CreateDNSRecordResult.
Record t : Type := mk {
    success : bool;
    recordId : option string;
    errorMessage : option string
  }.
End CreateDNSRecordResult.

Module DeleteDNSRecordResult.
Record t : Type := mk { success : bool; errorMessage : option string }.
End DeleteDNSRecordResult.

Module AddDomainResult.
Record t : Type := mk {
    success : bool;
    errorMessage : option string;
    verificationRequired : option bool;
    verificationRecords : option (list VerificationRecord.t)
  }.
End AddDomainResult.

Module VerifyDomainResult.
Record t : Type := mk {
    success : bool;
    verified : bool;
    errorMessage : option string
  }.
End VerifyDomainResult.

Module RemoveDomainResult.
Record t : Type := mk { success : bool; errorMessage : option string }.
End RemoveDomainResult.

Module ZoneStatus.
Record t : Type := mk { status : string; nameServers : list string }.
End ZoneStatus.

(** What the POST that creates a zone can come back with: the zone, a
    response whose [success] is false, an HTTP 409 or error code 1061, or
    any other failure of the request. *)
Inductive ZonePost : Type :=
| PostCreated (zone : CloudflareZone.t)
| PostRejected (errorMessage : string)
| PostConflict
| PostFailed (errorMessage : option string).

(** What the GET that looks a zone up by name can come back with. *)
Inductive ZoneGet : Type :=
| GetFound (zone : CloudflareZone.t)
| GetNone
| GetFailed (errorMessage : option string).

(** ** Observations *)

(** One request per provider function: it stands for the HTTP exchange
    inside the try block of that function.  [purchaseDomain] may look up
    the account's default address there before it asks for the domain;
    [createZone] has one request for its POST and, after a conflict, one
    for the lookup of the existing zone. *)
Inductive Request : Type :=
| CheckAvailability (domain : string)
| PurchaseDomain (domain : string) (years : Z) (enableWhoisGuard : bool)
| SetNameservers (sld tld : string) (nameservers : list string)
| CreateZone (domain : string)
| FetchExistingZone (domain : string)
| CreateDNSRecord (zoneId : string) (record : DNSRecord.t)
| DeleteDNSRecord (zoneId recordId : string)
| GetZoneStatus (zoneId : string)
| AddDomain (domain : string)
| VerifyDomain (domain : string)
| RemoveDomain (domain : string).

Inductive Provider : Type := Namecheap | Cloudflare | Vercel.

Definition provider (r : Request) : Provider :=
  match r with
  | CheckAvailability _ | PurchaseDomain _ _ _ | SetNameservers _ _ _ =>
      Namecheap
  | CreateZone _ | FetchExistingZone _ | CreateDNSRecord _ _
  | DeleteDNSRecord _ _ | GetZoneStatus _ => Cloudflare
  | AddDomain _ | VerifyDomain _ | RemoveDomain _ => Vercel
  end.

Inductive LogLevel : Type := LInfo | LSuccess | LWarn | LError | LDebug.

(** What a run leaves in the log: a request sent, a [delay] of so many
    milliseconds, a line written through [logger], or the entry of an
    operation that a caller of [retry] supplied. *)
Inductive Event : Type :=
| Sent (r : Request)
| Delayed (ms : Z)
| Logged (level : LogLevel) (message : string)
| Called (label : string).

Inductive Service : Type :=
  namecheap | cloudflare | vercel | registrant | github | deploy.

(** The outside world [W] and what it answers.  Each provider function
    wraps its request and the parsing of the answer in a try/catch that
    turns a failure into a result value, so an answer is a result value;
    the payload of an error response is taken to have the shape the catch
    blocks read ([errors], when present, is an array).  [config] is
    [config[service][field]]; [cyan] is [chalk.cyan]; [elapse] is what
    the passing of time does to the world. *)
Record Env (W : Type) : Type := mkEnv {
  config : Service -> string -> string;
  cyan : string -> string;
  elapse : Z -> W -> W;
  answer_checkAvailability : string -> W -> AvailabilityResult.t * W;
  answer_purchaseDomain : string -> Z -> bool -> W -> PurchaseResult.t * W;
  answer_setNameservers :
    string -> string -> list string -> W -> SetNameserversResult.t * W;
  answer_postZone : string -> W -> ZonePost * W;
  answer_getZone : string -> W -> ZoneGet * W;
  answer_createDNSRecord :
    string -> DNSRecord.t -> W -> CreateDNSRecordResult.t * W;
  answer_deleteDNSRecord : string -> string -> W -> DeleteDNSRecordResult.t * W;
  answer_getZoneStatus : string -> W -> option ZoneStatus.t * W;
  answer_addDomain : string -> W -> AddDomainResult.t * W;
  answer_verifyDomain : string -> W -> VerifyDomainResult.t * W;
  answer_removeDomain : string -> W -> RemoveDomainResult.t * W
}.
Arguments config {W}.
Arguments cyan {W}.
Arguments elapse {W}.
Arguments answer_checkAvailability {W}.
Arguments answer_purchaseDomain {W}.
Arguments answer_setNameservers {W}.
Arguments answer_postZone {W}.
Arguments answer_getZone {W}.
Arguments answer_createDNSRecord {W}.
Arguments answer_deleteDNSRecord {W}.
Arguments answer_getZoneStatus {W}.
Arguments answer_addDomain {W}.
Arguments answer_verifyDomain {W}.
Arguments answer_removeDomain {W}.

Record Sys (W : Type) : Type := mkSys { world : W; trace : list Event }.
Arguments mkSys {W}.
Arguments world {W}.
Arguments trace {W}.

Module RetryOptions.
Record t (St : Type) : Type := mk {
    maxAttempts : option Z;
    initialDelayMs : option Z;
    maxDelayMs : option Z;
    onRetry : option (Z -> Thrown -> M St unit)
  }.
Arguments mk {St}.
Arguments maxAttempts {St}.
Arguments initialDelayMs {St}.
Arguments maxDelayMs {St}.
Arguments onRetry {St}.
End RetryOptions.

(** A destructured option with its default. *)
Definition default {X} (d : X) (o : option X) : X :=
  match o with
  | Some x => x
  | None => d
  end.

(** What [createDNSRecords] resolves to. *)
Module DNSBatchResult.
Record t : Type := mk {
  success : bool;
  recordIds : list string;
  errors : list string
}.
End DNSBatchResult.

(** ** The saga's state and result (src/index.ts) *)

Module WorkflowState.
Record t : Type := mk {
  domain : string;
  years : Z;
  enableWhoisGuard : bool;
  domainPurchased : bool;
  cloudflareZoneId : option string;
  cloudflareRecordIds : list string;
  vercelDomainAdded : bool
}.
End WorkflowState.

Module Steps.
Record t : Type := mk {
  availabilityCheck : bool;
  domainPurchase : bool;
  cloudflareZone : bool;
  nameserversSet : bool;
  dnsRecords : bool;
  vercelDomain : bool;
  vercelVerified : bool
}.

(** [Object.values(steps)], in insertion order. *)
Definition values (s : t) : list bool :=
  [availabilityCheck s; domainPurchase s; cloudflareZone s; nameserversSet s;
   dnsRecords s; vercelDomain s; vercelVerified s].
End Steps.

Module Details.
Record t : Type := mk {
  domainId : option string;
  transactionId : option string;
  cloudflareZoneId : option string;
  cloudflareNameservers : option (list string);
  dnsRecordIds : option (list string)
}.
End Details.

Module WorkflowResult.
Record t : Type := mk {
  success : bool;
  steps : Steps.t;
  details : Details.t;
  errors : list string
}.
End WorkflowResult.

(** The two local objects of [runWorkflow], which its catch block and
    [rollback] see as they are when control reaches them. *)
Record Frame : Type := mkFrame {
  state : WorkflowState.t;
  result : WorkflowResult.t
}.

(** Assignments to the fields of the two objects. *)
Definition with_state (f : WorkflowState.t -> WorkflowState.t) (fr : Frame)
  : Frame := mkFrame (f (state fr)) (result fr).

Definition with_result (f : WorkflowResult.t -> WorkflowResult.t) (fr : Frame)
  : Frame := mkFrame (state fr) (f (result fr)).

Definition with_steps (f : Steps.t -> Steps.t) : Frame -> Frame :=
  with_result (fun r =>
    WorkflowResult.mk (WorkflowResult.success r) (f (WorkflowResult.steps r))
                      (WorkflowResult.details r) (WorkflowResult.errors r)).

Definition with_details (f : Details.t -> Details.t) : Frame -> Frame :=
  with_result (fun r =>
    WorkflowResult.mk (WorkflowResult.success r) (WorkflowResult.steps r)
                      (f (WorkflowResult.details r)) (WorkflowResult.errors r)).

(** [result.errors.push(...entries)] *)
Definition push_errors (entries : list string) : Frame -> Frame :=
  with_result (fun r =>
    WorkflowResult.mk (WorkflowResult.success r) (WorkflowResult.steps r)
                      (WorkflowResult.details r)
                      (WorkflowResult.errors r ++ entries)).

Definition set_success (b : bool) : Frame -> Frame :=
  with_result (fun r =>
    WorkflowResult.mk b (WorkflowResult.steps r) (WorkflowResult.details r)
                      (WorkflowResult.errors r)).

Definition set_availabilityCheck (b : bool) : Frame -> Frame :=
  with_steps (fun s =>
    Steps.mk b (Steps.domainPurchase s) (Steps.cloudflareZone s)
             (Steps.nameserversSet s) (Steps.dnsRecords s)
             (Steps.vercelDomain s) (Steps.vercelVerified s)).

Definition set_domainPurchase (b : bool) : Frame -> Frame :=
  with_steps (fun s =>
    Steps.mk (Steps.availabilityCheck s) b (Steps.cloudflareZone s)
             (Steps.nameserversSet s) (Steps.dnsRecords s)
             (Steps.vercelDomain s) (Steps.vercelVerified s)).

Definition set_cloudflareZone (b : bool) : Frame -> Frame :=
  with_steps (fun s =>
    Steps.mk (Steps.availabilityCheck s) (Steps.domainPurchase s) b
             (Steps.nameserversSet s) (Steps.dnsRecords s)
             (Steps.vercelDomain s) (Steps.vercelVerified s)).

Definition set_nameserversSet (b : bool) : Frame -> Frame :=
  with_steps (fun s =>
    Steps.mk (Steps.availabilityCheck s) (Steps.domainPurchase s)
             (Steps.cloudflareZone s) b (Steps.dnsRecords s)
             (Steps.vercelDomain s) (Steps.vercelVerified s)).

Definition set_dnsRecords (b : bool) : Frame -> Frame :=
  with_steps (fun s =>
    Steps.mk (Steps.availabilityCheck s) (Steps.domainPurchase s)
             (Steps.cloudflareZone s) (Steps.nameserversSet s) b
             (Steps.vercelDomain s) (Steps.vercelVerified s)).

Definition set_vercelDomain (b : bool) : Frame -> Frame :=
  with_steps (fun s =>
    Steps.mk (Steps.availabilityCheck s) (Steps.domainPurchase s)
             (Steps.cloudflareZone s) (Steps.nameserversSet s)
             (Steps.dnsRecords s) b (Steps.vercelVerified s)).

Definition set_vercelVerified (b : bool) : Frame -> Frame :=
  with_steps (fun s =>
    Steps.mk (Steps.availabilityCheck s) (Steps.domainPurchase s)
             (Steps.cloudflareZone s) (Steps.nameserversSet s)
             (Steps.dnsRecords s) (Steps.vercelDomain s) b).

Definition set_details_purchase (domainId transactionId : option string)
  : Frame -> Frame :=
  with_details (fun d =>
    Details.mk domainId transactionId (Details.cloudflareZoneId d)
               (Details.cloudflareNameservers d) (Details.dnsRecordIds d)).

Definition set_details_zone (id : string) (nameServers : list string)
  : Frame -> Frame :=
  with_details (fun d =>
    Details.mk (Details.domainId d) (Details.transactionId d) (Some id)
               (Some nameServers) (Details.dnsRecordIds d)).

Definition set_details_dnsRecordIds (ids : list string) : Frame -> Frame :=
  with_details (fun d =>
    Details.mk (Details.domainId d) (Details.transactionId d)
               (Details.cloudflareZoneId d) (Details.cloudflareNameservers d)
               (Some ids)).

Definition set_domainPurchased (b : bool) : Frame -> Frame :=
  with_state (fun s =>
    WorkflowState.mk (WorkflowState.domain s) (WorkflowState.years s)
      (WorkflowState.enableWhoisGuard s) b (WorkflowState.cloudflareZoneId s)
      (WorkflowState.cloudflareRecordIds s) (WorkflowState.vercelDomainAdded s)).

Definition set_cloudflareZoneId (id : string) : Frame -> Frame :=
  with_state (fun s =>
    WorkflowState.mk (WorkflowState.domain s) (WorkflowState.years s)
      (WorkflowState.enableWhoisGuard s) (WorkflowState.domainPurchased s)
      (Some id) (WorkflowState.cloudflareRecordIds s)
      (WorkflowState.vercelDomainAdded s)).

Definition set_cloudflareRecordIds (ids : list string) : Frame -> Frame :=
  with_state (fun s =>
    WorkflowState.mk (WorkflowState.domain s) (WorkflowState.years s)
      (WorkflowState.enableWhoisGuard s) (WorkflowState.domainPurchased s)
      (WorkflowState.cloudflareZoneId s) ids
      (WorkflowState.vercelDomainAdded s)).

Definition set_vercelDomainAdded (b : bool) : Frame -> Frame :=
  with_state (fun s =>
    WorkflowState.mk (WorkflowState.domain s) (WorkflowState.years s)
      (WorkflowState.enableWhoisGuard s) (WorkflowState.domainPurchased s)
      (WorkflowState.cloudflareZoneId s) (WorkflowState.cloudflareRecordIds s) b).

(** Step 5 stores the one array [dnsResult.recordIds] both in
    [state.cloudflareRecordIds] and in [result.details.dnsRecordIds]. *)
Definition set_recordIds (ids : list string) (fr : Frame) : Frame :=
  set_details_dnsRecordIds ids (set_cloudflareRecordIds ids fr).

(** [state.cloudflareRecordIds.push(id)] in step 6: the array is the one
    step 5 stored, so [result.details.dnsRecordIds] shows the new id too. *)
Definition push_recordId (id : string) (fr : Frame) : Frame :=
  set_recordIds (WorkflowState.cloudflareRecordIds (state fr) ++ [id]) fr.

(** ** src/lib/config.ts *)

Definition service_name (s : Service) : string :=
  match s with
  | namecheap => "namecheap"
  | cloudflare => "cloudflare"
  | vercel => "vercel"
  | registrant => "registrant"
  | github => "github"
  | deploy => "deploy"
  end.

Definition requiredFields (s : Service) : list string :=
  match s with
  | namecheap => ["apiUser"; "apiKey"; "username"; "clientIp"]
  | cloudflare => ["apiToken"; "accountId"]
  | vercel => ["token"; "projectId"]
  | registrant =>
      ["firstName"; "lastName"; "address1"; "city"; "stateProvince";
       "postalCode"; "country"; "phone"; "email"]
  | github => ["token"]
  | deploy => []
  end.

Section Program.

Context {W : Type} (env : Env W).

(** The loop of [validateConfig] over the required fields. *)
Fixpoint validateFields {St} (service : Service) (fields : list string)
  : M St unit :=
  match fields with
  | [] => ret tt
  | field :: rest =>
      if negb (truthy (config env service field))
      then throw (Error ("Missing required " +++ service_name service
                         +++ " config: " +++ field))
      else validateFields service rest
  end.

Definition validateConfig {St} (service : Service) : M St unit :=
  match service with
  | deploy =>
      if negb (truthy (config env github "token"))
      then throw (Error "Missing required config for deploy: GITHUB_TOKEN")
      else if negb (truthy (config env vercel "token"))
      then throw (Error "Missing required config for deploy: VERCEL_TOKEN")
      else ret tt
  | _ => validateFields service (requiredFields service)
  end.

(** ** src/lib/utils.ts *)

Definition emit (e : Event) : M (Sys W) unit :=
  fun s => (Ret tt, mkSys (world s) (trace s ++ [e])).

Definition logger_info (message : string) : M (Sys W) unit :=
  emit (Logged LInfo message).
Definition logger_success (message : string) : M (Sys W) unit :=
  emit (Logged LSuccess message).
Definition logger_warn (message : string) : M (Sys W) unit :=
  emit (Logged LWarn message).
Definition logger_error (message : string) : M (Sys W) unit :=
  emit (Logged LError message).

Definition delay (ms : Z) : M (Sys W) unit :=
  fun s => (Ret tt, mkSys (elapse env ms (world s)) (trace s ++ [Delayed ms])).

Definition formatDomain (domain : string) : string := cyan env domain.

(** The [for] loop of [retry]; [fuel] bounds the iterations that remain and
    [retry] starts it with [maxAttempts] of them.  Leaving the loop, by
    its condition or by [break], reaches [throw lastError]. *)
Fixpoint retry_loop {T} (fn : M (Sys W) T)
    (maxAttempts initialDelayMs maxDelayMs : Z)
    (onRetry : option (Z -> Thrown -> M (Sys W) unit))
    (fuel : nat) (attempt : Z) (lastError : Thrown) : M (Sys W) T :=
  match fuel with
  | O => throw lastError
  | S fuel' =>
      if attempt <=? maxAttempts then
        tryCatch fn (fun error =>
          if attempt =? maxAttempts then throw error
          else
            let delayMs :=
              Z.min (initialDelayMs * 2 ^ (attempt - 1)) maxDelayMs in
            match onRetry with
            | Some callback => callback attempt error
            | None => ret tt
            end ;;;
            logger_warn ("Attempt " +++ string_of_Z attempt
                         +++ " failed, retrying in " +++ string_of_Z delayMs
                         +++ "ms...") ;;;
            delay delayMs ;;;
            retry_loop fn maxAttempts initialDelayMs maxDelayMs onRetry
                       fuel' (attempt + 1) error)
      else throw lastError
  end.

Definition retry {T} (fn : M (Sys W) T) (options : RetryOptions.t (Sys W))
  : M (Sys W) T :=
  let maxAttempts := default 3 (RetryOptions.maxAttempts options) in
  let initialDelayMs := default 1000 (RetryOptions.initialDelayMs options) in
  let maxDelayMs := default 30000 (RetryOptions.maxDelayMs options) in
  retry_loop fn maxAttempts initialDelayMs maxDelayMs
             (RetryOptions.onRetry options)
             (Z.to_nat maxAttempts) 1 Undefined.

(** ** src/lib/namecheap.ts *)

(** A provider function sends its request and gets the world's answer. *)
Definition request {R} (r : Request) (answer : W -> R * W) : M (Sys W) R :=
  fun s =>
    let (a, w') := answer (world s) in
    (Ret a, mkSys w' (trace s ++ [Sent r])).

Definition splitDomain {St} (domain : string) : M St (string * string) :=
  let parts := split "." domain in
  if (Z.of_nat (length parts) <? 2)
  then throw (Error ("Invalid domain format: " +++ domain))
  else
    let tld := join "." (tl parts) in
    let sld := hd EmptyString parts in
    ret (sld, tld).

Definition checkAvailability (domain : string)
  : M (Sys W) AvailabilityResult.t :=
  request (CheckAvailability domain) (answer_checkAvailability env domain).

(** [splitDomain] is called before the try block of [purchaseDomain]. *)
Definition purchaseDomain (domain : string) (years : Z)
    (enableWhoisGuard : bool) : M (Sys W) PurchaseResult.t :=
  _ <- splitDomain domain ;;
  request (PurchaseDomain domain years enableWhoisGuard)
          (answer_purchaseDomain env domain years enableWhoisGuard).

(** [splitDomain] is called before the try block of [setNameservers]. *)
Definition setNameservers (domain : string) (nameservers : list string)
  : M (Sys W) SetNameserversResult.t :=
  p <- splitDomain domain ;;
  let (sld, tld) := (p : string * string) in
  request (SetNameservers sld tld nameservers)
          (answer_setNameservers env sld tld nameservers).

(** ** src/lib/cloudflare.ts *)

Definition fetchExistingZone (domain : string) : M (Sys W) CreateZoneResult.t :=
  r <- request (FetchExistingZone domain) (answer_getZone env domain) ;;
  match r with
  | GetFound zone => ret (CreateZoneResult.mk true (Some zone) None (Some true))
  | GetNone => ret (CreateZoneResult.mk false None (Some "Zone not found") None)
  | GetFailed msg => ret (CreateZoneResult.mk false None msg None)
  end.

Definition createZone (domain : string) : M (Sys W) CreateZoneResult.t :=
  r <- request (CreateZone domain) (answer_postZone env domain) ;;
  match r with
  | PostCreated zone => ret (CreateZoneResult.mk true (Some zone) None None)
  | PostRejected msg => ret (CreateZoneResult.mk false None (Some msg) None)
  | PostConflict => fetchExistingZone domain
  | PostFailed msg => ret (CreateZoneResult.mk false None msg None)
  end.

Definition createDNSRecord (zoneId : string) (record : DNSRecord.t)
  : M (Sys W) CreateDNSRecordResult.t :=
  request (CreateDNSRecord zoneId record)
          (answer_createDNSRecord env zoneId record).

(** The [for ... of] loop of [createDNSRecords], with its two accumulators. *)
Fixpoint createDNSRecords_loop (zoneId : string) (records : list DNSRecord.t)
    (recordIds errors : list string) : M (Sys W) (list string * list string) :=
  match records with
  | [] => ret (recordIds, errors)
  | record :: rest =>
      result <- createDNSRecord zoneId record ;;
      if CreateDNSRecordResult.success result
         && truthy_opt (CreateDNSRecordResult.recordId result)
      then createDNSRecords_loop zoneId rest
             (recordIds ++ [default "" (CreateDNSRecordResult.recordId result)])
             errors
      else createDNSRecords_loop zoneId rest recordIds
             (errors ++ [RecordType.to_string (DNSRecord.type record) +++ " "
                         +++ DNSRecord.name record +++ ": "
                         +++ tmpl (CreateDNSRecordResult.errorMessage result)])
  end.

Definition createDNSRecords (zoneId : string) (records : list DNSRecord.t)
  : M (Sys W) DNSBatchResult.t :=
  p <- createDNSRecords_loop zoneId records [] [] ;;
  let (recordIds, errors) := (p : list string * list string) in
  ret (DNSBatchResult.mk (Nat.eqb (length errors) 0) recordIds errors).

Definition deleteDNSRecord (zoneId recordId : string)
  : M (Sys W) DeleteDNSRecordResult.t :=
  request (DeleteDNSRecord zoneId recordId)
          (answer_deleteDNSRecord env zoneId recordId).

Fixpoint deleteDNSRecords (zoneId : string) (recordIds : list string)
  : M (Sys W) unit :=
  match recordIds with
  | [] => ret tt
  | recordId :: rest =>
      _ <- deleteDNSRecord zoneId recordId ;;
      deleteDNSRecords zoneId rest
  end.

Definition getZoneStatus (zoneId : string) : M (Sys W) (option ZoneStatus.t) :=
  request (GetZoneStatus zoneId) (answer_getZoneStatus env zoneId).

(** [status?.status] *)
Definition status_of (status : option ZoneStatus.t) : option string :=
  option_map ZoneStatus.status status.

(** [status?.status === 'active'] *)
Definition is_active (status : option ZoneStatus.t) : bool :=
  match status_of status with
  | Some s => String.eqb s "active"
  | None => false
  end.

(** The [for] loop of [waitForZoneActivation], from [attempt] on. *)
Fixpoint waitForZoneActivation_loop (zoneId : string)
    (maxAttempts intervalMs : Z) (fuel : nat) (attempt : Z) : M (Sys W) bool :=
  let timed_out :=
    logger_warn ("Zone " +++ zoneId
                 +++ " did not become active within the timeout period") ;;;
    ret false in
  match fuel with
  | O => timed_out
  | S fuel' =>
      if attempt <=? maxAttempts then
        status <- getZoneStatus zoneId ;;
        if is_active status then
          logger_success ("Zone " +++ zoneId +++ " is now active!") ;;;
          ret true
        else
          logger_info ("Zone status: " +++ or_else (status_of status) "unknown"
                       +++ " (attempt " +++ string_of_Z attempt +++ "/"
                       +++ string_of_Z maxAttempts +++ ")") ;;;
          when (attempt <? maxAttempts) (delay intervalMs) ;;;
          waitForZoneActivation_loop zoneId maxAttempts intervalMs
                                     fuel' (attempt + 1)
      else timed_out
  end.

Definition waitForZoneActivation (zoneId : string)
    (maxAttempts intervalMs : Z) : M (Sys W) bool :=
  logger_info ("Waiting for zone " +++ zoneId +++ " to become active...") ;;;
  waitForZoneActivation_loop zoneId maxAttempts intervalMs
                             (Z.to_nat maxAttempts) 1.

(** ** src/lib/vercel.ts *)

Definition addDomain (domain : string) : M (Sys W) AddDomainResult.t :=
  request (AddDomain domain) (answer_addDomain env domain).

Definition verifyDomain (domain : string) : M (Sys W) VerifyDomainResult.t :=
  request (VerifyDomain domain) (answer_verifyDomain env domain).

Definition removeDomain (domain : string) : M (Sys W) RemoveDomainResult.t :=
  request (RemoveDomain domain) (answer_removeDomain env domain).

(** The [for] loop of [waitForDomainVerification], from [attempt] on. *)
Fixpoint waitForDomainVerification_loop (domain : string)
    (maxAttempts intervalMs : Z) (fuel : nat) (attempt : Z) : M (Sys W) bool :=
  let gave_up :=
    logger_error ("Domain " +++ domain +++ " verification failed after "
                  +++ string_of_Z maxAttempts +++ " attempts") ;;;
    ret false in
  match fuel with
  | O => gave_up
  | S fuel' =>
      if attempt <=? maxAttempts then
        result <- verifyDomain domain ;;
        if VerifyDomainResult.verified result then ret true
        else
          logger_info ("Verification attempt " +++ string_of_Z attempt +++ "/"
                       +++ string_of_Z maxAttempts +++ " - not yet verified") ;;;
          when (attempt <? maxAttempts) (delay intervalMs) ;;;
          waitForDomainVerification_loop domain maxAttempts intervalMs
                                         fuel' (attempt + 1)
      else gave_up
  end.

Definition waitForDomainVerification (domain : string)
    (maxAttempts intervalMs : Z) : M (Sys W) bool :=
  logger_info ("Waiting for domain " +++ domain
               +++ " to be verified on Vercel...") ;;;
  waitForDomainVerification_loop domain maxAttempts intervalMs
                                 (Z.to_nat maxAttempts) 1.

Definition getVercelDNSRecords (domain : string)
  : list (RecordType.t * string * string) :=
  [ (RecordType.A, "@", "76.76.21.21");
    (RecordType.CNAME, "www", "cname.vercel-dns.com") ].

(** ** src/index.ts *)

Definition banner : string :=
  "═══════════════════════════════════════════════════════════════".

Definition rollback (state : WorkflowState.t) : M (Sys W) unit :=
  logger_warn banner ;;;
  logger_warn "INITIATING ROLLBACK..." ;;;
  logger_warn banner ;;;
  when (WorkflowState.vercelDomainAdded state)
    (tryCatch
       (_ <- removeDomain (WorkflowState.domain state) ;;
        logger_info "Removed domain from Vercel")
       (fun e =>
          m <- message_of e ;;
          logger_error ("Failed to remove domain from Vercel: " +++ m))) ;;;
  match WorkflowState.cloudflareZoneId state with
  | Some zoneId =>
      when (truthy zoneId
            && (0 <? Z.of_nat (length (WorkflowState.cloudflareRecordIds state))))
        (tryCatch
           (deleteDNSRecords zoneId (WorkflowState.cloudflareRecordIds state) ;;;
            logger_info "Deleted DNS records from Cloudflare")
           (fun e =>
              m <- message_of e ;;
              logger_error ("Failed to delete DNS records: " +++ m)))
  | None => ret tt
  end ;;;
  when (WorkflowState.domainPurchased state)
    (logger_warn ("⚠️  Domain " +++ WorkflowState.domain state
                  +++ " was purchased and CANNOT be automatically refunded. "
                  +++ "Please contact Namecheap support if needed.")) ;;;
  logger_info "Rollback completed".

(** [runWorkflow] runs on the world and on its two local objects. *)
Definition Run : Type := (Sys W * Frame)%type.

Definition sys {R} (m : M (Sys W) R) : M Run R :=
  fun s => let (o, s') := m (fst s) in (o, (s', snd s)).

Definition assign (f : Frame -> Frame) : M Run unit :=
  fun s => (Ret tt, (fst s, f (snd s))).

Definition read : M Run Frame := fun s => (Ret (snd s), s).

(** [return result] *)
Definition return_result : M Run WorkflowResult.t :=
  fr <- read ;; ret (result fr).

(** [await rollback(state)] *)
Definition run_rollback : M Run unit :=
  fr <- read ;; sys (rollback (state fr)).

(** The loop of step 6 over [vercelAddResult.verificationRecords]. *)
Fixpoint createVerificationRecords (zoneId : string)
    (records : list VerificationRecord.t) : M Run unit :=
  match records with
  | [] => ret tt
  | record :: rest =>
      (if String.eqb (VerificationRecord.type record) "TXT" then
         txtResult <- sys (createDNSRecord zoneId
                             (DNSRecord.mk RecordType.TXT
                                (VerificationRecord.name record)
                                (VerificationRecord.value record)
                                None None None)) ;;
         when (CreateDNSRecordResult.success txtResult
               && truthy_opt (CreateDNSRecordResult.recordId txtResult))
              (assign (push_recordId
                 (default "" (CreateDNSRecordResult.recordId txtResult))))
       else ret tt) ;;;
      createVerificationRecords zoneId rest
  end.

(** The options step 4 passes to [retry]. *)
Definition nameserver_retry_options : RetryOptions.t (Sys W) :=
  RetryOptions.mk (Some 3) (Some 5000) None
    (Some (fun attempt error =>
       m <- message_of error ;;
       logger_warn ("Nameserver update failed (attempt "
                    +++ string_of_Z attempt +++ "): " +++ m))).

(** The records step 5 asks for: [vercelRecords.map(...)]. *)
Definition hostingRecords (domain : string) : list DNSRecord.t :=
  let vercelRecords := getVercelDNSRecords domain in
  map (fun r : RecordType.t * string * string =>
         let '(type, name, content) := r in
         DNSRecord.mk type (if String.eqb name "@" then domain else name)
                      content None (Some false) None)
      vercelRecords.

(** Steps 5 to 7 and the completion, once the zone is known. *)
Definition runWorkflow_records (domain : string) (zone : CloudflareZone.t)
  : M Run WorkflowResult.t :=
  sys (logger_info banner) ;;;
  sys (logger_info "STEP 5: Creating DNS records for Vercel") ;;;
  sys (logger_info banner) ;;;
  dnsResult <- sys (createDNSRecords (CloudflareZone.id zone)
                                     (hostingRecords domain)) ;;
  assign (set_recordIds (DNSBatchResult.recordIds dnsResult)) ;;;
  (if negb (DNSBatchResult.success dnsResult) then
     sys (logger_warn ("Some DNS records failed: "
                       +++ join ", " (DNSBatchResult.errors dnsResult))) ;;;
     assign (push_errors (DNSBatchResult.errors dnsResult))
   else
     sys (logger_success ("DNS records created: "
                          +++ join ", " (DNSBatchResult.recordIds dnsResult)))) ;;;
  assign (set_dnsRecords (DNSBatchResult.success dnsResult)) ;;;
  sys (logger_info banner) ;;;
  sys (logger_info "STEP 6: Adding domain to Vercel project") ;;;
  sys (logger_info banner) ;;;
  validateConfig vercel ;;;
  vercelAddResult <- sys (addDomain domain) ;;
  if negb (AddDomainResult.success vercelAddResult) then
    sys (logger_error ("Failed to add domain to Vercel: "
                       +++ tmpl (AddDomainResult.errorMessage vercelAddResult))) ;;;
    assign (push_errors
              ["Vercel Add: "
               +++ tmpl (AddDomainResult.errorMessage vercelAddResult)]) ;;;
    run_rollback ;;;
    return_result
  else
    assign (set_vercelDomainAdded true) ;;;
    assign (set_vercelDomain true) ;;;
    sys (logger_success "Domain added to Vercel project") ;;;
    match AddDomainResult.verificationRequired vercelAddResult,
          AddDomainResult.verificationRecords vercelAddResult with
    | Some true, Some verificationRecords =>
        sys (logger_warn
          "Domain requires verification. Creating verification TXT records...") ;;;
        createVerificationRecords (CloudflareZone.id zone) verificationRecords
    | _, _ => ret tt
    end ;;;
    sys (logger_info banner) ;;;
    sys (logger_info "STEP 7: Verifying domain on Vercel") ;;;
    sys (logger_info banner) ;;;
    verified <- sys (waitForDomainVerification domain 10 30000) ;;
    (if negb verified then
       sys (logger_error "Domain verification failed after 10 attempts") ;;;
       assign (push_errors
         ["Vercel Verification: Failed after 10 attempts - requires manual review"])
     else
       assign (set_vercelVerified true) ;;;
       sys (logger_success "Domain verified on Vercel!")) ;;;
    fr <- read ;;
    assign (set_success
      (forallb (fun step => Bool.eqb step true)
               (Steps.values (WorkflowResult.steps (result fr))))) ;;;
    fr <- read ;;
    (if WorkflowResult.success (result fr) then
       sys (logger_info banner) ;;;
       sys (logger_success "🎉 WORKFLOW COMPLETED SUCCESSFULLY!") ;;;
       sys (logger_info banner) ;;;
       sys (logger_info ("Domain: " +++ formatDomain domain)) ;;;
       sys (logger_info ("Cloudflare Zone ID: "
         +++ tmpl (Details.cloudflareZoneId
                     (WorkflowResult.details (result fr))))) ;;;
       sys (logger_info ("Nameservers: "
         +++ tmpl (option_map (join ", ")
                     (Details.cloudflareNameservers
                        (WorkflowResult.details (result fr))))))
     else
       sys (logger_warn "Workflow completed with some steps failing")) ;;;
    return_result.

(** The try block of [runWorkflow]: steps 1 to 4, then
    [runWorkflow_records]. *)
Definition runWorkflow_try (domain : string) (years : Z)
    (enableWhoisGuard : bool) : M Run WorkflowResult.t :=
  sys (logger_info banner) ;;;
  sys (logger_info ("STEP 1: Checking domain availability for "
                    +++ formatDomain domain)) ;;;
  sys (logger_info banner) ;;;
  validateConfig namecheap ;;;
  availabilityResult <- sys (checkAvailability domain) ;;
  if negb (AvailabilityResult.available availabilityResult) then
    let msg := or_else (AvailabilityResult.errorMessage availabilityResult)
                       "Domain is not available" in
    sys (logger_error ("Domain " +++ domain +++ " is not available: " +++ msg)) ;;;
    assign (push_errors ["Availability: " +++ msg]) ;;;
    return_result
  else
  sys (logger_success ("Domain " +++ domain +++ " is available!")) ;;;
  when (default false (AvailabilityResult.isPremium availabilityResult))
    (sys (logger_warn ("This is a premium domain. Price: "
       +++ tmpl (AvailabilityResult.premiumPrice availabilityResult)))) ;;;
  assign (set_availabilityCheck true) ;;;
  sys (logger_info banner) ;;;
  sys (logger_info ("STEP 2: Purchasing domain " +++ formatDomain domain)) ;;;
  sys (logger_info banner) ;;;
  validateConfig registrant ;;;
  purchaseResult <- sys (purchaseDomain domain years enableWhoisGuard) ;;
  if negb (PurchaseResult.success purchaseResult) then
    sys (logger_error ("Failed to purchase domain: "
                       +++ tmpl (PurchaseResult.errorMessage purchaseResult))) ;;;
    assign (push_errors
              ["Purchase: "
               +++ tmpl (PurchaseResult.errorMessage purchaseResult)]) ;;;
    return_result
  else
  assign (set_domainPurchased true) ;;;
  assign (set_domainPurchase true) ;;;
  assign (set_details_purchase (PurchaseResult.domainId purchaseResult)
                               (PurchaseResult.transactionId purchaseResult)) ;;;
  sys (logger_success ("Domain purchased! ID: "
         +++ tmpl (PurchaseResult.domainId purchaseResult) +++ ", Amount: "
         +++ tmpl (PurchaseResult.chargedAmount purchaseResult))) ;;;
  sys (logger_info banner) ;;;
  sys (logger_info ("STEP 3: Creating Cloudflare zone for "
                    +++ formatDomain domain)) ;;;
  sys (logger_info banner) ;;;
  validateConfig cloudflare ;;;
  zoneResult <- sys (createZone domain) ;;
  match (if CreateZoneResult.success zoneResult
         then CreateZoneResult.zone zoneResult else None) with
  | None =>
      sys (logger_error ("Failed to create Cloudflare zone: "
             +++ tmpl (CreateZoneResult.errorMessage zoneResult))) ;;;
      assign (push_errors
                ["Cloudflare Zone: "
                 +++ tmpl (CreateZoneResult.errorMessage zoneResult)]) ;;;
      run_rollback ;;;
      return_result
  | Some zone =>
      assign (set_cloudflareZoneId (CloudflareZone.id zone)) ;;;
      assign (set_cloudflareZone true) ;;;
      assign (set_details_zone (CloudflareZone.id zone)
                               (CloudflareZone.nameServers zone)) ;;;
      sys (logger_success ("Cloudflare zone created: "
                           +++ CloudflareZone.id zone)) ;;;
      sys (logger_info ("Nameservers: "
                        +++ join ", " (CloudflareZone.nameServers zone))) ;;;
      sys (logger_info banner) ;;;
      sys (logger_info "STEP 4: Setting nameservers on Namecheap") ;;;
      sys (logger_info banner) ;;;
      nsResult <- sys (retry
        (setNameservers domain (CloudflareZone.nameServers zone))
        nameserver_retry_options) ;;
      if negb (SetNameserversResult.success nsResult) then
        sys (logger_error ("Failed to set nameservers: "
               +++ tmpl (SetNameserversResult.errorMessage nsResult))) ;;;
        assign (push_errors
                  ["Nameservers: "
                   +++ tmpl (SetNameserversResult.errorMessage nsResult)]) ;;;
        run_rollback ;;;
        return_result
      else
        assign (set_nameserversSet true) ;;;
        sys (logger_success "Nameservers updated successfully!") ;;;
        runWorkflow_records domain zone
  end.

(** The two objects as [runWorkflow] creates them. *)
Definition initial_frame (domain : string) (years : Z)
    (enableWhoisGuard : bool) : Frame :=
  mkFrame
    (WorkflowState.mk domain years enableWhoisGuard false None [] false)
    (WorkflowResult.mk false
       (Steps.mk false false false false false false false)
       (Details.mk None None None None None)
       []).

(** The catch block of [runWorkflow]. *)
Definition runWorkflow_catch (error : Thrown) : M Run WorkflowResult.t :=
  m <- message_of error ;;
  sys (logger_error ("Unexpected error: " +++ m)) ;;;
  m' <- message_of error ;;
  assign (push_errors ["Unexpected: " +++ m']) ;;;
  run_rollback ;;;
  return_result.

Definition runWorkflow (domain : string) (years : Z)
    (enableWhoisGuard : bool) : M (Sys W) WorkflowResult.t :=
  fun s =>
    let (o, s') :=
      tryCatch (runWorkflow_try domain years enableWhoisGuard)
               runWorkflow_catch
               (s, initial_frame domain years enableWhoisGuard) in
    (o, fst s').

End Program.

(** ** Reading the log *)

Definition is_called (e : Event) : bool :=
  match e with Called _ => true | _ => false end.

Definition is_logged (e : Event) : bool :=
  match e with Logged _ _ => true | _ => false end.

Definition is_delayed (e : Event) : bool :=
  match e with Delayed _ => true | _ => false end.

(** How often a caller-supplied operation was entered. *)
Definition calls (t : list Event) : nat := length (filter is_called t).

(** The log without the [logger] lines: requests, delays and calls. *)
Definition actions (t : list Event) : list Event :=
  filter (fun e => negb (is_logged e)) t.

(** An operation handed to [retry] by a caller: it records that it was
    entered, as a counting mock does, and then acts on the world. *)
Definition invoke {W T} (label : string) (op : W -> Outcome T * W)
  : M (Sys W) T :=
  fun s =>
    let (o, w') := op (world s) in
    (o, mkSys w' (trace s ++ [Called label])).

(** A callback that only writes to the log. *)
Definition logs_only {W} (m : M (Sys W) unit) : Prop :=
  forall s, exists evs,
    m s = (Ret tt, mkSys (world s) (trace s ++ evs))
    /\ forallb is_logged evs = true.

(** The options of [retry] whose [onRetry], when present, only writes to
    the log. *)
Definition quiet_options {W} (options : RetryOptions.t (Sys W)) : Prop :=
  forall callback, RetryOptions.onRetry options = Some callback ->
    forall attempt error, logs_only (callback attempt error).

(** The delay [retry] computes after the failure of [attempt]. *)
Definition backoff {W} (options : RetryOptions.t (Sys W)) (attempt : Z) : Z :=
  Z.min (default 1000 (RetryOptions.initialDelayMs options) * 2 ^ (attempt - 1))
        (default 30000 (RetryOptions.maxDelayMs options)).

(** ** src/lib/deploy.ts *)

(** [try { m } finally { c }]: the cleanup runs however [m] ends, and a
    cleanup that throws replaces the outcome of [m]. *)
Definition finally {St A} (m : M St A) (c : M St unit) : M St A :=
  fun s =>
    let (o, s1) := m s in
    match c s1 with
    | (Ret _, s2) => (o, s2)
    | (Throw e, s2) => (Throw e, s2)
    end.

Module GitHubRepoResult.
Record t : Type := mk {
  success : bool;
  repoName : option string;
  repoUrl : option string;
  username : option string;
  errorMessage : option string
}.
End GitHubRepoResult.

Module DeployResult.
Record t : Type := mk {
  success : bool;
  vercelProjectId : option string;
  vercelProjectName : option string;
  deploymentUrl : option string;
  githubRepoUrl : option string;
  errorMessage : option string
}.

(** [{ success: false, errorMessage }] *)
Definition failure (errorMessage : option string) : t :=
  mk false None None None None errorMessage.

(** [vercelResult.deploymentUrl = finalUrl] *)
Definition set_deploymentUrl (finalUrl : string) (r : t) : t :=
  mk (success r) (vercelProjectId r) (vercelProjectName r) (Some finalUrl)
     (githubRepoUrl r) (errorMessage r).
End DeployResult.

(** [statusRes.data], as far as [waitForDeployment] reads it. *)
Module DeploymentStatus.
Record t : Type := mk { readyState : option string; url : option string }.
End DeploymentStatus.

(** What [waitForDeployment] resolves to. *)
Module Readiness.
Record t : Type := mk { ready : bool; finalUrl : string }.
End Readiness.

(** The file system, the clock and the services the deployment works
    with.  [existsSync] and [now] read the world; [extractDir_of] is
    [path.join(path.dirname(zipPath), 'extracted')].  [extractZip] and
    [rmSync] may throw.  [createGitHubRepo] and [deployToVercel] are
    taken by their contract: each wraps its work in a try/catch that
    turns a failure into a result value.  The status request of
    [waitForDeployment] may throw, as [axios.get] does. *)
Record DeployEnv (W : Type) : Type := mkDeployEnv {
  existsSync : string -> W -> bool;
  now : W -> Z;
  extractDir_of : string -> string;
  answer_extractZip : string -> string -> W -> Outcome string * W;
  answer_createGitHubRepo :
    string -> string -> W -> GitHubRepoResult.t * W;
  answer_deployToVercel :
    string -> string -> option string -> option string -> W
    -> DeployResult.t * W;
  answer_getDeployment : string -> W -> Outcome DeploymentStatus.t * W;
  answer_rmSync : string -> W -> Outcome unit * W
}.
Arguments existsSync {W}.
Arguments now {W}.
Arguments extractDir_of {W}.
Arguments answer_extractZip {W}.
Arguments answer_createGitHubRepo {W}.
Arguments answer_deployToVercel {W}.
Arguments answer_getDeployment {W}.
Arguments answer_rmSync {W}.

(** [state === 'READY'] and the like, on a value that may be undefined. *)
Definition is_state (state : option string) (name : string) : bool :=
  match state with
  | Some s => String.eqb s name
  | None => false
  end.

Section Deploy.

Context {W : Type} (env : Env W) (denv : DeployEnv W).

(** An operation whose answer is a result value. *)
Definition perform {R} (label : string) (answer : W -> R * W) : M (Sys W) R :=
  invoke label (fun w => let (r, w') := answer w in (Ret r, w')).

(** A read of the world. *)
Definition observe {R} (f : W -> R) : M (Sys W) R :=
  fun s => (Ret (f (world s)), s).

Definition teamParam : string :=
  if truthy (config env vercel "teamId")
  then "?teamId=" +++ config env vercel "teamId"
  else "".

(** The address [waitForDeployment] asks for the state of a deployment. *)
Definition deployment_address (deploymentUrl : string) : string :=
  "https://api.vercel.com/v13/deployments/" +++ deploymentUrl +++ teamParam.

Definition getDeployment (deploymentUrl : string)
  : M (Sys W) DeploymentStatus.t :=
  invoke (deployment_address deploymentUrl)
         (answer_getDeployment denv deploymentUrl).

(** The body of the try block of [waitForDeployment]: [Some] is a
    [return] out of the function, [None] goes on with the loop. *)
Definition checkDeployment (deploymentUrl : string)
  : M (Sys W) (option Readiness.t) :=
  statusRes <- getDeployment deploymentUrl ;;
  let state := DeploymentStatus.readyState statusRes in
  logger_info ("  Deployment state: " +++ tmpl state) ;;;
  if is_state state "READY" then
    let finalUrl := or_else (DeploymentStatus.url statusRes) deploymentUrl in
    ret (Some (Readiness.mk true finalUrl))
  else if is_state state "ERROR" || is_state state "CANCELED" then
    logger_error ("Deployment failed with state: " +++ tmpl state) ;;;
    ret (Some (Readiness.mk false deploymentUrl))
  else ret None.

(** The [for] loop of [waitForDeployment], from [i] on; the suspension
    is the one [delay] makes. *)
Fixpoint waitForDeployment_loop (deploymentUrl : string)
    (maxAttempts intervalMs : Z) (fuel : nat) (i : Z)
  : M (Sys W) Readiness.t :=
  let timed_out :=
    logger_error "Deployment timed out" ;;;
    ret (Readiness.mk false deploymentUrl) in
  match fuel with
  | O => timed_out
  | S fuel' =>
      if i <? maxAttempts then
        delay env intervalMs ;;;
        returned <- tryCatch (checkDeployment deploymentUrl)
                             (fun _ => ret None) ;;
        match returned with
        | Some readiness => ret readiness
        | None =>
            waitForDeployment_loop deploymentUrl maxAttempts intervalMs
                                   fuel' (i + 1)
        end
      else timed_out
  end.

Definition waitForDeployment (deploymentUrl : string)
    (maxAttempts intervalMs : Z) : M (Sys W) Readiness.t :=
  logger_info "Waiting for deployment to be ready..." ;;;
  waitForDeployment_loop deploymentUrl maxAttempts intervalMs
                         (Z.to_nat maxAttempts) 0.

Definition extractZip (zipPath extractDir : string) : M (Sys W) string :=
  invoke ("extractZip " +++ zipPath)
         (answer_extractZip denv zipPath extractDir).

Definition createGitHubRepo (extractDir repoName : string)
  : M (Sys W) GitHubRepoResult.t :=
  perform ("createGitHubRepo " +++ repoName)
          (answer_createGitHubRepo denv extractDir repoName).

Definition deployToVercel (extractDir projectName : string)
    (githubUsername githubRepoName : option string)
  : M (Sys W) DeployResult.t :=
  perform ("deployToVercel " +++ projectName)
          (answer_deployToVercel denv extractDir projectName
                                 githubUsername githubRepoName).

Definition rmSync (dir : string) : M (Sys W) unit :=
  invoke ("rmSync " +++ dir) (answer_rmSync denv dir).

(** The finally block of [deployZipToVercel]. *)
Definition cleanup (extractDir : string) : M (Sys W) unit :=
  present <- observe (existsSync denv extractDir) ;;
  when present (rmSync extractDir).

(** The try block of [deployZipToVercel]. *)
Definition deployZipToVercel_try (zipPath extractDir finalProjectName : string)
  : M (Sys W) DeployResult.t :=
  actualExtractDir <- extractZip zipPath extractDir ;;
  githubResult <- createGitHubRepo actualExtractDir finalProjectName ;;
  if negb (GitHubRepoResult.success githubResult) then
    ret (DeployResult.failure (GitHubRepoResult.errorMessage githubResult))
  else
    vercelResult <- deployToVercel actualExtractDir finalProjectName
                      (GitHubRepoResult.username githubResult)
                      (GitHubRepoResult.repoName githubResult) ;;
    if negb (DeployResult.success vercelResult) then ret vercelResult
    else
      vercelResult <-
        (if truthy_opt (DeployResult.deploymentUrl vercelResult) then
           readiness <- waitForDeployment
                          (default "" (DeployResult.deploymentUrl vercelResult))
                          60 5000 ;;
           if Readiness.ready readiness
           then ret (DeployResult.set_deploymentUrl
                       (Readiness.finalUrl readiness) vercelResult)
           else ret vercelResult
         else ret vercelResult) ;;
      logger_success banner ;;;
      logger_success "🚀 DEPLOYMENT SUCCESSFUL!" ;;;
      logger_info ("   GitHub: "
                   +++ tmpl (DeployResult.githubRepoUrl vercelResult)) ;;;
      logger_info ("   Vercel Project ID: "
                   +++ tmpl (DeployResult.vercelProjectId vercelResult)) ;;;
      logger_info ("   URL: https://"
                   +++ tmpl (DeployResult.deploymentUrl vercelResult)) ;;;
      logger_success banner ;;;
      ret vercelResult.

(** [GITHUB_TOKEN] is [process.env.GITHUB_TOKEN], which is set exactly
    when [config.github.token] is. *)
Definition deployZipToVercel (zipPath : string) (projectName : option string)
  : M (Sys W) DeployResult.t :=
  logger_info banner ;;;
  logger_info "DEPLOYING ZIP TO GITHUB + VERCEL" ;;;
  logger_info banner ;;;
  present <- observe (existsSync denv zipPath) ;;
  if negb present then
    ret (DeployResult.failure (Some ("ZIP file not found: " +++ zipPath)))
  else if negb (truthy (config env github "token")) then
    ret (DeployResult.failure (Some "GITHUB_TOKEN must be set in .env"))
  else if negb (truthy (config env vercel "token")) then
    ret (DeployResult.failure (Some "VERCEL_TOKEN must be set in .env"))
  else
    let extractDir := extractDir_of denv zipPath in
    timestamp <- observe (now denv) ;;
    let finalProjectName :=
      if truthy_opt projectName then default "" projectName
      else "site-deploy-" +++ string_of_Z timestamp in
    finally (deployZipToVercel_try zipPath extractDir finalProjectName)
            (cleanup extractDir).

(** ** src/index.ts, with the deployment *)

(** [config.vercel.projectId = projectId]: the configuration the rest of
    the program reads. *)
Definition with_projectId (projectId : string) : Env W :=
  mkEnv W
    (fun service field =>
       match service with
       | vercel =>
           if String.eqb field "projectId" then projectId
           else config env service field
       | _ => config env service field
       end)
    (cyan env) (elapse env)
    (answer_checkAvailability env) (answer_purchaseDomain env)
    (answer_setNameservers env) (answer_postZone env) (answer_getZone env)
    (answer_createDNSRecord env) (answer_deleteDNSRecord env)
    (answer_getZoneStatus env) (answer_addDomain env)
    (answer_verifyDomain env) (answer_removeDomain env).

(** [domain.replace(/\./g, '-')] *)
Fixpoint dashed (domain : string) : string :=
  match domain with
  | EmptyString => EmptyString
  | String c rest =>
      String (if Ascii.eqb c "." then "-"%char else c) (dashed rest)
  end.

(** The result [runWorkflowWithDeploy] returns when the deployment
    failed. *)
Definition deploy_failed (errorMessage : option string) : WorkflowResult.t :=
  WorkflowResult.mk false
    (Steps.mk false false false false false false false)
    (Details.mk None None None None None)
    ["Deploy: " +++ tmpl errorMessage].

(** [runWorkflowWithDeploy] returns the result of the workflow and the
    address of the deployment.  After [setVercelProjectId] the workflow
    runs with the new project in its configuration. *)
Definition runWorkflowWithDeploy (zipPath domain : string) (years : Z)
    (enableWhoisGuard : bool)
  : M (Sys W) (WorkflowResult.t * option string) :=
  logger_info banner ;;;
  logger_info "STARTING FULL DEPLOY + DOMAIN WORKFLOW" ;;;
  logger_info banner ;;;
  logger_info ("ZIP: " +++ zipPath) ;;;
  logger_info ("Domain: " +++ formatDomain env domain) ;;;
  logger_info "" ;;;
  validateConfig env deploy ;;;
  deployResult <- deployZipToVercel zipPath (Some (dashed domain)) ;;
  if negb (DeployResult.success deployResult) then
    logger_error ("Deployment failed: "
                  +++ tmpl (DeployResult.errorMessage deployResult)) ;;;
    ret (deploy_failed (DeployResult.errorMessage deployResult), None)
  else
    if truthy_opt (DeployResult.vercelProjectId deployResult) then
      let projectId := default "" (DeployResult.vercelProjectId deployResult) in
      logger_info ("Vercel project ID set to: " +++ projectId) ;;;
      logger_success ("Using Vercel project: " +++ projectId) ;;;
      workflowResult <- runWorkflow (with_projectId projectId) domain years
                                    enableWhoisGuard ;;
      ret (workflowResult, DeployResult.deploymentUrl deployResult)
    else
      workflowResult <- runWorkflow env domain years enableWhoisGuard ;;
      ret (workflowResult, DeployResult.deploymentUrl deployResult).

(** [checkDomainAvailability] *)
Definition checkDomainAvailability (domain : string) : M (Sys W) unit :=
  validateConfig env namecheap ;;;
  result <- checkAvailability env domain ;;
  if truthy_opt (AvailabilityResult.errorMessage result) then
    logger_error ("Error: " +++ tmpl (AvailabilityResult.errorMessage result))
  else if AvailabilityResult.available result then
    logger_success ("✅ " +++ domain +++ " is AVAILABLE") ;;;
    when (default false (AvailabilityResult.isPremium result))
      (logger_info ("   Premium price: "
                    +++ tmpl (AvailabilityResult.premiumPrice result)))
  else
    logger_warn ("❌ " +++ domain +++ " is NOT AVAILABLE").

End Deploy.

(** ** Specifications of computations *)

(** [wp m Q s]: running [m] from [s] ends in an outcome and a state that
    satisfy [Q]. *)
Definition wp {St A} (m : M St A) (Q : Outcome A -> St -> Prop) (s : St)
  : Prop :=
  Q (fst (m s)) (snd (m s)).

(** [yields R m]: from every state, the outcome of [m] satisfies [R]. *)
Definition yields {St A} (R : Outcome A -> Prop) (m : M St A) : Prop :=
  forall s, R (fst (m s)).

(** The computation returns: it does not throw. *)
Definition returns {A} (o : Outcome A) : Prop := exists a, o = Ret a.

(** The computation returns or throws an [Error]: it never throws
    [undefined]. *)
Definition defined {A} (o : Outcome A) : Prop := o <> Throw Undefined.

(** [emits tr P m]: [m] only adds to the log, and every event it adds
    satisfies [P]. *)
Definition emits {St A} (tr : St -> list Event) (P : Event -> bool)
    (m : M St A) : Prop :=
  forall s, exists d, tr (snd (m s)) = tr s ++ d /\ forallb P d = true.

(** [adds tr L m]: [m] only adds to the log, and what it adds is in [L]. *)
Definition adds {St A} (tr : St -> list Event) (L : list Event -> Prop)
    (m : M St A) : Prop :=
  forall s, exists d, tr (snd (m s)) = tr s ++ d /\ L d.

(** ** What the properties speak of *)

(** Whether a character occurs in a string. *)
Fixpoint contains (c : ascii) (s : string) : bool :=
  match s with
  | EmptyString => false
  | String x rest => Ascii.eqb x c || contains c rest
  end.

(** The two parts [splitDomain] cuts a domain into. *)
Definition sld_of (domain : string) : string :=
  hd EmptyString (split "." domain).

Definition tld_of (domain : string) : string :=
  join "." (tl (split "." domain)).

(** Every field [validateConfig] requires of a service is set. *)
Definition configured {W} (env : Env W) (service : Service) : Prop :=
  forallb (fun field => truthy (config env service field))
          (requiredFields service) = true.

(** A record creation as [createDNSRecords] counts it: the result says
    success and carries a non-empty id. *)
Definition created_with (id : string) (r : CreateDNSRecordResult.t) : Prop :=
  CreateDNSRecordResult.success r = true
  /\ CreateDNSRecordResult.recordId r = Some id
  /\ truthy id = true.

(** The id of a record that the DNS provider created for one of the
    records of a batch. *)
Definition created_in {W} (env : Env W) (zoneId : string)
    (records : list DNSRecord.t) (id : string) : Prop :=
  exists record w,
    In record records
    /\ created_with id (fst (answer_createDNSRecord env zoneId record w)).

(** What a waiter does besides logging when it checks [k] times: a check,
    then a delay and a check for each further attempt. *)
Fixpoint poll_pattern (check : Event) (interval : Z) (k : nat) : list Event :=
  match k with
  | O => []
  | S k' =>
      check :: match k' with
               | O => []
               | S _ => Delayed interval :: poll_pattern check interval k'
               end
  end.

(** The world in which a waiter makes its check number [j + 1], when the
    run began in [w] and no earlier check ended it: [next] is what a check
    and the delay after it make of the world. *)
Fixpoint check_world {W} (next : W -> W) (j : nat) (w : W) : W :=
  match j with
  | O => w
  | S j' => check_world next j' (next w)
  end.

(** A run of a waiter that started in [s], where [answer] is the world's
    answer to a check and [reports_success] tells whether an answer
    reports success.  The run returns a boolean after [k] checks, one at
    least and [maxAttempts] at most, with a delay between two checks and
    none before the first or after the last.  It returns false only after
    [maxAttempts] checks, and true only if some check reported success.  A
    first check that reports success ends it at once with true; checks
    that never report success end it with false.  Check by check: none of
    the checks before the last reported success, the boolean returned is
    what the last check reported, and the world is left as the last check
    left it, with no delay after it.  So the run ends at the first check
    that reports success, whichever it is, and otherwise at check
    [maxAttempts]. *)
Definition polled {W R} (env : Env W) (run : Outcome bool * Sys W) (s : Sys W)
    (check : Event) (maxAttempts intervalMs : Z) (answer : W -> R * W)
    (reports_success : R -> bool) : Prop :=
  let succeeds w := reports_success (fst (answer w)) in
  let at_check j :=
    check_world (fun w => elapse env intervalMs (snd (answer w))) j (world s) in
  exists b k s',
    run = (Ret b, s')
    /\ (1 <= k <= Z.to_nat maxAttempts)%nat
    /\ actions (trace s') = actions (trace s) ++ poll_pattern check intervalMs k
    /\ (b = false -> k = Z.to_nat maxAttempts)
    /\ (b = true -> exists w, succeeds w = true)
    /\ (succeeds (world s) = true -> b = true /\ k = 1%nat)
    /\ ((forall w, succeeds w = false) -> b = false)
    /\ (forall j, (S j < k)%nat -> succeeds (at_check j) = false)
    /\ b = succeeds (at_check (pred k))
    /\ world s' = snd (answer (at_check (pred k))).

(** Every step flag of a result is set. *)
Definition all_steps (r : WorkflowResult.t) : Prop :=
  let s := WorkflowResult.steps r in
  Steps.availabilityCheck s = true /\ Steps.domainPurchase s = true
  /\ Steps.cloudflareZone s = true /\ Steps.nameserversSet s = true
  /\ Steps.dnsRecords s = true /\ Steps.vercelDomain s = true
  /\ Steps.vercelVerified s = true.

(** The invariant of a returned result: success means all seven flags, a
    missing flag comes with an error, success comes with none. *)
Definition consistent (r : WorkflowResult.t) : Prop :=
  (WorkflowResult.success r = true <-> all_steps r)
  /\ (~ all_steps r -> WorkflowResult.errors r <> [])
  /\ (WorkflowResult.success r = true -> WorkflowResult.errors r = []).

(** A result that a later catch block may still complete. *)
Definition unfinished (fr : Frame) : Prop :=
  WorkflowResult.success (result fr) = false
  /\ Steps.vercelVerified (WorkflowResult.steps (result fr)) = false.

(** The message of a zone creation that failed for another reason than a
    conflict. *)
Definition zone_failure (post : ZonePost) : option (option string) :=
  match post with
  | PostRejected msg => Some (Some msg)
  | PostFailed msg => Some msg
  | PostCreated _ | PostConflict => None
  end.

(** The warning of [rollback] about a purchased domain. *)
Definition manual_action_notice (domain : string) : string :=
  "⚠️  Domain " +++ domain
  +++ " was purchased and CANNOT be automatically refunded. "
  +++ "Please contact Namecheap support if needed.".

Definition manual_action_warning (domain : string) : Event :=
  Logged LWarn (manual_action_notice domain).

Definition is_purchase (e : Event) : bool :=
  match e with
  | Sent (PurchaseDomain _ _ _) => true
  | _ => false
  end.

(** A request to the registrar. *)
Definition to_registrar (e : Event) : bool :=
  match e with
  | Sent r => match provider r with Namecheap => true | _ => false end
  | _ => false
  end.

(** Anything but a request to the registrar. *)
Definition off_registrar (e : Event) : bool := negb (to_registrar e).

(** Anything but a request to the registrar other than the delegation of
    the nameservers. *)
Definition benign (e : Event) : bool :=
  match e with
  | Sent (SetNameservers _ _ _) => true
  | _ => off_registrar e
  end.

(** Anything but a purchase. *)
Definition not_purchase (e : Event) : bool := negb (is_purchase e).

(** Once the purchase request is in the log, all later events are
    benign. *)
Fixpoint purchase_final (t : list Event) : bool :=
  match t with
  | [] => true
  | e :: rest => if is_purchase e then forallb benign rest else purchase_final rest
  end.

(** What a run may add to the log for the purchase to be final. *)
Definition keeps_purchase (d : list Event) : Prop := purchase_final d = true.

(** A verification record that step 6 turns into a DNS record. *)
Definition is_txt (record : VerificationRecord.t) : bool :=
  String.eqb (VerificationRecord.type record) "TXT".

(** The DNS record step 6 asks for. *)
Definition txt_record (record : VerificationRecord.t) : DNSRecord.t :=
  DNSRecord.mk RecordType.TXT (VerificationRecord.name record)
               (VerificationRecord.value record) None None None.

(** The id of a TXT record that the DNS provider created for one of the
    verification records. *)
Definition created_for {W} (env : Env W) (zoneId : string)
    (records : list VerificationRecord.t) (id : string) : Prop :=
  exists record w,
    In record records /\ is_txt record = true
    /\ created_with id
         (fst (answer_createDNSRecord env zoneId (txt_record record) w)).

(** The DNS provider refuses every TXT record. *)
Definition refuses_txt {W} (env : Env W) (zoneId : string) : Prop :=
  forall record w,
    CreateDNSRecordResult.success
      (fst (answer_createDNSRecord env zoneId (txt_record record) w)) = false.

(** The ids the loop of step 6 appends to [state.cloudflareRecordIds]
    when it begins in the world [w], and the world it leaves.  A
    verification record that is not of type TXT is passed over.  For each
    one of type TXT, in order, the DNS provider is asked for the record;
    its id is appended exactly when the answer reports success and carries
    a record id that is not empty, and nothing is appended otherwise. *)
Fixpoint txt_ids {W} (env : Env W) (zoneId : string)
    (records : list VerificationRecord.t) (w : W) : list string * W :=
  match records with
  | [] => ([], w)
  | record :: rest =>
      if is_txt record then
        let answer := answer_createDNSRecord env zoneId (txt_record record) w in
        let later := txt_ids env zoneId rest (snd answer) in
        match CreateDNSRecordResult.success (fst answer),
              CreateDNSRecordResult.recordId (fst answer) with
        | true, Some id =>
            if truthy id then (id :: fst later, snd later) else later
        | _, _ => later
        end
      else txt_ids env zoneId rest w
  end.




(** The two objects when step 5 begins. *)
Definition frame_after_step4 (st : WorkflowState.t) (det : Details.t) : Frame :=
  mkFrame st (WorkflowResult.mk false
                (Steps.mk true true true true false false false) det []).

(** ** What the further properties speak of *)

(** The delays of a log, in the order they were made. *)
Fixpoint delays (t : list Event) : list Z :=
  match t with
  | [] => []
  | Delayed ms :: rest => ms :: delays rest
  | _ :: rest => delays rest
  end.

(** The delays [retry] makes after the failures of the attempts 1 to [k]. *)
Definition schedule {W} (options : RetryOptions.t (Sys W)) (k : nat) : list Z :=
  map (fun attempt => backoff options (Z.of_nat attempt)) (seq 1 k).

(** The world in which attempt [k + 1] of a retried operation begins, when
    the attempts 1 to [k] have failed: each failure is followed by its
    backoff delay. *)
Fixpoint world_after {W T} (env : Env W) (options : RetryOptions.t (Sys W))
    (op : W -> Outcome T * W) (k : nat) (w : W) : W :=
  match k with
  | O => w
  | S k' =>
      elapse env (backoff options (Z.of_nat k))
             (snd (op (world_after env options op k' w)))
  end.

(** An event that is not a delay longer than [cap]. *)
Definition within (cap : Z) (e : Event) : bool :=
  match e with
  | Delayed ms => ms <=? cap
  | _ => true
  end.

(** The requests of [rollback], in the order it sends them: the removal
    from the hosting platform if the domain was added there, then the
    deletion of every recorded DNS record if the zone is known. *)
Definition rollback_requests (state : WorkflowState.t) : list Event :=
  (if WorkflowState.vercelDomainAdded state
   then [Sent (RemoveDomain (WorkflowState.domain state))] else [])
  ++ match WorkflowState.cloudflareZoneId state with
     | Some zoneId =>
         if truthy zoneId
         then map (fun id => Sent (DeleteDNSRecord zoneId id))
                  (WorkflowState.cloudflareRecordIds state)
         else []
     | None => []
     end.

(** The two records step 5 asks for. *)
Definition apex_record (domain : string) : DNSRecord.t :=
  DNSRecord.mk RecordType.A domain "76.76.21.21" None (Some false) None.

Definition www_record : DNSRecord.t :=
  DNSRecord.mk RecordType.CNAME "www" "cname.vercel-dns.com" None (Some false)
               None.

(** The line that opens [rollback]. *)
Definition rollback_notice : Event := Logged LWarn "INITIATING ROLLBACK...".

(** The step flags in the order the saga sets them: a flag that is set
    comes with the flags of the steps before it (the flag of the DNS
    records only needs the steps before step 5). *)
Definition ordered (s : Steps.t) : Prop :=
  (Steps.vercelVerified s = true -> Steps.vercelDomain s = true)
  /\ (Steps.vercelDomain s = true -> Steps.nameserversSet s = true)
  /\ (Steps.dnsRecords s = true -> Steps.nameserversSet s = true)
  /\ (Steps.nameserversSet s = true -> Steps.cloudflareZone s = true)
  /\ (Steps.cloudflareZone s = true -> Steps.domainPurchase s = true)
  /\ (Steps.domainPurchase s = true -> Steps.availabilityCheck s = true).

(** The details of a result go with its flags: nothing of a purchase
    that did not succeed, the zone and its nameservers exactly when the
    zone step succeeded, the list of record ids exactly when step 5 was
    reached. *)
Definition details_match (r : WorkflowResult.t) : Prop :=
  let s := WorkflowResult.steps r in
  let d := WorkflowResult.details r in
  (Steps.domainPurchase s = false ->
   Details.domainId d = None /\ Details.transactionId d = None)
  /\ (Steps.cloudflareZone s = true <-> Details.cloudflareZoneId d <> None)
  /\ (Steps.cloudflareZone s = true <-> Details.cloudflareNameservers d <> None)
  /\ (Steps.nameserversSet s = true <-> Details.dnsRecordIds d <> None).

(** A request that undoes something: the removal of the domain from the
    hosting platform or the deletion of a DNS record. *)
Definition is_undo (e : Event) : bool :=
  match e with
  | Sent (RemoveDomain _) | Sent (DeleteDNSRecord _ _) => true
  | _ => false
  end.

Definition no_undo (e : Event) : bool := negb (is_undo e).

(** The log has grown from [t0] by events that all satisfy [P]. *)
Definition since {W} (t0 : list Event) (P : Event -> bool) (sy : Sys W) : Prop :=
  exists d, trace sy = t0 ++ d /\ forallb P d = true.

(** The state that [rollback] reads agrees with the result that is
    returned: the purchase and the hosting flags, the id of the zone, and
    the ids of the DNS records, which are one array in both objects. *)
Definition agrees (fr : Frame) : Prop :=
  let steps := WorkflowResult.steps (result fr) in
  let details := WorkflowResult.details (result fr) in
  WorkflowState.domainPurchased (state fr) = Steps.domainPurchase steps
  /\ WorkflowState.vercelDomainAdded (state fr) = Steps.vercelDomain steps
  /\ WorkflowState.cloudflareZoneId (state fr) = Details.cloudflareZoneId details
  /\ WorkflowState.cloudflareRecordIds (state fr)
     = default [] (Details.dnsRecordIds details).

(** What holds of the two objects of a run at every point where the try
    block can be left. *)
Definition coherent (fr : Frame) : Prop :=
  ordered (WorkflowResult.steps (result fr))
  /\ details_match (result fr)
  /\ agrees fr.

(** What holds when the try block of [runWorkflow] is left, for a log
    that was [t0] when the run began: by a return, the result is that of
    the frame, and if the domain was added to the hosting platform no
    request has undone anything; by a throw, the domain was not added. *)
Definition run_post {W} (t0 : list Event) (o : Outcome WorkflowResult.t)
    (st : Sys W * Frame) : Prop :=
  match o with
  | Ret r =>
      r = result (snd st) /\ coherent (snd st)
      /\ (Steps.vercelDomain (WorkflowResult.steps r) = true ->
          since t0 no_undo (fst st))
  | Throw e =>
      e <> Undefined /\ coherent (snd st)
      /\ Steps.vercelDomain (WorkflowResult.steps (result (snd st))) = false
  end.

(** How many purchase requests a log holds. *)
Definition purchases (t : list Event) : nat := length (filter is_purchase t).

(** What [waitForDeployment] does besides logging when it checks [k]
    times: a delay before every check. *)
Fixpoint delay_check_pattern (check : Event) (interval : Z) (k : nat)
  : list Event :=
  match k with
  | O => []
  | S k' => Delayed interval :: check :: delay_check_pattern check interval k'
  end.

(** What a status request comes to: the deployment is ready, it has
    failed for good, or nothing is known yet.  A request that throws is
    of the last kind. *)
Inductive Verdict : Type :=
| Ready (url : option string)
| Broken
| Pending.

Definition verdict_of (o : Outcome DeploymentStatus.t) : Verdict :=
  match o with
  | Ret status =>
      let state := DeploymentStatus.readyState status in
      if is_state state "READY" then Ready (DeploymentStatus.url status)
      else if is_state state "ERROR" || is_state state "CANCELED" then Broken
      else Pending
  | Throw _ => Pending
  end.

(** The verdict of a status request made in the world [w]. *)
Definition verdict {W} (denv : DeployEnv W) (deploymentUrl : string) (w : W)
  : Verdict :=
  verdict_of (fst (answer_getDeployment denv deploymentUrl w)).

(** What [waitForDeployment] returns when the check that ends it has the
    verdict [v]: ready with the address of the answer, or the given one if
    the answer has none; not ready, with the given address, after a check
    that said broken, and after a last check that was pending. *)
Definition readiness_of (v : Verdict) (deploymentUrl : string) : Readiness.t :=
  match v with
  | Ready u => Readiness.mk true (or_else u deploymentUrl)
  | Broken | Pending => Readiness.mk false deploymentUrl
  end.

(** A run of [waitForDeployment] that started in [s].  It returns after
    [k] checks, [maxAttempts] at most, each with a delay before it.  A
    result that is not ready carries the address it was given; a ready
    one comes from a check that said so and carries the address of that
    answer, or the given one if the answer had none.  The run stops
    before [maxAttempts] checks only on a check that was not pending;
    checks that are always pending make it use all of them.  The first
    check decides at once when it is ready or broken.  Check by check,
    where check [j + 1] is made in the world [at_check j], after its
    delay: every check before the last was pending; the verdict of the
    last check gives the result; a last check that was pending is check
    [maxAttempts]; and the world is left as the last check left it.  So
    the run ends at the first check that is ready or broken, whichever
    it is, and otherwise at check [maxAttempts].  Without any check,
    [maxAttempts] allowed none. *)
Definition awaited {W} (env : Env W) (denv : DeployEnv W)
    (run : Outcome Readiness.t * Sys W) (s : Sys W) (deploymentUrl : string)
    (maxAttempts intervalMs : Z) : Prop :=
  let answer := answer_getDeployment denv deploymentUrl in
  let at_check j :=
    elapse env intervalMs
      (check_world (fun w => snd (answer (elapse env intervalMs w))) j
                   (world s)) in
  exists r k s',
    run = (Ret r, s')
    /\ (k <= Z.to_nat maxAttempts)%nat
    /\ actions (trace s')
       = actions (trace s)
         ++ delay_check_pattern
              (Called (deployment_address env deploymentUrl)) intervalMs k
    /\ (Readiness.ready r = false -> Readiness.finalUrl r = deploymentUrl)
    /\ (Readiness.ready r = true ->
        exists w u, verdict denv deploymentUrl w = Ready u
                    /\ Readiness.finalUrl r = or_else u deploymentUrl)
    /\ ((k < Z.to_nat maxAttempts)%nat ->
        exists w, verdict denv deploymentUrl w <> Pending)
    /\ ((forall w, verdict denv deploymentUrl w = Pending) ->
        Readiness.ready r = false /\ k = Z.to_nat maxAttempts)
    /\ (1 <= maxAttempts ->
        forall u, verdict denv deploymentUrl (elapse env intervalMs (world s))
                  = Ready u ->
        r = Readiness.mk true (or_else u deploymentUrl) /\ k = 1%nat)
    /\ (1 <= maxAttempts ->
        verdict denv deploymentUrl (elapse env intervalMs (world s)) = Broken ->
        r = Readiness.mk false deploymentUrl /\ k = 1%nat)
    /\ (forall j, (S j < k)%nat ->
        verdict denv deploymentUrl (at_check j) = Pending)
    /\ match k with
       | O =>
           Z.to_nat maxAttempts = 0%nat
           /\ r = Readiness.mk false deploymentUrl
           /\ world s' = world s
       | S j =>
           r = readiness_of (verdict denv deploymentUrl (at_check j))
                            deploymentUrl
           /\ (verdict denv deploymentUrl (at_check j) = Pending ->
               k = Z.to_nat maxAttempts)
           /\ world s' = snd (answer (at_check j))
       end.

(** The lines [runWorkflowWithDeploy] and [deployZipToVercel] open
    with. *)
Definition deploy_lines {W} (env : Env W) (zipPath domain : string)
  : list Event :=
  [Logged LInfo banner;
   Logged LInfo "STARTING FULL DEPLOY + DOMAIN WORKFLOW";
   Logged LInfo banner;
   Logged LInfo ("ZIP: " +++ zipPath);
   Logged LInfo ("Domain: " +++ cyan env domain);
   Logged LInfo ""].

Definition zip_lines : list Event :=
  [Logged LInfo banner;
   Logged LInfo "DEPLOYING ZIP TO GITHUB + VERCEL";
   Logged LInfo banner].

(** ** Scripted worlds

    Providers whose answers are fixed in advance, as the mocks of a test
    suite are.  The world is the number of requests answered so far. *)

Module Mock.

Definition all_set : Service -> string -> string := fun _ _ => "x".

Definition zone1 : CloudflareZone.t :=
  CloudflareZone.mk "Z1" "example-test.com" "pending" ["ns1.x"; "ns2.x"].

Definition available (d : string) : AvailabilityResult.t :=
  AvailabilityResult.mk true d (Some false) None None None.

Definition purchased : PurchaseResult.t :=
  PurchaseResult.mk true (Some "D1") (Some "T1") (Some "O1") (Some "9.99") None.

(** Record ids are numbered by the request that created them. *)
Definition created (w : nat) : CreateDNSRecordResult.t :=
  CreateDNSRecordResult.mk true (Some ("R" +++ string_of_Z (Z.of_nat w))) None.

Definition refused (msg : string) : CreateDNSRecordResult.t :=
  CreateDNSRecordResult.mk false None (Some msg).

(** A world in which everything not passed as an argument succeeds at
    once. *)
Definition env
    (postZone : string -> nat -> ZonePost)
    (setNs : string -> string -> list string -> nat -> SetNameserversResult.t)
    (createRecord : string -> DNSRecord.t -> nat -> CreateDNSRecordResult.t)
    (addDom : string -> nat -> AddDomainResult.t)
    (verify : string -> nat -> VerifyDomainResult.t) : Env nat :=
  mkEnv nat all_set (fun d => d) (fun _ w => w)
    (fun d w => (available d, S w))
    (fun _ _ _ w => (purchased, S w))
    (fun sld tld ns w => (setNs sld tld ns w, S w))
    (fun d w => (postZone d w, S w))
    (fun _ w => (GetNone, S w))
    (fun z r w => (createRecord z r w, S w))
    (fun _ _ w => (DeleteDNSRecordResult.mk true None, S w))
    (fun _ w => (Some (ZoneStatus.mk "active" []), S w))
    (fun d w => (addDom d w, S w))
    (fun d w => (verify d w, S w))
    (fun _ w => (RemoveDomainResult.mk true None, S w)).

Definition zone_ok : string -> nat -> ZonePost := fun _ _ => PostCreated zone1.

Definition ns_ok : string -> string -> list string -> nat
                   -> SetNameserversResult.t :=
  fun _ _ _ _ => SetNameserversResult.mk true None.

Definition records_ok : string -> DNSRecord.t -> nat -> CreateDNSRecordResult.t :=
  fun _ _ w => created w.

Definition added : string -> nat -> AddDomainResult.t :=
  fun _ _ => AddDomainResult.mk true None None None.

Definition verified : string -> nat -> VerifyDomainResult.t :=
  fun _ _ => VerifyDomainResult.mk true true None.

(** Every provider succeeds at the first request. *)
Definition happy : Env nat := env zone_ok ns_ok records_ok added verified.

Definition start : Sys nat := mkSys 0%nat [].

End Mock.

Module MockRetry.

(** An operation that fails every time, with the number of the failure in
    its message. *)
Definition always_fails (w : nat) : Outcome unit * nat :=
  (Throw (Error ("failure " +++ string_of_Z (Z.of_nat (S w)))), S w).

Definition three_attempts : RetryOptions.t (Sys nat) :=
  RetryOptions.mk (Some 3) (Some 1000) (Some 30000)
    (Some (fun _ _ => logger_warn "retrying")).

Definition zero_attempts : RetryOptions.t (Sys nat) :=
  RetryOptions.mk (Some 0) None None None.

End MockRetry.

Module MockBatch.

Definition first : DNSRecord.t :=
  DNSRecord.mk RecordType.A "example-test.com" "76.76.21.21" None (Some false) None.

Definition second : DNSRecord.t :=
  DNSRecord.mk RecordType.CNAME "www" "cname.vercel-dns.com" None (Some false) None.

Definition third : DNSRecord.t :=
  DNSRecord.mk RecordType.TXT "_vercel" "vc-domain-verify=1" None None None.

(** The provider refuses the record named "www" and creates the others. *)
Definition www_refused : string -> DNSRecord.t -> nat -> CreateDNSRecordResult.t :=
  fun _ r w =>
    if String.eqb (DNSRecord.name r) "www" then Mock.refused "quota exceeded"
    else Mock.created w.

Definition env : Env nat :=
  Mock.env Mock.zone_ok Mock.ns_ok www_refused Mock.added Mock.verified.

End MockBatch.

Module MockPoll.

(** The hosting platform answers every verification with an error. *)
Definition verify_fails : string -> nat -> VerifyDomainResult.t :=
  fun _ _ => VerifyDomainResult.mk false false (Some "Domain not found").

Definition failing : Env nat :=
  Mock.env Mock.zone_ok Mock.ns_ok Mock.records_ok Mock.added verify_fails.

(** The hosting platform has not verified the domain at the first two
    requests and has verified it from the third on. *)
Definition verify_third : string -> nat -> VerifyDomainResult.t :=
  fun _ w =>
    if (w <? 2)%nat then VerifyDomainResult.mk true false None
    else VerifyDomainResult.mk true true None.

(** The zone is pending at the first request and active from the second
    on; verification succeeds at the third check. *)
Definition slow : Env nat :=
  mkEnv nat Mock.all_set (fun d => d) (fun _ w => w)
    (fun d w => (Mock.available d, S w))
    (fun _ _ _ w => (Mock.purchased, S w))
    (fun _ _ _ w => (SetNameserversResult.mk true None, S w))
    (fun _ w => (PostCreated Mock.zone1, S w))
    (fun _ w => (GetNone, S w))
    (fun _ _ w => (Mock.created w, S w))
    (fun _ _ w => (DeleteDNSRecordResult.mk true None, S w))
    (fun _ w => (Some (ZoneStatus.mk (if (w <? 1)%nat then "pending"
                                      else "active") []), S w))
    (fun _ w => (AddDomainResult.mk true None None None, S w))
    (fun d w => (verify_third d w, S w))
    (fun _ w => (RemoveDomainResult.mk true None, S w)).

End MockPoll.

Module MockSaga.

(** The DNS provider answers the creation of the zone with an error that
    is not a conflict. *)
Definition zone_fails : Env nat :=
  Mock.env (fun _ _ => PostFailed (Some "Internal server error"))
           Mock.ns_ok Mock.records_ok Mock.added Mock.verified.

(** The registrar's first answer to the delegation is a network error; it
    would accept the delegation from the next request on. *)
Definition ns_flaky : string -> string -> list string -> nat
                      -> SetNameserversResult.t :=
  fun _ _ _ w =>
    if (w <=? 3)%nat
    then SetNameserversResult.mk false (Some "socket hang up")
    else SetNameserversResult.mk true None.

Definition delegation_flaky : Env nat :=
  Mock.env Mock.zone_ok ns_flaky Mock.records_ok Mock.added Mock.verified.

End MockSaga.

Module MockVerify.

(** Three verification records of type TXT, with one of another type
    among them. *)
Definition records : list VerificationRecord.t :=
  [VerificationRecord.mk "TXT" "_vercel.example-test.com" "vc-domain-verify=1";
   VerificationRecord.mk "CNAME" "example-test.com" "cname.vercel-dns.com";
   VerificationRecord.mk "TXT" "_vercel.example-test.com" "vc-domain-verify=2";
   VerificationRecord.mk "TXT" "_vercel.example-test.com" "vc-domain-verify=3"].

Definition needs_verification : AddDomainResult.t :=
  AddDomainResult.mk true None (Some true) (Some records).

(** The DNS provider creates the two hosting records and the TXT records,
    but for the one whose content is "vc-domain-verify=2", which it
    refuses. *)
Definition txt_refused : string -> DNSRecord.t -> nat -> CreateDNSRecordResult.t :=
  fun _ r w =>
    if String.eqb (DNSRecord.content r) "vc-domain-verify=2"
    then Mock.refused "Record quota exceeded"
    else Mock.created w.

Definition env : Env nat :=
  Mock.env Mock.zone_ok Mock.ns_ok txt_refused
           (fun _ _ => needs_verification) Mock.verified.

End MockVerify.

Module MockPaths.

(** Everything is set but one field of one service. *)
Definition all_but (missing : Service) (name : string)
  : Service -> string -> string :=
  fun service field =>
    if String.eqb (service_name service) (service_name missing)
       && String.eqb field name
    then "" else "x".

Definition no_api_key : Service -> string -> string := all_but namecheap "apiKey".

Definition no_account : Service -> string -> string := all_but cloudflare "accountId".

Definition no_project : Service -> string -> string := all_but vercel "projectId".

Definition taken (d : string) : AvailabilityResult.t :=
  AvailabilityResult.mk false d None None None None.

Definition declined : PurchaseResult.t :=
  PurchaseResult.mk false None None None None (Some "Insufficient funds").

Definition not_added : AddDomainResult.t :=
  AddDomainResult.mk false (Some "Project not found") None None.

(** A world with the given configuration and the given answers of the
    availability check, the purchase and the hosting platform; every other
    request succeeds at once. *)
Definition env (cfg : Service -> string -> string)
    (check : string -> AvailabilityResult.t) (purchase : PurchaseResult.t)
    (add : AddDomainResult.t) : Env nat :=
  mkEnv nat cfg (fun d => d) (fun _ w => w)
    (fun d w => (check d, S w))
    (fun _ _ _ w => (purchase, S w))
    (fun _ _ _ w => (SetNameserversResult.mk true None, S w))
    (fun _ w => (PostCreated Mock.zone1, S w))
    (fun _ w => (GetNone, S w))
    (fun _ _ w => (Mock.created w, S w))
    (fun _ _ w => (DeleteDNSRecordResult.mk true None, S w))
    (fun _ w => (Some (ZoneStatus.mk "active" []), S w))
    (fun _ w => (add, S w))
    (fun _ w => (VerifyDomainResult.mk true true None, S w))
    (fun _ w => (RemoveDomainResult.mk true None, S w)).

Definition added : AddDomainResult.t := AddDomainResult.mk true None None None.

Definition no_registrar_key : Env nat :=
  env no_api_key Mock.available Mock.purchased added.

Definition no_dns_account : Env nat :=
  env no_account Mock.available Mock.purchased added.

Definition no_hosting_project : Env nat :=
  env no_project Mock.available Mock.purchased added.

Definition domain_taken : Env nat := env Mock.all_set taken Mock.purchased added.

Definition purchase_declined : Env nat :=
  env Mock.all_set Mock.available declined added.

Definition hosting_refuses : Env nat :=
  env Mock.all_set Mock.available Mock.purchased not_added.

(** The zone exists already: its creation is answered by a conflict and
    the lookup finds it. *)
Definition zone_exists : Env nat :=
  mkEnv nat Mock.all_set (fun d => d) (fun _ w => w)
    (fun d w => (Mock.available d, S w))
    (fun _ _ _ w => (Mock.purchased, S w))
    (fun _ _ _ w => (SetNameserversResult.mk true None, S w))
    (fun _ w => (PostConflict, S w))
    (fun _ w => (GetFound Mock.zone1, S w))
    (fun _ _ w => (Mock.created w, S w))
    (fun _ _ w => (DeleteDNSRecordResult.mk true None, S w))
    (fun _ w => (Some (ZoneStatus.mk "active" []), S w))
    (fun _ w => (added, S w))
    (fun _ w => (VerifyDomainResult.mk true true None, S w))
    (fun _ w => (RemoveDomainResult.mk true None, S w)).

(** The DNS provider refuses the A record and creates the others. *)
Definition apex_refused : Env nat :=
  Mock.env Mock.zone_ok Mock.ns_ok
    (fun _ r w =>
       match DNSRecord.type r with
       | RecordType.A => Mock.refused "quota exceeded"
       | _ => Mock.created w
       end)
    Mock.added Mock.verified.

End MockPaths.

Module MockBackoff.

(** An operation that fails twice and returns the number of the request
    from then on. *)
Definition fails_twice (w : nat) : Outcome nat * nat :=
  if (w <? 2)%nat
  then (Throw (Error ("failure " +++ string_of_Z (Z.of_nat (S w)))), S w)
  else (Ret w, S w).

(** Five attempts, with delays that double from 1000 ms and are capped at
    3000 ms. *)
Definition five_attempts : RetryOptions.t (Sys nat) :=
  RetryOptions.mk (Some 5) (Some 1000) (Some 3000) None.

End MockBackoff.

Module MockDeploy.

(** The deployment is building in the first worlds and ready from the
    fourth on. *)
Definition builds_once (w : nat) : Outcome DeploymentStatus.t * nat :=
  if (w <? 4)%nat
  then (Ret (DeploymentStatus.mk (Some "BUILDING") None), S w)
  else (Ret (DeploymentStatus.mk (Some "READY") (Some "site.vercel.app")), S w).

Definition deployed : DeployResult.t :=
  DeployResult.mk true (Some "prj_1") (Some "example-test-com")
                  (Some "site-abc.vercel.app") None None.

(** A file system in which the archive [present] exists; the directory
    "extracted" exists from the first operation on, until [rmSync]
    removes it, which moves the count of the world past 100.  The
    extraction ends as [extraction] says. *)
Definition env (present : string) (extraction : Outcome string)
  : DeployEnv nat :=
  mkDeployEnv nat
    (fun path w =>
       String.eqb path present
       || (String.eqb path "extracted" && (1 <=? w)%nat && (w <? 100)%nat))
    (fun w => Z.of_nat w)
    (fun zipPath => "extracted")
    (fun _ _ w => (extraction, S w))
    (fun _ name w =>
       (GitHubRepoResult.mk true (Some name) None (Some "octocat") None, S w))
    (fun _ _ _ _ w => (deployed, S w))
    (fun _ w => builds_once w)
    (fun _ w => (Ret tt, (100 + w)%nat)).

Definition site : DeployEnv nat := env "site.zip" (Ret "extracted").

Definition corrupt : DeployEnv nat :=
  env "site.zip" (Throw (Error "Invalid or unsupported zip format")).

End MockDeploy.

(** * Properties *)

(** ** The retrier *)

Section Retry.

Context {W : Type} (env : Env W).

Lemma calls_app (t u : list Event) : calls (t ++ u) = (calls t + calls u)%nat.
Proof. unfold calls. now rewrite filter_app, length_app. Qed.

Lemma calls_logged (t : list Event) : forallb is_logged t = true -> calls t = 0%nat.
Proof.
  unfold calls. induction t as [|e t IH]; simpl; [reflexivity|].
  destruct e; simpl; try discriminate. exact IH.
Qed.

(** An operation that returns is not tried again. *)
Lemma retry_returns_first {T} (fn : M (Sys W) T) options a s s' :
  1 <= default 3 (RetryOptions.maxAttempts options) ->
  fn s = (Ret a, s') ->
  retry env fn options s = (Ret a, s').
Proof.
  intros Hmax Hfn. unfold retry.
  destruct (Z.to_nat (default 3 (RetryOptions.maxAttempts options))) eqn:E; [lia|].
  simpl. replace (1 <=? _) with true by (symmetry; apply Z.leb_le; exact Hmax).
  unfold tryCatch. now rewrite Hfn.
Qed.

(** One failed attempt that is not the last one: the callback, the
    warning, the delay, and the loop goes on. *)
Lemma retry_loop_failed {T} (fn : M (Sys W) T) maxAttempts i m onRetry
    fuel attempt last e s s1 :
  attempt < maxAttempts ->
  fn s = (Throw e, s1) ->
  (forall cb, onRetry = Some cb -> forall k x, logs_only (cb k x)) ->
  exists evs,
    forallb is_logged evs = true /\
    retry_loop env fn maxAttempts i m onRetry (S fuel) attempt last s =
    retry_loop env fn maxAttempts i m onRetry fuel (attempt + 1) e
      (mkSys (elapse env (Z.min (i * 2 ^ (attempt - 1)) m) (world s1))
             (trace s1 ++ evs ++ [Delayed (Z.min (i * 2 ^ (attempt - 1)) m)])).
Proof.
  intros Hlt Hfn Hq. simpl.
  replace (attempt <=? maxAttempts) with true by (symmetry; apply Z.leb_le; lia).
  unfold tryCatch at 1. rewrite Hfn.
  replace (attempt =? maxAttempts) with false by (symmetry; apply Z.eqb_neq; lia).
  destruct onRetry as [cb|].
  - destruct (Hq cb eq_refl attempt e s1) as (evs & Hcb & Hlog).
    exists (evs ++ [Logged LWarn ("Attempt " +++ string_of_Z attempt
              +++ " failed, retrying in "
              +++ string_of_Z (Z.min (i * 2 ^ (attempt - 1)) m) +++ "ms...")]).
    split.
    + rewrite forallb_app, Hlog. reflexivity.
    + unfold bind at 1. rewrite Hcb. unfold bind, logger_warn, emit, delay.
      cbn [world trace]. now rewrite <- !app_assoc.
  - eexists [Logged LWarn _]. split; [reflexivity|].
    unfold bind, ret, logger_warn, emit, delay. cbn [world trace].
    now rewrite <- !app_assoc.
Qed.

Lemma invoke_throws {T} label (op : W -> Outcome T * W) s :
  (forall w, exists e, fst (op w) = Throw e) ->
  exists e, invoke label op s
            = (Throw e, mkSys (snd (op (world s))) (trace s ++ [Called label]))
            /\ fst (op (world s)) = Throw e.
Proof.
  intros H. destruct (H (world s)) as [e He]. exists e. unfold invoke.
  destruct (op (world s)) as [o w']. simpl in *. now subst.
Qed.

(** C7. With [maxAttempts = 3], an operation that fails at every attempt is
    entered exactly three times, with the two backoff delays in between,
    and [retry] fails with what the third attempt threw. *)
Theorem retry_exhausts_three_attempts {T} label (op : W -> Outcome T * W)
    options s :
  RetryOptions.maxAttempts options = Some 3 ->
  quiet_options options ->
  (forall w, exists e, fst (op w) = Throw e) ->
  let w1 := snd (op (world s)) in
  let w2 := snd (op (elapse env (backoff options 1) w1)) in
  let third := op (elapse env (backoff options 2) w2) in
  exists delta e3,
    retry env (invoke label op) options s
    = (Throw e3, mkSys (snd third) (trace s ++ delta))
    /\ fst third = Throw e3
    /\ calls delta = 3%nat
    /\ length (filter is_delayed delta) = 2%nat.
Proof.
  intros Hmax Hq Hop w1 w2 third. unfold retry. rewrite Hmax.
  cbn [default]. change (Z.to_nat 3) with 3%nat.
  destruct (invoke_throws label op s Hop) as (e1 & H1 & _).
  destruct (retry_loop_failed (invoke label op) 3
              (default 1000 (RetryOptions.initialDelayMs options))
              (default 30000 (RetryOptions.maxDelayMs options))
              (RetryOptions.onRetry options) 2 1 Undefined e1 s _
              ltac:(lia) H1 Hq) as (ev1 & Hl1 & ->).
  cbn [world trace]. fold (backoff options 1). fold w1.
  set (s1 := mkSys (elapse env (backoff options 1) w1) _).
  destruct (invoke_throws label op s1 Hop) as (e2 & H2 & _).
  destruct (retry_loop_failed (invoke label op) 3
              (default 1000 (RetryOptions.initialDelayMs options))
              (default 30000 (RetryOptions.maxDelayMs options))
              (RetryOptions.onRetry options) 1 (1 + 1) e1 e2 s1 _
              ltac:(lia) H2 Hq) as (ev2 & Hl2 & ->).
  cbn [world trace]. change (1 + 1) with 2. fold (backoff options 2).
  subst s1. cbn [world trace]. fold w2.
  set (s2 := mkSys (elapse env (backoff options 2) w2) _).
  destruct (invoke_throws label op s2 Hop) as (e3 & H3 & Hthird).
  cbn [retry_loop]. change (2 + 1 <=? 3) with true. cbv iota.
  unfold tryCatch. rewrite H3. change (2 + 1 =? 3) with true. cbv iota.
  unfold throw. subst s2. cbn [world trace] in *. fold third in Hthird |- *.
  eexists _, e3. split; [|split; [exact Hthird|]].
  - rewrite <- !app_assoc. reflexivity.
  - rewrite !filter_app, !length_app, !calls_app.
    rewrite (calls_logged ev1 Hl1), (calls_logged ev2 Hl2).
    assert (Hd : forall t, forallb is_logged t = true ->
                           length (filter is_delayed t) = 0%nat).
    { induction t as [|x t IH]; simpl; [reflexivity|].
      destruct x; simpl; try discriminate. exact IH. }
    rewrite (Hd ev1 Hl1), (Hd ev2 Hl2). split; reflexivity.
Qed.

(** C8. With [maxAttempts <= 0] the loop body never runs: [retry] fails at
    once, with the [undefined] that [lastError] still holds, and leaves
    the world and the log as they were, so the operation was not entered. *)
Theorem retry_nonpositive_fails_fast {T} (fn : M (Sys W) T) options s n :
  RetryOptions.maxAttempts options = Some n ->
  n <= 0 ->
  retry env fn options s = (Throw Undefined, s).
Proof.
  intros Hmax Hn. unfold retry. rewrite Hmax. cbn [default].
  replace (Z.to_nat n) with 0%nat by lia. reflexivity.
Qed.

End Retry.

(** C7 on an operation whose three failures differ: the failure that
    comes out is the third one. *)
Lemma retry_exhausts_three_attempts_witness :
  exists delta e3,
    retry Mock.happy (invoke "operation" MockRetry.always_fails)
          MockRetry.three_attempts Mock.start
    = (Throw e3, mkSys 3%nat (trace Mock.start ++ delta))
    /\ Throw e3 = Throw (A := unit) (Error "failure 3")
    /\ calls delta = 3%nat
    /\ length (filter is_delayed delta) = 2%nat.
Proof.
  destruct (retry_exhausts_three_attempts Mock.happy "operation" MockRetry.always_fails
              MockRetry.three_attempts Mock.start)
    as (delta & e3 & H1 & H2 & H3 & H4).
  - reflexivity.
  - intros cb Hcb k x. injection Hcb as <-. intros s.
    exists [Logged LWarn "retrying"]. split; reflexivity.
  - intros w. eexists. reflexivity.
  - exists delta, e3. repeat split; try assumption.
    rewrite <- H2. reflexivity.
Defined.

Lemma retry_nonpositive_fails_fast_witness :
  0 <= 0 /\
  retry Mock.happy (invoke "operation" MockRetry.always_fails)
        MockRetry.zero_attempts Mock.start
  = (Throw Undefined, Mock.start).
Proof.
  split; [lia|].
  apply (retry_nonpositive_fails_fast Mock.happy _ _ _ 0); [reflexivity | lia].
Defined.


(** ** The registrar functions and the format of the domain *)

Section Registrar.

Context {W : Type} (env : Env W).

Lemma split_cons (c : ascii) (s : string) :
  exists p ps, split c s = p :: ps.
Proof.
  destruct s as [|x rest]; simpl; [now eexists _, _|].
  destruct (Ascii.eqb x c); [now eexists _, _|].
  destruct (split c rest); now eexists _, _.
Qed.

(** [split] yields a single part exactly when the separator is absent. *)
Lemma split_length (c : ascii) (s : string) :
  (Z.of_nat (length (split c s)) <? 2) = negb (contains c s).
Proof.
  induction s as [|x rest IH]; simpl; [reflexivity|].
  destruct (Ascii.eqb x c); simpl.
  - destruct (split_cons c rest) as (p & ps & ->). simpl (length _).
    apply Z.ltb_ge. lia.
  - rewrite <- IH. destruct (split_cons c rest) as (p & ps & ->). reflexivity.
Qed.

Lemma splitDomain_spec {St} (domain : string) (s : St) :
  splitDomain domain s =
  if contains "." domain
  then (Ret (hd EmptyString (split "." domain),
             join "." (tl (split "." domain))), s)
  else (Throw (Error ("Invalid domain format: " +++ domain)), s).
Proof.
  unfold splitDomain. rewrite split_length.
  now destruct (contains "." domain).
Qed.

Lemma request_returns {R} (r : Request) (answer : W -> R * W) (s : Sys W) :
  request r answer s
  = (Ret (fst (answer (world s))),
     mkSys (snd (answer (world s))) (trace s ++ [Sent r])).
Proof. unfold request. now destruct (answer (world s)). Qed.


End Registrar.



(** ** The DNS batch *)

Section Batch.

Context {W : Type} (env : Env W).

(** The loop asks for every record, in list order, whatever the answers;
    each record ends either as an id or as an error, and the ids are
    those of records the provider created. *)
Lemma createDNSRecords_loop_requests zoneId records :
  forall recordIds errors s,
  exists ids errs s',
    createDNSRecords_loop env zoneId records recordIds errors s
    = (Ret (recordIds ++ ids, errors ++ errs), s')
    /\ trace s' = trace s ++ map (fun r => Sent (CreateDNSRecord zoneId r)) records
    /\ (length ids + length errs = length records)%nat
    /\ Forall (created_in env zoneId records) ids.
Proof.
  induction records as [|record rest IH]; intros recordIds errors s; simpl.
  - exists [], [], s. now rewrite !app_nil_r.
  - assert (Hrest : forall ids, Forall (created_in env zoneId rest) ids ->
                                Forall (created_in env zoneId (record :: rest)) ids).
    { intros ids. apply Forall_impl. intros id (r & w & Hin & Hc).
      exists r, w. split; [now right | exact Hc]. }
    unfold bind, createDNSRecord. rewrite request_returns.
    set (result := fst (answer_createDNSRecord env zoneId record (world s))).
    set (s1 := mkSys _ _).
    destruct (CreateDNSRecordResult.success result) eqn:Hs;
      [destruct (CreateDNSRecordResult.recordId result) as [id|] eqn:Hi;
       [destruct (truthy id) eqn:Ht|]|];
      cbn [andb truthy_opt default]; try rewrite Ht.
    + destruct (IH (recordIds ++ [id]) errors s1)
        as (ids & errs & s' & -> & Htr & Hl & Hall).
      exists (id :: ids), errs, s'.
      rewrite <- app_assoc. split; [reflexivity|]. split; [|split].
      * rewrite Htr. subst s1. cbn [trace]. now rewrite <- app_assoc.
      * simpl. lia.
      * constructor; [|now apply Hrest].
        exists record, (world s). split; [now left|]. fold result.
        now repeat split.
    + match goal with
      | |- context [createDNSRecords_loop _ _ _ _ (errors ++ [?e]) _] =>
          destruct (IH recordIds (errors ++ [e]) s1)
            as (ids & errs & s' & -> & Htr & Hl & Hall);
          exists ids, (e :: errs), s'
      end.
      rewrite <- app_assoc. split; [reflexivity|]. split; [|split].
      * rewrite Htr. subst s1. cbn [trace]. now rewrite <- app_assoc.
      * simpl. lia.
      * now apply Hrest.
    + match goal with
      | |- context [createDNSRecords_loop _ _ _ _ (errors ++ [?e]) _] =>
          destruct (IH recordIds (errors ++ [e]) s1)
            as (ids & errs & s' & -> & Htr & Hl & Hall);
          exists ids, (e :: errs), s'
      end.
      rewrite <- app_assoc. split; [reflexivity|]. split; [|split].
      * rewrite Htr. subst s1. cbn [trace]. now rewrite <- app_assoc.
      * simpl. lia.
      * now apply Hrest.
    + match goal with
      | |- context [createDNSRecords_loop _ _ _ _ (errors ++ [?e]) _] =>
          destruct (IH recordIds (errors ++ [e]) s1)
            as (ids & errs & s' & -> & Htr & Hl & Hall);
          exists ids, (e :: errs), s'
      end.
      rewrite <- app_assoc. split; [reflexivity|]. split; [|split].
      * rewrite Htr. subst s1. cbn [trace]. now rewrite <- app_assoc.
      * simpl. lia.
      * now apply Hrest.
Qed.

Lemma createDNSRecords_requests zoneId records s :
  exists r s',
    createDNSRecords env zoneId records s = (Ret r, s')
    /\ trace s' = trace s ++ map (fun r => Sent (CreateDNSRecord zoneId r)) records
    /\ DNSBatchResult.success r = Nat.eqb (length (DNSBatchResult.errors r)) 0
    /\ (length (DNSBatchResult.recordIds r) + length (DNSBatchResult.errors r)
        = length records)%nat
    /\ Forall (created_in env zoneId records) (DNSBatchResult.recordIds r).
Proof.
  unfold createDNSRecords, bind.
  destruct (createDNSRecords_loop_requests zoneId records [] [] s)
    as (ids & errs & s' & -> & Ht & Hl & Hall).
  simpl. eexists _, s'. split; [reflexivity|]. simpl. auto.
Qed.

(** C6. For every batch the creations are requested one after the other
    in list order, each record ends as a recorded id or as an error, and
    the recorded ids are ids of records the provider created.  Of three
    records whose second creation fails, the batch returns the ids of the
    first and the third, in that order, reports failure, and names the
    type and the name of the second record in its one error. *)
Theorem createDNSRecords_partial_batch zoneId r1 r2 r3 s
    res1 w1 res2 w2 res3 w3 id1 id3 :
  answer_createDNSRecord env zoneId r1 (world s) = (res1, w1) ->
  answer_createDNSRecord env zoneId r2 w1 = (res2, w2) ->
  answer_createDNSRecord env zoneId r3 w2 = (res3, w3) ->
  created_with id1 res1 ->
  CreateDNSRecordResult.success res2 = false ->
  created_with id3 res3 ->
  createDNSRecords env zoneId [r1; r2; r3] s
  = (Ret (DNSBatchResult.mk false [id1; id3]
            [RecordType.to_string (DNSRecord.type r2) +++ " "
             +++ DNSRecord.name r2 +++ ": "
             +++ tmpl (CreateDNSRecordResult.errorMessage res2)]),
     mkSys w3 (trace s ++ [Sent (CreateDNSRecord zoneId r1);
                           Sent (CreateDNSRecord zoneId r2);
                           Sent (CreateDNSRecord zoneId r3)]))
  /\ (forall records s0,
        exists r s',
          createDNSRecords env zoneId records s0 = (Ret r, s')
          /\ trace s'
             = trace s0 ++ map (fun r => Sent (CreateDNSRecord zoneId r)) records
          /\ DNSBatchResult.success r
             = Nat.eqb (length (DNSBatchResult.errors r)) 0
          /\ (length (DNSBatchResult.recordIds r)
              + length (DNSBatchResult.errors r) = length records)%nat
          /\ Forall (created_in env zoneId records) (DNSBatchResult.recordIds r)).
Proof.
  intros H1 H2 H3 (S1 & I1 & T1) F2 (S3 & I3 & T3).
  split; [|intros records s0; apply createDNSRecords_requests].
  unfold createDNSRecords, createDNSRecords_loop, bind, createDNSRecord.
  rewrite request_returns, H1. cbn [fst snd world trace].
  rewrite S1, I1. cbn [truthy_opt andb default]. rewrite T1.
  rewrite request_returns. cbn [fst snd world trace]. rewrite H2.
  cbn [fst snd]. rewrite F2. cbn [andb].
  rewrite request_returns. cbn [fst snd world trace]. rewrite H3.
  cbn [fst snd]. rewrite S3, I3. cbn [truthy_opt andb default]. rewrite T3.
  unfold ret. cbn [app length Nat.eqb]. rewrite <- !app_assoc. reflexivity.
Qed.

End Batch.

Lemma createDNSRecords_partial_batch_witness :
  createDNSRecords MockBatch.env "Z1"
    [MockBatch.first; MockBatch.second; MockBatch.third] Mock.start
  = (Ret (DNSBatchResult.mk false ["R0"; "R2"] ["CNAME www: quota exceeded"]),
     mkSys 3%nat [Sent (CreateDNSRecord "Z1" MockBatch.first);
                  Sent (CreateDNSRecord "Z1" MockBatch.second);
                  Sent (CreateDNSRecord "Z1" MockBatch.third)]).
Proof.
  apply (createDNSRecords_partial_batch MockBatch.env "Z1"
           MockBatch.first MockBatch.second MockBatch.third Mock.start
           (Mock.created 0) 1%nat (Mock.refused "quota exceeded") 2%nat
           (Mock.created 2) 3%nat "R0" "R2");
    try reflexivity; repeat split.
Defined.

(** ** The polling waiters *)

Section Waiters.

Context {W : Type} (env : Env W).

Lemma actions_app (t u : list Event) : actions (t ++ u) = actions t ++ actions u.
Proof. apply filter_app. Qed.

Lemma poll_pattern_succ check interval k :
  (1 <= k)%nat ->
  poll_pattern check interval (S k)
  = check :: Delayed interval :: poll_pattern check interval k.
Proof. destruct k; [lia | reflexivity]. Qed.

Lemma waitForDomainVerification_loop_spec domain maxAttempts intervalMs :
  let succeeds w :=
    VerifyDomainResult.verified (fst (answer_verifyDomain env domain w)) in
  let next w := elapse env intervalMs (snd (answer_verifyDomain env domain w)) in
  forall fuel attempt s,
  (1 <= fuel)%nat ->
  attempt + Z.of_nat fuel = maxAttempts + 1 ->
  exists b k s',
    waitForDomainVerification_loop env domain maxAttempts intervalMs
                                   fuel attempt s = (Ret b, s')
    /\ (1 <= k <= fuel)%nat
    /\ actions (trace s')
       = actions (trace s) ++ poll_pattern (Sent (VerifyDomain domain)) intervalMs k
    /\ (b = false -> k = fuel)
    /\ (b = true -> exists w, succeeds w = true)
    /\ (succeeds (world s) = true -> b = true /\ k = 1%nat)
    /\ ((forall w, succeeds w = false) -> b = false)
    /\ (forall j, (S j < k)%nat ->
        succeeds (check_world next j (world s)) = false)
    /\ b = succeeds (check_world next (pred k) (world s))
    /\ world s'
       = snd (answer_verifyDomain env domain
                (check_world next (pred k) (world s))).
Proof.
  intros succeeds next.
  induction fuel as [|fuel IH]; intros attempt s Hfuel Hsum; [lia|].
  cbn [waitForDomainVerification_loop].
  replace (attempt <=? maxAttempts) with true by (symmetry; apply Z.leb_le; lia).
  unfold bind at 1. unfold verifyDomain. rewrite request_returns.
  fold (succeeds (world s)).
  destruct (succeeds (world s)) eqn:Hv.
  - eexists true, 1%nat, _. unfold ret. split; [reflexivity|]. cbn [trace].
    rewrite actions_app.
    split; [lia|]. split; [reflexivity|]. split; [discriminate|].
    split; [now exists (world s)|]. split; [auto|].
    split; [intros Hall; specialize (Hall (world s)); congruence|].
    split; [intros j Hj; lia|]. split; [now cbn [pred check_world]|reflexivity].
  - unfold bind at 1, logger_info, emit. cbn [world trace].
    unfold bind at 1.
    destruct fuel as [|fuel].
    + replace (attempt <? maxAttempts) with false
        by (symmetry; apply Z.ltb_ge; lia).
      cbn [when ret waitForDomainVerification_loop].
      unfold bind, logger_error, emit, ret. cbn [world trace].
      eexists false, 1%nat, _. split; [reflexivity|]. cbn [trace].
      rewrite !actions_app. cbn. rewrite ?app_nil_r.
      split; [lia|]. split; [reflexivity|]. split; [reflexivity|].
      split; [discriminate|]. split; [congruence|]. split; [reflexivity|].
      split; [intros j Hj; lia|]. split; [now rewrite Hv|reflexivity].
    + replace (attempt <? maxAttempts) with true
        by (symmetry; apply Z.ltb_lt; lia).
      cbn [when]. unfold delay at 1. cbn [world trace].
      match goal with
      | |- context [waitForDomainVerification_loop _ _ _ _ _ _ ?s2] =>
          destruct (IH (attempt + 1) s2 ltac:(lia) ltac:(lia))
            as (b & k & s' & -> & Hk & Ha & Hb & Hsome & _ & Hnever
                & Hearlier & Hlast & Hworld)
      end.
      cbn [world] in Hearlier, Hlast, Hworld. fold (next (world s)) in *.
      exists b, (S k), s'. split; [reflexivity|]. cbn [trace] in Ha.
      rewrite Ha, !actions_app, poll_pattern_succ by lia. cbn.
      rewrite ?app_nil_r, <- ?app_assoc.
      split; [lia|]. split; [reflexivity|].
      split; [intros ->; now rewrite Hb|]. split; [exact Hsome|].
      split; [congruence|]. split; [exact Hnever|].
      destruct k as [|k']; [lia|]. cbn [pred] in *.
      split; [|split; assumption].
      intros [|j] Hj; [exact Hv | apply Hearlier; lia].
Qed.

Lemma waitForZoneActivation_loop_spec zoneId maxAttempts intervalMs :
  let succeeds w := is_active (fst (answer_getZoneStatus env zoneId w)) in
  let next w := elapse env intervalMs (snd (answer_getZoneStatus env zoneId w)) in
  forall fuel attempt s,
  (1 <= fuel)%nat ->
  attempt + Z.of_nat fuel = maxAttempts + 1 ->
  exists b k s',
    waitForZoneActivation_loop env zoneId maxAttempts intervalMs
                               fuel attempt s = (Ret b, s')
    /\ (1 <= k <= fuel)%nat
    /\ actions (trace s')
       = actions (trace s) ++ poll_pattern (Sent (GetZoneStatus zoneId)) intervalMs k
    /\ (b = false -> k = fuel)
    /\ (b = true -> exists w, succeeds w = true)
    /\ (succeeds (world s) = true -> b = true /\ k = 1%nat)
    /\ ((forall w, succeeds w = false) -> b = false)
    /\ (forall j, (S j < k)%nat ->
        succeeds (check_world next j (world s)) = false)
    /\ b = succeeds (check_world next (pred k) (world s))
    /\ world s'
       = snd (answer_getZoneStatus env zoneId
                (check_world next (pred k) (world s))).
Proof.
  intros succeeds next.
  induction fuel as [|fuel IH]; intros attempt s Hfuel Hsum; [lia|].
  cbn [waitForZoneActivation_loop].
  replace (attempt <=? maxAttempts) with true by (symmetry; apply Z.leb_le; lia).
  unfold bind at 1. unfold getZoneStatus. rewrite request_returns.
  fold (succeeds (world s)).
  destruct (succeeds (world s)) eqn:Hv.
  - unfold bind, logger_success, emit, ret. cbn [world trace].
    eexists true, 1%nat, _. split; [reflexivity|]. cbn [trace].
    rewrite !actions_app. cbn. rewrite ?app_nil_r.
    split; [lia|]. split; [reflexivity|]. split; [discriminate|].
    split; [now exists (world s)|]. split; [auto|].
    split; [intros Hall; specialize (Hall (world s)); congruence|].
    split; [intros j Hj; lia|]. split; [now rewrite Hv|reflexivity].
  - unfold bind at 1, logger_info, emit. cbn [world trace].
    unfold bind at 1.
    destruct fuel as [|fuel].
    + replace (attempt <? maxAttempts) with false
        by (symmetry; apply Z.ltb_ge; lia).
      cbn [when ret waitForZoneActivation_loop].
      unfold bind, logger_warn, emit, ret. cbn [world trace].
      eexists false, 1%nat, _. split; [reflexivity|]. cbn [trace].
      rewrite !actions_app. cbn. rewrite ?app_nil_r.
      split; [lia|]. split; [reflexivity|]. split; [reflexivity|].
      split; [discriminate|]. split; [congruence|]. split; [reflexivity|].
      split; [intros j Hj; lia|]. split; [now rewrite Hv|reflexivity].
    + replace (attempt <? maxAttempts) with true
        by (symmetry; apply Z.ltb_lt; lia).
      cbn [when]. unfold delay at 1. cbn [world trace].
      match goal with
      | |- context [waitForZoneActivation_loop _ _ _ _ _ _ ?s2] =>
          destruct (IH (attempt + 1) s2 ltac:(lia) ltac:(lia))
            as (b & k & s' & -> & Hk & Ha & Hb & Hsome & _ & Hnever
                & Hearlier & Hlast & Hworld)
      end.
      cbn [world] in Hearlier, Hlast, Hworld. fold (next (world s)) in *.
      exists b, (S k), s'. split; [reflexivity|]. cbn [trace] in Ha.
      rewrite Ha, !actions_app, poll_pattern_succ by lia. cbn.
      rewrite ?app_nil_r, <- ?app_assoc.
      split; [lia|]. split; [reflexivity|].
      split; [intros ->; now rewrite Hb|]. split; [exact Hsome|].
      split; [congruence|]. split; [exact Hnever|].
      destruct k as [|k']; [lia|]. cbn [pred] in *.
      split; [|split; assumption].
      intros [|j] Hj; [exact Hv | apply Hearlier; lia].
Qed.

(** C4, as the code has it.  For [maxAttempts >= 1] both waiters check
    first and suspend for the interval only between two checks: [k] checks
    come with [k - 1] delays, none before the first check and none after
    the last.  A check that reports success ends the wait at once with
    true, whichever check it is: no check before the last one reported
    success, what is returned is what the last check reported, and the
    world is as that check left it.  Any other answer of a check, a failed
    request included, counts as not yet: the wait goes on, and false comes
    only after [maxAttempts] checks. *)
Theorem waiters_check_then_delay domain zoneId maxAttempts intervalMs s :
  1 <= maxAttempts ->
  polled env (waitForDomainVerification env domain maxAttempts intervalMs s) s
         (Sent (VerifyDomain domain)) maxAttempts intervalMs
         (answer_verifyDomain env domain) VerifyDomainResult.verified
  /\ polled env (waitForZoneActivation env zoneId maxAttempts intervalMs s) s
            (Sent (GetZoneStatus zoneId)) maxAttempts intervalMs
            (answer_getZoneStatus env zoneId) is_active.
Proof.
  intros Hmax. split.
  - unfold waitForDomainVerification, bind at 1, logger_info, emit.
    match goal with
    | |- context [waitForDomainVerification_loop _ _ _ _ _ _ ?s1] =>
        destruct (waitForDomainVerification_loop_spec domain maxAttempts
                    intervalMs (Z.to_nat maxAttempts) 1 s1
                    ltac:(lia) ltac:(lia))
          as (b & k & s' & Hrun & Hk & Ha & Hb & Hsome & Hfirst & Hnever
              & Hearlier & Hlast & Hworld)
    end.
    exists b, k, s'. cbn [world trace] in *. rewrite actions_app in Ha.
    cbn in Ha. rewrite app_nil_r in Ha. auto 12.
  - unfold waitForZoneActivation, bind at 1, logger_info, emit.
    match goal with
    | |- context [waitForZoneActivation_loop _ _ _ _ _ _ ?s1] =>
        destruct (waitForZoneActivation_loop_spec zoneId maxAttempts
                    intervalMs (Z.to_nat maxAttempts) 1 s1
                    ltac:(lia) ltac:(lia))
          as (b & k & s' & Hrun & Hk & Ha & Hb & Hsome & Hfirst & Hnever
              & Hearlier & Hlast & Hworld)
    end.
    exists b, k, s'. cbn [world trace] in *. rewrite actions_app in Ha.
    cbn in Ha. rewrite app_nil_r in Ha. auto 12.
Qed.

End Waiters.

Lemma waiters_check_then_delay_witness :
  1 <= 5
  /\ polled MockPoll.slow
            (waitForDomainVerification MockPoll.slow "example-test.com"
               5 30000 Mock.start) Mock.start
            (Sent (VerifyDomain "example-test.com")) 5 30000
            (answer_verifyDomain MockPoll.slow "example-test.com")
            VerifyDomainResult.verified
  /\ polled MockPoll.slow
            (waitForZoneActivation MockPoll.slow "Z1" 5 30000 Mock.start)
            Mock.start (Sent (GetZoneStatus "Z1")) 5 30000
            (answer_getZoneStatus MockPoll.slow "Z1") is_active.
Proof.
  split; [lia|].
  apply (waiters_check_then_delay MockPoll.slow "example-test.com" "Z1"
           5 30000 Mock.start).
  lia.
Defined.

(** C4 as stated fails on both counts.  With one attempt and a check that
    succeeds, the waiter has checked without suspending first.  With two
    attempts and a check that reports a failure each time, the waiter did
    not stop at the first failure: it suspended and checked again. *)
Lemma waiter_checks_before_suspending :
  waitForDomainVerification Mock.happy "example-test.com" 1 30000 Mock.start
  = (Ret true,
     mkSys 1%nat
       [Logged LInfo
          "Waiting for domain example-test.com to be verified on Vercel...";
        Sent (VerifyDomain "example-test.com")])
  /\ fst (waitForDomainVerification MockPoll.failing "example-test.com"
            2 30000 Mock.start) = Ret false
  /\ actions (trace (snd (waitForDomainVerification MockPoll.failing
                            "example-test.com" 2 30000 Mock.start)))
     = [Sent (VerifyDomain "example-test.com"); Delayed 30000;
        Sent (VerifyDomain "example-test.com")].
Proof. repeat split. Qed.

(** ** Rules for [wp], [yields] and [emits] *)

Section Rules.

Context {St : Type}.

Lemma wp_ret {A} (a : A) (Q : Outcome A -> St -> Prop) s :
  Q (Ret a) s -> wp (ret a) Q s.
Proof. exact (fun H => H). Qed.

Lemma wp_throw {A} e (Q : Outcome A -> St -> Prop) s :
  Q (Throw e) s -> wp (throw e) Q s.
Proof. exact (fun H => H). Qed.

Lemma wp_bind {A B} (m : M St A) (k : A -> M St B) Q s :
  wp m (fun o s' => match o with
                    | Ret a => wp (k a) Q s'
                    | Throw e => Q (Throw e) s'
                    end) s ->
  wp (bind m k) Q s.
Proof. unfold wp, bind. now destruct (m s) as [[a|e] s']. Qed.

Lemma wp_tryCatch {A} (m : M St A) (h : Thrown -> M St A) Q s :
  wp m (fun o s' => match o with
                    | Ret a => Q (Ret a) s'
                    | Throw e => wp (h e) Q s'
                    end) s ->
  wp (tryCatch m h) Q s.
Proof. unfold wp, tryCatch. now destruct (m s) as [[a|e] s']. Qed.

Lemma wp_run {A} (m : M St A) (Q : Outcome A -> St -> Prop) s o s' :
  m s = (o, s') -> Q o s' -> wp m Q s.
Proof. unfold wp. now intros ->. Qed.

Lemma wp_conseq {A} (m : M St A) (Q Q' : Outcome A -> St -> Prop) s :
  wp m Q s -> (forall o s', Q o s' -> Q' o s') -> wp m Q' s.
Proof. unfold wp. auto. Qed.

Lemma yields_ret {A} (a : A) : yields (St := St) returns (ret a).
Proof. intros s. now exists a. Qed.

Lemma yields_bind {A B} (m : M St A) (k : A -> M St B) :
  yields returns m -> (forall a, yields returns (k a)) ->
  yields returns (bind m k).
Proof.
  intros Hm Hk s. unfold bind. destruct (Hm s) as [a Ha].
  destruct (m s) as [o s']. simpl in Ha. subst o. apply Hk.
Qed.

Lemma yields_tryCatch {A} (m : M St A) h :
  yields returns m -> yields returns (tryCatch m h).
Proof.
  intros Hm s. unfold tryCatch. destruct (Hm s) as [a Ha].
  destruct (m s) as [o s']. simpl in Ha. subst o. now exists a.
Qed.

Lemma yields_when (c : bool) (m : M St unit) :
  yields returns m -> yields returns (when c m).
Proof. destruct c; [auto | intros _; apply yields_ret]. Qed.

Lemma returns_defined {A} (m : M St A) :
  yields returns m -> yields defined m.
Proof. intros H s. destruct (H s) as [a ->]. discriminate. Qed.

Lemma yields_defined_bind {A B} (m : M St A) (k : A -> M St B) :
  yields defined m -> (forall a, yields defined (k a)) ->
  yields defined (bind m k).
Proof.
  intros Hm Hk s. unfold bind. specialize (Hm s).
  destruct (m s) as [[a|e] s']; [apply Hk|].
  simpl in *. intros H. apply Hm. now injection H as ->.
Qed.

Lemma message_of_defined e : yields (St := St) defined (message_of e).
Proof. intros s. destruct e; discriminate. Qed.

Lemma splitDomain_defined domain : yields (St := St) defined (splitDomain domain).
Proof.
  intros s. unfold splitDomain.
  destruct (Z.of_nat (length (split "." domain)) <? 2); discriminate.
Qed.

Section Emits.

Context (tr : St -> list Event) (P : Event -> bool).

Lemma emits_ret {A} (a : A) : emits tr P (ret a).
Proof. intros s. exists []. now rewrite app_nil_r. Qed.

Lemma emits_throw {A} e : emits tr P (throw (A := A) e).
Proof. intros s. exists []. now rewrite app_nil_r. Qed.

Lemma emits_bind {A B} (m : M St A) (k : A -> M St B) :
  emits tr P m -> (forall a, emits tr P (k a)) -> emits tr P (bind m k).
Proof.
  intros Hm Hk s. unfold bind. destruct (Hm s) as (d1 & H1 & P1).
  destruct (m s) as [[a|e] s']; simpl in H1.
  - destruct (Hk a s') as (d2 & H2 & P2). exists (d1 ++ d2).
    now rewrite H2, H1, app_assoc, forallb_app, P1, P2.
  - now exists d1.
Qed.

Lemma emits_tryCatch {A} (m : M St A) h :
  emits tr P m -> (forall e, emits tr P (h e)) -> emits tr P (tryCatch m h).
Proof.
  intros Hm Hh s. unfold tryCatch. destruct (Hm s) as (d1 & H1 & P1).
  destruct (m s) as [[a|e] s']; simpl in H1.
  - now exists d1.
  - destruct (Hh e s') as (d2 & H2 & P2). exists (d1 ++ d2).
    now rewrite H2, H1, app_assoc, forallb_app, P1, P2.
Qed.

Lemma emits_when (c : bool) (m : M St unit) :
  emits tr P m -> emits tr P (when c m).
Proof. destruct c; [auto | intros _; apply emits_ret]. Qed.

Lemma emits_message_of e : emits tr P (message_of e).
Proof. destruct e; [apply emits_throw | apply emits_ret]. Qed.

Lemma emits_splitDomain domain : emits tr P (splitDomain domain).
Proof.
  unfold splitDomain.
  destruct (Z.of_nat (length (split "." domain)) <? 2);
    [apply emits_throw | apply emits_ret].
Qed.

End Emits.

End Rules.

(** ** What the parts of the saga yield *)

Section Yields.

Context {W : Type} (env : Env W).

Lemma yields_emit e : yields returns (emit (W := W) e).
Proof. intros s. now exists tt. Qed.

Lemma yields_delay ms : yields returns (delay env ms).
Proof. intros s. now exists tt. Qed.

Lemma yields_request {R} r (answer : W -> R * W) : yields returns (request r answer).
Proof. intros s. rewrite request_returns. now eexists. Qed.

Lemma yields_fetchExistingZone domain : yields returns (fetchExistingZone env domain).
Proof.
  apply yields_bind; [apply yields_request|].
  intros [zone| |msg]; apply yields_ret.
Qed.

Lemma yields_createZone domain : yields returns (createZone env domain).
Proof.
  apply yields_bind; [apply yields_request|].
  intros [zone|msg| |msg]; try apply yields_ret. apply yields_fetchExistingZone.
Qed.

Lemma yields_deleteDNSRecords zoneId recordIds :
  yields returns (deleteDNSRecords env zoneId recordIds).
Proof.
  induction recordIds as [|id rest IH]; simpl; [apply yields_ret|].
  apply yields_bind; [apply yields_request | intros _; exact IH].
Qed.

Lemma yields_rollback state : yields returns (rollback env state).
Proof.
  unfold rollback.
  repeat first
    [ apply yields_bind; [|intros ?]
    | apply yields_when
    | apply yields_tryCatch
    | apply yields_emit
    | apply yields_request
    | apply yields_deleteDNSRecords
    | apply yields_ret ].
  destruct (WorkflowState.cloudflareZoneId state); [|apply yields_ret].
  apply yields_when, yields_tryCatch, yields_bind;
    [apply yields_deleteDNSRecords | intros _; apply yields_emit].
Qed.

Lemma yields_waitForDomainVerification_loop domain maxAttempts intervalMs fuel :
  forall attempt,
    yields returns (waitForDomainVerification_loop env domain maxAttempts
                      intervalMs fuel attempt).
Proof.
  induction fuel as [|fuel IH]; intros attempt; cbn [waitForDomainVerification_loop].
  - apply yields_bind; [apply yields_emit | intros _; apply yields_ret].
  - destruct (attempt <=? maxAttempts).
    + apply yields_bind; [apply yields_request|]. intros result.
      destruct (VerifyDomainResult.verified result); [apply yields_ret|].
      apply yields_bind; [apply yields_emit | intros _].
      apply yields_bind; [apply yields_when, yields_delay | intros _; apply IH].
    + apply yields_bind; [apply yields_emit | intros _; apply yields_ret].
Qed.

Lemma yields_waitForDomainVerification domain maxAttempts intervalMs :
  yields returns (waitForDomainVerification env domain maxAttempts intervalMs).
Proof.
  apply yields_bind; [apply yields_emit | intros _].
  apply yields_waitForDomainVerification_loop.
Qed.

(** The batch returns, and reports success exactly when it has no error. *)
Lemma yields_createDNSRecords zoneId records :
  yields (fun o => exists r, o = Ret r
                   /\ DNSBatchResult.success r
                      = Nat.eqb (length (DNSBatchResult.errors r)) 0)
         (createDNSRecords env zoneId records).
Proof.
  intros s. destruct (createDNSRecords_requests env zoneId records s)
    as (r & s' & -> & _ & H & _).
  now exists r.
Qed.

Lemma purchaseDomain_defined domain years enableWhoisGuard :
  yields defined (purchaseDomain env domain years enableWhoisGuard).
Proof.
  apply yields_defined_bind; [apply splitDomain_defined|].
  intros _. apply returns_defined, yields_request.
Qed.

Lemma setNameservers_defined domain nameservers :
  yields defined (setNameservers env domain nameservers).
Proof.
  apply yields_defined_bind; [apply splitDomain_defined|].
  intros [sld tld]. apply returns_defined, yields_request.
Qed.

(** [retry] throws [undefined] only if the loop ends before any attempt. *)
Lemma retry_loop_defined {T} (fn : M (Sys W) T) maxAttempts i m onRetry :
  yields defined fn ->
  (forall cb, onRetry = Some cb -> forall k e, yields defined (cb k e)) ->
  forall fuel attempt last,
    last <> Undefined \/ ((1 <= fuel)%nat /\ attempt <= maxAttempts) ->
    yields defined (retry_loop env fn maxAttempts i m onRetry fuel attempt last).
Proof.
  intros Hfn Hcb. induction fuel as [|fuel IH]; intros attempt last Hlast s.
  - destruct Hlast as [Hlast|[Hf _]]; [|lia]. simpl. unfold defined. congruence.
  - cbn [retry_loop]. destruct (attempt <=? maxAttempts) eqn:Hle.
    + unfold tryCatch. specialize (Hfn s).
      destruct (fn s) as [[a|e] s1]; [discriminate|].
      assert (He : e <> Undefined) by (intros ->; now apply Hfn).
      destruct (attempt =? maxAttempts); [simpl; unfold defined; congruence|].
      apply yields_defined_bind.
      { destruct onRetry as [cb|]; [now apply Hcb|].
        apply returns_defined, yields_ret. }
      intros _. apply yields_defined_bind; [apply returns_defined, yields_emit|].
      intros _. apply yields_defined_bind; [apply returns_defined, yields_delay|].
      intros _. apply IH. now left.
    + destruct Hlast as [Hlast|[_ Ha]].
      * simpl. unfold defined. congruence.
      * apply Z.leb_gt in Hle. lia.
Qed.

(** Step 4 never throws [undefined]. *)
Lemma nameserver_retry_defined domain nameservers :
  yields defined (retry env (setNameservers env domain nameservers)
                        nameserver_retry_options).
Proof.
  unfold retry. apply retry_loop_defined.
  - apply setNameservers_defined.
  - intros cb Hcb k e. injection Hcb as <-.
    apply yields_defined_bind; [apply message_of_defined|].
    intros msg. apply returns_defined, yields_emit.
  - right. cbn. lia.
Qed.

End Yields.

(** ** The saga *)

Section Saga.

Context {W : Type} (env : Env W).

Lemma wp_sys {R} (Rp : Outcome R -> Prop) (m : M (Sys W) R)
    (Q : Outcome R -> Run (W := W) -> Prop) sy fr :
  yields Rp m ->
  (forall o sy', Rp o -> Q o (sy', fr)) ->
  wp (sys m) Q (sy, fr).
Proof.
  intros Hm HQ. unfold wp, sys. cbn [fst snd]. specialize (Hm sy).
  destruct (m sy) as [o sy']. now apply HQ.
Qed.

Lemma wp_assign f (Q : Outcome unit -> Run (W := W) -> Prop) sy fr :
  Q (Ret tt) (sy, f fr) -> wp (assign f) Q (sy, fr).
Proof. exact (fun H => H). Qed.

Lemma wp_read (Q : Outcome Frame -> Run (W := W) -> Prop) sy fr :
  Q (Ret fr) (sy, fr) -> wp read Q (sy, fr).
Proof. exact (fun H => H). Qed.

Lemma wp_return_result (Q : Outcome WorkflowResult.t -> Run (W := W) -> Prop)
    sy fr :
  Q (Ret (result fr)) (sy, fr) -> wp return_result Q (sy, fr).
Proof. exact (fun H => H). Qed.

Lemma wp_run_rollback (Q : Outcome unit -> Run (W := W) -> Prop) sy fr :
  (forall sy', Q (Ret tt) (sy', fr)) -> wp (run_rollback env) Q (sy, fr).
Proof.
  intros HQ. unfold run_rollback. apply wp_bind, wp_read.
  apply (wp_sys returns); [apply yields_rollback|].
  intros o sy' [[] ->]. apply HQ.
Qed.

Lemma validateFields_cases {St} service fields (s : St) :
  validateFields env service fields s = (Ret tt, s)
  \/ exists m, validateFields env service fields s = (Throw (Error m), s).
Proof.
  induction fields as [|field rest IH]; simpl; [now left|].
  destruct (truthy (config env service field)); simpl; [exact IH|].
  right. now eexists.
Qed.

Lemma validateConfig_cases {St} service (s : St) :
  validateConfig env service s = (Ret tt, s)
  \/ exists m, validateConfig env service s = (Throw (Error m), s).
Proof.
  destruct service; try apply validateFields_cases. simpl.
  destruct (truthy (config env github "token")); simpl; [|right; now eexists].
  destruct (truthy (config env vercel "token")); simpl; [now left|].
  right. now eexists.
Qed.

Lemma wp_validateConfig {St} service (Q : Outcome unit -> St -> Prop) s :
  Q (Ret tt) s -> (forall m, Q (Throw (Error m)) s) ->
  wp (validateConfig env service) Q s.
Proof.
  intros Hret Hthrow. unfold wp.
  destruct (validateConfig_cases service s) as [->|[m ->]]; simpl; auto.
Qed.

(** The loop of step 6 returns whatever the DNS provider answers.  It asks
    for one TXT record per verification record of type TXT, in order, and
    for nothing else; it appends the ids of the creations that succeeded
    to [state.cloudflareRecordIds]; of the result it changes nothing but
    [details.dnsRecordIds]. *)
Lemma createVerificationRecords_spec zoneId records :
  forall sy fr,
  exists sy' st' det' ids,
    createVerificationRecords env zoneId records (sy, fr)
    = (Ret tt,
       (sy', mkFrame st'
               (WorkflowResult.mk (WorkflowResult.success (result fr))
                                  (WorkflowResult.steps (result fr)) det'
                                  (WorkflowResult.errors (result fr)))))
    /\ WorkflowState.cloudflareRecordIds st'
       = WorkflowState.cloudflareRecordIds (state fr) ++ ids
    /\ trace sy'
       = trace sy ++ map (fun record => Sent (CreateDNSRecord zoneId
                                                (txt_record record)))
                         (filter is_txt records)
    /\ Forall (created_for env zoneId records) ids
    /\ (refuses_txt env zoneId -> ids = [])
    /\ ids = fst (txt_ids env zoneId records (world sy))
    /\ world sy' = snd (txt_ids env zoneId records (world sy)).
Proof.
  induction records as [|record rest IH]; intros sy fr.
  - exists sy, (state fr), (WorkflowResult.details (result fr)), [].
    destruct fr as [st [su sp de er]]. cbn. rewrite !app_nil_r. auto 10.
  - assert (Hrest : forall ids, Forall (created_for env zoneId rest) ids ->
                                Forall (created_for env zoneId (record :: rest)) ids).
    { intros ids. apply Forall_impl. intros id (r & w & Hin & Ht & Hc).
      exists r, w. split; [now right | auto]. }
    cbn [createVerificationRecords filter txt_ids]. unfold bind at 1.
    fold (is_txt record).
    destruct (is_txt record) eqn:Htxt.
    + unfold bind at 1, sys, createDNSRecord. cbn [fst snd].
      rewrite request_returns. fold (txt_record record). cbv zeta.
      set (answer := answer_createDNSRecord env zoneId (txt_record record)
                                            (world sy)).
      set (res := fst answer).
      destruct (CreateDNSRecordResult.success res) eqn:Hs;
        [destruct (CreateDNSRecordResult.recordId res) as [id|] eqn:Hi;
         [destruct (truthy id) eqn:Ht|]|];
        cbn [andb truthy_opt when]; try rewrite Ht; cbn [when].
      * unfold assign. cbn [fst snd default].
        match goal with
        | |- context [createVerificationRecords _ _ _ (?sy1, ?fr1)] =>
            destruct (IH sy1 fr1)
              as (sy' & st' & det' & ids & -> & Hids & Htr & Hall & Hno
                  & Hfst & Hw)
        end.
        cbn [world] in Hfst, Hw.
        exists sy', st', det', (id :: ids). split; [reflexivity|].
        split; [rewrite Hids; cbn; now rewrite <- app_assoc|].
        split; [rewrite Htr; cbn; now rewrite <- app_assoc|].
        split; [|split; [|split; [now rewrite Hfst | exact Hw]]].
        -- constructor; [|now apply Hrest].
           exists record, (world sy). split; [now left|]. split; [exact Htxt|].
           fold answer res. now repeat split.
        -- intros Hr. specialize (Hr record (world sy)). fold answer res in Hr.
           congruence.
      * unfold ret.
        match goal with
        | |- context [createVerificationRecords _ _ _ (?sy1, ?fr1)] =>
            destruct (IH sy1 fr1)
              as (sy' & st' & det' & ids & -> & Hids & Htr & Hall & Hno
                  & Hfst & Hw)
        end.
        exists sy', st', det', ids. split; [reflexivity|]. split; [exact Hids|].
        split; [rewrite Htr; cbn; now rewrite <- app_assoc|]. auto 10.
      * unfold ret.
        match goal with
        | |- context [createVerificationRecords _ _ _ (?sy1, ?fr1)] =>
            destruct (IH sy1 fr1)
              as (sy' & st' & det' & ids & -> & Hids & Htr & Hall & Hno
                  & Hfst & Hw)
        end.
        exists sy', st', det', ids. split; [reflexivity|]. split; [exact Hids|].
        split; [rewrite Htr; cbn; now rewrite <- app_assoc|]. auto 10.
      * unfold ret.
        match goal with
        | |- context [createVerificationRecords _ _ _ (?sy1, ?fr1)] =>
            destruct (IH sy1 fr1)
              as (sy' & st' & det' & ids & -> & Hids & Htr & Hall & Hno
                  & Hfst & Hw)
        end.
        exists sy', st', det', ids. split; [reflexivity|]. split; [exact Hids|].
        split; [rewrite Htr; cbn; now rewrite <- app_assoc|]. auto 10.
    + unfold ret.
      destruct (IH sy fr)
        as (sy' & st' & det' & ids & -> & Hids & Htr & Hall & Hno & Hfst & Hw).
      exists sy', st', det', ids. auto 12.
Qed.

Lemma wp_createVerificationRecords zoneId records
    (Q : Outcome unit -> Run (W := W) -> Prop) sy fr :
  (forall sy' st' det' ids,
     WorkflowState.cloudflareRecordIds st'
     = WorkflowState.cloudflareRecordIds (state fr) ++ ids ->
     Forall (created_for env zoneId records) ids ->
     (refuses_txt env zoneId -> ids = []) ->
     Q (Ret tt)
       (sy', mkFrame st'
               (WorkflowResult.mk (WorkflowResult.success (result fr))
                                  (WorkflowResult.steps (result fr)) det'
                                  (WorkflowResult.errors (result fr))))) ->
  wp (createVerificationRecords env zoneId records) Q (sy, fr).
Proof.
  intros HQ. unfold wp.
  destruct (createVerificationRecords_spec zoneId records sy fr)
    as (sy' & st' & det' & ids & -> & Hids & _ & Hall & Hno & _).
  now apply (HQ sy' st' det' ids).
Qed.


(** Reduces the assignments made to the two objects so far. *)
Ltac frame_cbn :=
  cbn [set_success set_availabilityCheck set_domainPurchase set_cloudflareZone
       set_nameserversSet set_dnsRecords set_vercelDomain set_vercelVerified
       set_details_purchase set_details_zone set_details_dnsRecordIds
       set_domainPurchased set_cloudflareZoneId set_cloudflareRecordIds
       set_vercelDomainAdded set_recordIds push_recordId push_errors
       with_state with_result with_steps with_details state result
       WorkflowResult.success WorkflowResult.steps WorkflowResult.details
       WorkflowResult.errors Steps.availabilityCheck Steps.domainPurchase
       Steps.cloudflareZone Steps.nameserversSet Steps.dnsRecords
       Steps.vercelDomain Steps.vercelVerified Steps.values initial_frame
       WorkflowState.domain WorkflowState.years WorkflowState.enableWhoisGuard
       WorkflowState.domainPurchased WorkflowState.cloudflareZoneId
       WorkflowState.cloudflareRecordIds WorkflowState.vercelDomainAdded
       Details.domainId Details.transactionId Details.cloudflareZoneId
       Details.cloudflareNameservers Details.dnsRecordIds
       forallb Bool.eqb andb fst snd app].

(** Closes the invariant on a result whose flags and errors are known. *)
Ltac consistent_tac :=
  unfold consistent, all_steps, unfinished; frame_cbn;
  intuition (try discriminate; try congruence).

(** One step of a run whose provider answers are arbitrary: the state of
    the world after the step is a fresh one, the two objects are tracked.
    The steps that branch or may throw are left to the proof. *)
Ltac wp_step :=
  lazymatch goal with
  | |- wp (bind _ _) _ _ => apply wp_bind
  | |- wp (assign _) _ _ => apply wp_assign
  | |- wp read _ _ => apply wp_read
  | |- wp return_result _ _ => apply wp_return_result
  | |- wp (ret _) _ _ => apply wp_ret
  | |- wp (sys (createDNSRecords _ _ _)) _ _ => fail
  | |- wp (sys (purchaseDomain _ _ _ _)) _ _ => fail
  | |- wp (sys (retry _ _ _)) _ _ => fail
  | |- wp (sys _) _ _ =>
      eapply (wp_sys returns);
      [ first [ apply yields_emit | apply yields_request
              | apply yields_createZone
              | apply yields_waitForDomainVerification ]
      | intros ? ? [? ->] ]
  | |- wp (run_rollback _) _ _ => apply wp_run_rollback; intros ?
  | |- wp (createVerificationRecords _ _ _) _ _ =>
      apply wp_createVerificationRecords; intros ? ? ? ? ? ? ?
  | |- wp _ _ _ => fail
  | |- _ => progress cbv beta iota
  end.

Ltac wp_go := repeat wp_step.

(** The catch block completes an unfinished result into a consistent
    one. *)
Lemma wp_runWorkflow_catch e sy fr :
  e <> Undefined -> unfinished fr ->
  wp (runWorkflow_catch env e)
     (fun o _ => exists r, o = Ret r /\ consistent r) (sy, fr).
Proof.
  intros He [Hs Hv]. destruct e as [|m]; [congruence|].
  unfold runWorkflow_catch, message_of. wp_go.
  eexists; split; [reflexivity|].
  destruct fr as [st [su sp de er]]. cbn in Hs, Hv.
  unfold consistent, all_steps. frame_cbn. subst su.
  split; [|split].
  - split; [discriminate|]. intros (_ & _ & _ & _ & _ & _ & H). congruence.
  - intros _. destruct er; discriminate.
  - discriminate.
Qed.

(** Steps 5 to 7, from the two objects as step 4 leaves them. *)
Lemma wp_runWorkflow_records domain zone sy st det :
  wp (runWorkflow_records env domain zone)
     (fun o s => match o with
                 | Ret r => consistent r
                 | Throw e => e <> Undefined /\ unfinished (snd s)
                 end)
     (sy, frame_after_step4 st det).
Proof.
  unfold runWorkflow_records, frame_after_step4. wp_go.
  eapply wp_sys; [apply yields_createDNSRecords|].
  intros ? ? (r & -> & Hs). wp_go.
  destruct (DNSBatchResult.success r) eqn:Hok; cbn [negb].
  2: destruct (DNSBatchResult.errors r) as [|e0 el]; [cbn in Hs; congruence|].
  all: wp_go.
  all: apply wp_validateConfig;
    [|intros m; split; [discriminate | split; reflexivity]].
  all: wp_go.
  all: match goal with
       | |- context [AddDomainResult.success ?a] =>
           destruct (AddDomainResult.success a); cbn [negb];
           [ destruct (AddDomainResult.verificationRequired a) as [[|]|];
             try destruct (AddDomainResult.verificationRecords a) |]
       end.
  all: wp_go.
  all: try match goal with
       | |- context [negb ?b] => destruct b; cbn [negb]
       end.
  all: wp_go; frame_cbn; wp_go.
  all: consistent_tac.
Qed.

(** A step that may throw an [Error]: either it returned, or the catch
    block gets an [Error] and an unfinished result. *)
Ltac wp_defined tac :=
  eapply (wp_sys defined); [tac|];
  intros [?|[|?]] ? ?;
  [ | exfalso; auto | split; [discriminate | split; reflexivity] ].

(** The try block: steps 1 to 4 on every path, then steps 5 to 7. *)
Lemma wp_runWorkflow_try domain years enableWhoisGuard sy :
  wp (runWorkflow_try env domain years enableWhoisGuard)
     (fun o s => match o with
                 | Ret r => consistent r
                 | Throw e => e <> Undefined /\ unfinished (snd s)
                 end)
     (sy, initial_frame domain years enableWhoisGuard).
Proof.
  unfold runWorkflow_try, initial_frame. wp_go.
  apply wp_validateConfig;
    [|intros m; split; [discriminate | split; reflexivity]].
  wp_go.
  match goal with
  | |- context [AvailabilityResult.available ?a] =>
      destruct (AvailabilityResult.available a); cbn [negb];
      [ destruct (default false (AvailabilityResult.isPremium a)); cbn [when] |]
  end.
  all: wp_go.
  3: consistent_tac.
  all: apply wp_validateConfig;
    [|intros m; split; [discriminate | split; reflexivity]].
  all: wp_go.
  all: wp_defined ltac:(apply purchaseDomain_defined).
  all: wp_go.
  all: match goal with
       | |- context [PurchaseResult.success ?a] =>
           destruct (PurchaseResult.success a); cbn [negb]
       end.
  all: wp_go.
  2, 4: consistent_tac.
  all: apply wp_validateConfig;
    [|intros m; split; [discriminate | split; reflexivity]].
  all: wp_go.
  all: match goal with
       | |- context [CreateZoneResult.success ?a] =>
           destruct (CreateZoneResult.success a);
           [ destruct (CreateZoneResult.zone a) |]
       end.
  all: wp_go.
  2, 3, 5, 6: consistent_tac.
  all: wp_defined ltac:(apply nameserver_retry_defined).
  all: wp_go.
  all: match goal with
       | |- context [SetNameserversResult.success ?a] =>
           destruct (SetNameserversResult.success a); cbn [negb]
       end.
  all: wp_go.
  2, 4: consistent_tac.
  all: frame_cbn; apply wp_runWorkflow_records.
Qed.

(** C1. Every run of the workflow returns a result, and in it success
    holds exactly when all seven step flags are set, a flag that is not
    set comes with at least one error, and success comes with none. *)
Theorem runWorkflow_result_consistent domain years enableWhoisGuard
    (s : Sys W) :
  exists r s',
    runWorkflow env domain years enableWhoisGuard s = (Ret r, s')
    /\ consistent r.
Proof.
  assert (H : wp (tryCatch (runWorkflow_try env domain years enableWhoisGuard)
                           (runWorkflow_catch env))
                 (fun o _ => exists r, o = Ret r /\ consistent r)
                 (s, initial_frame domain years enableWhoisGuard)).
  { apply wp_tryCatch.
    eapply wp_conseq; [apply wp_runWorkflow_try|].
    intros [r|e] [sy fr]; cbn [snd].
    - intros Hr. now exists r.
    - intros [He Hu]. now apply wp_runWorkflow_catch. }
  unfold wp in H. unfold runWorkflow.
  destruct (tryCatch _ _ _) as [o s']. cbn [fst snd] in H.
  destruct H as (r & -> & Hr). now exists r, (fst s').
Qed.


(** *** Runs along a known path *)

Lemma wp_sys_exact {R} (m : M (Sys W) R)
    (Q : Outcome R -> Run (W := W) -> Prop) sy fr :
  wp m (fun o sy' => Q o (sy', fr)) sy -> wp (sys m) Q (sy, fr).
Proof. unfold wp, sys. cbn [fst snd]. now destruct (m sy). Qed.

Lemma wp_emit e (Q : Outcome unit -> Sys W -> Prop) w t :
  Q (Ret tt) (mkSys w (t ++ [e])) -> wp (emit e) Q (mkSys w t).
Proof. exact (fun H => H). Qed.

Lemma wp_request {R} r (answer : W -> R * W) a w'
    (Q : Outcome R -> Sys W -> Prop) w t :
  answer w = (a, w') ->
  Q (Ret a) (mkSys w' (t ++ [Sent r])) -> wp (request r answer) Q (mkSys w t).
Proof. intros Ha HQ. unfold wp. rewrite request_returns. cbn. now rewrite Ha. Qed.

Lemma validateFields_configured {St} service fields (s : St) :
  forallb (fun field => truthy (config env service field)) fields = true ->
  validateFields env service fields s = (Ret tt, s).
Proof.
  induction fields as [|field rest IH]; simpl; [reflexivity|].
  intros H. apply andb_prop in H as [-> H]. simpl. now apply IH.
Qed.

Lemma wp_validateConfig_configured {St} service
    (Q : Outcome unit -> St -> Prop) s :
  service <> deploy -> configured env service ->
  Q (Ret tt) s -> wp (validateConfig env service) Q s.
Proof.
  intros Hd Hc HQ. unfold wp.
  replace (validateConfig env service s) with (Ret tt, s); [exact HQ|].
  symmetry. destruct service; try (now apply validateFields_configured).
  congruence.
Qed.

Lemma wp_splitDomain {St} domain (Q : Outcome (string * string) -> St -> Prop) s :
  contains "." domain = true ->
  Q (Ret (hd EmptyString (split "." domain), join "." (tl (split "." domain)))) s ->
  wp (splitDomain domain) Q s.
Proof. intros Hc HQ. unfold wp. now rewrite splitDomain_spec, Hc. Qed.

Ltac wpx_step :=
  lazymatch goal with
  | |- wp (bind _ _) _ _ => apply wp_bind
  | |- wp (assign _) _ _ => apply wp_assign; frame_cbn
  | |- wp read _ _ => apply wp_read
  | |- wp return_result _ _ => apply wp_return_result
  | |- wp (ret _) _ _ => apply wp_ret
  | |- wp (sys _) _ _ => apply wp_sys_exact
  | |- wp (emit _) _ _ => apply wp_emit
  | |- wp (logger_info _) _ _ => apply wp_emit
  | |- wp (logger_success _) _ _ => apply wp_emit
  | |- wp (logger_warn _) _ _ => apply wp_emit
  | |- wp (logger_error _) _ _ => apply wp_emit
  | |- wp (validateConfig _ _) _ _ =>
      apply wp_validateConfig_configured; [discriminate | assumption |]
  | |- wp (splitDomain _) _ _ => apply wp_splitDomain; [assumption|]
  | |- wp (request _ _) _ _ => eapply wp_request; [eassumption|]
  | |- wp (when true _) _ _ => cbn [when]
  | |- wp (when false _) _ _ => cbn [when]
  | |- wp (when ?c _) _ _ =>
      first [ progress (cbn [length Z.of_nat Z.ltb Z.compare];
                        rewrite ?andb_false_r)
            | destruct c ]
  | |- wp (run_rollback _) _ _ => unfold run_rollback
  | |- wp (rollback _ _) _ _ => unfold rollback; frame_cbn
  | |- wp _ _ _ => fail
  | |- _ => progress cbv beta iota
  end.

Ltac wpx := repeat wpx_step.

(** C2, as the code has it.  When the availability check and the purchase
    succeed and the creation of the zone fails without a conflict, the
    saga records the one error of the zone and runs [rollback], which
    sends no request at all (nothing to remove from the hosting platform,
    no record to delete) and writes the manual-action warning to the log.
    The returned result has [success = false] and the zone error as its
    only error; the warning is in the log, not in the error list. *)
Theorem zone_failure_rolls_back domain years enableWhoisGuard s
    r1 w1 r2 w2 post w3 msg :
  configured env namecheap ->
  configured env registrant ->
  configured env cloudflare ->
  contains "." domain = true ->
  answer_checkAvailability env domain (world s) = (r1, w1) ->
  AvailabilityResult.available r1 = true ->
  answer_purchaseDomain env domain years enableWhoisGuard w1 = (r2, w2) ->
  PurchaseResult.success r2 = true ->
  answer_postZone env domain w2 = (post, w3) ->
  zone_failure post = Some msg ->
  exists r delta,
    runWorkflow env domain years enableWhoisGuard s
    = (Ret r, mkSys w3 (trace s ++ delta))
    /\ WorkflowResult.success r = false
    /\ WorkflowResult.steps r
       = Steps.mk true true false false false false false
    /\ WorkflowResult.errors r = ["Cloudflare Zone: " +++ tmpl msg]
    /\ actions delta
       = [Sent (CheckAvailability domain);
          Sent (PurchaseDomain domain years enableWhoisGuard);
          Sent (CreateZone domain)]
    /\ In (manual_action_warning domain) delta
    /\ ~ In (manual_action_notice domain) (WorkflowResult.errors r).
Proof.
  intros Cn Cr Cc Hdot H1 A1 H2 A2 H3 Hmsg.
  destruct s as [w0 t0]. cbn [world trace] in *.
  assert (H : wp (tryCatch (runWorkflow_try env domain years enableWhoisGuard)
                           (runWorkflow_catch env))
     (fun o st => exists r delta,
        o = Ret r /\ fst st = mkSys w3 (t0 ++ delta)
        /\ WorkflowResult.success r = false
        /\ WorkflowResult.steps r
           = Steps.mk true true false false false false false
        /\ WorkflowResult.errors r = ["Cloudflare Zone: " +++ tmpl msg]
        /\ actions delta
           = [Sent (CheckAvailability domain);
              Sent (PurchaseDomain domain years enableWhoisGuard);
              Sent (CreateZone domain)]
        /\ In (manual_action_warning domain) delta
        /\ ~ In (manual_action_notice domain) (WorkflowResult.errors r))
     (mkSys w0 t0, initial_frame domain years enableWhoisGuard)).
  { apply wp_tryCatch. unfold runWorkflow_try, initial_frame.
    unfold checkAvailability, purchaseDomain, createZone.
    wpx. rewrite A1. cbn [negb]. wpx.
    all: rewrite A2; cbn [negb]; wpx.
    all: destruct post as [zone|m| |m]; try discriminate Hmsg;
      injection Hmsg as <-; wpx;
      cbn [CreateZoneResult.success CreateZoneResult.zone
           CreateZoneResult.errorMessage]; wpx.
    all: frame_cbn; cbn [fst]; rewrite <- !app_assoc; cbn [app].
    all: eexists _, _; split; [reflexivity|]; split; [reflexivity|].
    all: cbn [WorkflowResult.success WorkflowResult.steps WorkflowResult.errors].
    all: repeat (split; [reflexivity|]).
    all: split; [cbn [In]; unfold manual_action_warning, manual_action_notice;
                 auto 30|].
    all: intros [H|[]]; discriminate H. }
  unfold wp in H. unfold runWorkflow.
  destruct (tryCatch _ _ _) as [o [sy fr]]. cbn [fst snd] in H.
  destruct H as (r & delta & -> & -> & H). now exists r, delta.
Qed.


Lemma wp_retry_returns {T} (fn : M (Sys W) T) options a s s'
    (Q : Outcome T -> Sys W -> Prop) :
  1 <= default 3 (RetryOptions.maxAttempts options) ->
  fn s = (Ret a, s') ->
  Q (Ret a) s' -> wp (retry env fn options) Q s.
Proof.
  intros Hmax Hfn HQ. unfold wp.
  now rewrite (retry_returns_first env fn options a s s' Hmax Hfn).
Qed.

Lemma setNameservers_returns domain nameservers w t r w' :
  contains "." domain = true ->
  answer_setNameservers env (sld_of domain) (tld_of domain) nameservers w
  = (r, w') ->
  setNameservers env domain nameservers (mkSys w t)
  = (Ret r, mkSys w' (t ++ [Sent (SetNameservers (sld_of domain) (tld_of domain)
                                                 nameservers)])).
Proof.
  intros Hdot Ha. unfold setNameservers, bind.
  rewrite splitDomain_spec, Hdot, request_returns. cbn [world trace].
  fold (sld_of domain) (tld_of domain). now rewrite Ha.
Qed.

(** C5 fails on the code.  When the registrar
    answers the delegation of step 4 with a failure, [setNameservers]
    returns it as a result value, so [retry] sees an attempt that
    returned: the delegation is requested once, no delay follows, and the
    saga records the error and rolls back. *)
Theorem nameserver_failure_not_retried domain years enableWhoisGuard s
    r1 w1 r2 w2 zone w3 r4 w4 :
  configured env namecheap ->
  configured env registrant ->
  configured env cloudflare ->
  contains "." domain = true ->
  answer_checkAvailability env domain (world s) = (r1, w1) ->
  AvailabilityResult.available r1 = true ->
  answer_purchaseDomain env domain years enableWhoisGuard w1 = (r2, w2) ->
  PurchaseResult.success r2 = true ->
  answer_postZone env domain w2 = (PostCreated zone, w3) ->
  answer_setNameservers env (sld_of domain) (tld_of domain)
                        (CloudflareZone.nameServers zone) w3 = (r4, w4) ->
  SetNameserversResult.success r4 = false ->
  exists r delta,
    runWorkflow env domain years enableWhoisGuard s
    = (Ret r, mkSys w4 (trace s ++ delta))
    /\ WorkflowResult.success r = false
    /\ WorkflowResult.steps r
       = Steps.mk true true true false false false false
    /\ WorkflowResult.errors r
       = ["Nameservers: " +++ tmpl (SetNameserversResult.errorMessage r4)]
    /\ actions delta
       = [Sent (CheckAvailability domain);
          Sent (PurchaseDomain domain years enableWhoisGuard);
          Sent (CreateZone domain);
          Sent (SetNameservers (sld_of domain) (tld_of domain)
                               (CloudflareZone.nameServers zone))].
Proof.
  intros Cn Cr Cc Hdot H1 A1 H2 A2 H3 H4 A4.
  destruct s as [w0 t0]. cbn [world trace] in *.
  assert (H : wp (tryCatch (runWorkflow_try env domain years enableWhoisGuard)
                           (runWorkflow_catch env))
     (fun o st => exists r delta,
        o = Ret r /\ fst st = mkSys w4 (t0 ++ delta)
        /\ WorkflowResult.success r = false
        /\ WorkflowResult.steps r
           = Steps.mk true true true false false false false
        /\ WorkflowResult.errors r
           = ["Nameservers: " +++ tmpl (SetNameserversResult.errorMessage r4)]
        /\ actions delta
           = [Sent (CheckAvailability domain);
              Sent (PurchaseDomain domain years enableWhoisGuard);
              Sent (CreateZone domain);
              Sent (SetNameservers (sld_of domain) (tld_of domain)
                                   (CloudflareZone.nameServers zone))])
     (mkSys w0 t0, initial_frame domain years enableWhoisGuard)).
  { apply wp_tryCatch. unfold runWorkflow_try, initial_frame.
    unfold checkAvailability, purchaseDomain, createZone.
    wpx. rewrite A1. cbn [negb]. wpx.
    all: rewrite A2; cbn [negb]; wpx.
    all: repeat (progress cbn [CreateZoneResult.success CreateZoneResult.zone];
                 wpx).
    all: eapply wp_retry_returns;
      [cbn; lia | apply (setNameservers_returns _ _ _ _ _ _ Hdot H4) |].
    all: rewrite A4; cbn [negb]; wpx.
    all: frame_cbn; cbn [fst]; rewrite <- !app_assoc; cbn [app].
    all: eexists _, _; split; [reflexivity|]; split; [reflexivity|].
    all: cbn [WorkflowResult.success WorkflowResult.steps WorkflowResult.errors].
    all: repeat (split; [reflexivity|]).
    all: reflexivity. }
  unfold wp in H. unfold runWorkflow.
  destruct (tryCatch _ _ _) as [o [sy fr]]. cbn [fst snd] in H.
  destruct H as (r & delta & -> & -> & H). now exists r, delta.
Qed.


End Saga.

Lemma zone_failure_rolls_back_witness :
  exists r delta,
    runWorkflow MockSaga.zone_fails "example-test.com" 1 true Mock.start
    = (Ret r, mkSys 3%nat (trace Mock.start ++ delta))
    /\ WorkflowResult.success r = false
    /\ WorkflowResult.steps r
       = Steps.mk true true false false false false false
    /\ WorkflowResult.errors r = ["Cloudflare Zone: Internal server error"]
    /\ actions delta
       = [Sent (CheckAvailability "example-test.com");
          Sent (PurchaseDomain "example-test.com" 1 true);
          Sent (CreateZone "example-test.com")]
    /\ In (manual_action_warning "example-test.com") delta
    /\ ~ In (manual_action_notice "example-test.com") (WorkflowResult.errors r).
Proof.
  apply (zone_failure_rolls_back MockSaga.zone_fails "example-test.com" 1 true
           Mock.start (Mock.available "example-test.com") 1%nat
           Mock.purchased 2%nat (PostFailed (Some "Internal server error"))
           3%nat (Some "Internal server error"));
    reflexivity.
Defined.

(** C2 as stated fails: after a zone creation that failed with "Internal
    server error", the error list of the result has the zone entry and
    nothing else; the manual-action notice went to the log only. *)
Lemma zone_failure_notice_is_not_an_error :
  exists r s',
    runWorkflow MockSaga.zone_fails "example-test.com" 1 true Mock.start
    = (Ret r, s')
    /\ WorkflowResult.errors r = ["Cloudflare Zone: Internal server error"]
    /\ ~ In (manual_action_notice "example-test.com") (WorkflowResult.errors r)
    /\ In (manual_action_warning "example-test.com") (trace s').
Proof.
  eexists _, _. split; [vm_compute; reflexivity|].
  split; [reflexivity|]. split.
  - intros [H|[]]. discriminate H.
  - vm_compute. auto 30.
Qed.

Lemma nameserver_failure_not_retried_witness :
  exists r delta,
    runWorkflow MockSaga.delegation_flaky "example-test.com" 1 true Mock.start
    = (Ret r, mkSys 4%nat (trace Mock.start ++ delta))
    /\ WorkflowResult.success r = false
    /\ WorkflowResult.steps r
       = Steps.mk true true true false false false false
    /\ WorkflowResult.errors r = ["Nameservers: socket hang up"]
    /\ actions delta
       = [Sent (CheckAvailability "example-test.com");
          Sent (PurchaseDomain "example-test.com" 1 true);
          Sent (CreateZone "example-test.com");
          Sent (SetNameservers "example-test" "com" ["ns1.x"; "ns2.x"])].
Proof.
  apply (nameserver_failure_not_retried MockSaga.delegation_flaky
           "example-test.com" 1 true Mock.start
           (Mock.available "example-test.com") 1%nat Mock.purchased 2%nat
           Mock.zone1 3%nat
           (SetNameserversResult.mk false (Some "socket hang up")) 4%nat);
    reflexivity.
Defined.


(** ** Requests to the registrar *)

Section Irreversibility.

Context {W : Type} (env : Env W).

Lemma emits_emit (P : Event -> bool) e :
  P e = true -> emits (trace (W := W)) P (emit e).
Proof. intros HP s. exists [e]. simpl. now rewrite HP. Qed.

Lemma emits_delay (P : Event -> bool) ms :
  P (Delayed ms) = true -> emits trace P (delay env ms).
Proof. intros HP s. exists [Delayed ms]. simpl. now rewrite HP. Qed.

Lemma emits_request (P : Event -> bool) {R} r (answer : W -> R * W) :
  P (Sent r) = true -> emits trace P (request r answer).
Proof.
  intros HP s. rewrite request_returns. exists [Sent r]. simpl. now rewrite HP.
Qed.

Lemma emits_sys (P : Event -> bool) {R} (m : M (Sys W) R) :
  emits trace P m -> emits (fun st : Run => trace (fst st)) P (sys m).
Proof.
  intros Hm [sy fr]. unfold sys. cbn [fst snd]. destruct (Hm sy) as (d & Hd & Pd).
  destruct (m sy) as [o sy']. now exists d.
Qed.

Lemma emits_assign (P : Event -> bool) f :
  emits (fun st : Run (W := W) => trace (fst st)) P (assign f).
Proof. intros [sy fr]. exists []. now rewrite app_nil_r. Qed.

Lemma emits_read (P : Event -> bool) :
  emits (fun st : Run (W := W) => trace (fst st)) P read.
Proof. intros [sy fr]. exists []. now rewrite app_nil_r. Qed.

Lemma emits_validateConfig {St} (tr : St -> list Event) (P : Event -> bool)
    service :
  emits tr P (validateConfig env service).
Proof.
  intros s. exists []. rewrite app_nil_r.
  now destruct (validateConfig_cases env service s) as [->|[m ->]].
Qed.

(** Walks through a computation built from the combinators. *)
Ltac emits_walk :=
  repeat first
    [ assumption
    | apply emits_bind; [|intros ?]
    | apply emits_ret
    | apply emits_throw
    | apply emits_when
    | apply emits_tryCatch; [|intros ?]
    | apply emits_message_of
    | apply emits_splitDomain
    | apply emits_validateConfig
    | apply emits_assign
    | apply emits_read
    | apply emits_emit; reflexivity
    | apply emits_delay; reflexivity
    | apply emits_request; reflexivity
    | apply emits_sys
    | match goal with
      | |- emits _ _ (if ?c then _ else _) => destruct c
      | |- emits _ _ (match ?x with _ => _ end) => destruct x
      | |- emits _ _ (let (_, _) := ?x in _) => destruct x
      end ].

Section OffRegistrar.

(** Events of a kind [P] that admits every log line, every delay and every
    request to the DNS provider and to the hosting platform. *)
Context (P : Event -> bool).
Context (P_logged : forall level message, P (Logged level message) = true).
Context (P_delayed : forall ms, P (Delayed ms) = true).
Context (P_other : forall r, provider r <> Namecheap -> P (Sent r) = true).

Lemma emits_logged level message : emits (trace (W := W)) P (emit (Logged level message)).
Proof. apply emits_emit, P_logged. Qed.

Lemma emits_pause ms : emits trace P (delay env ms).
Proof. apply emits_delay, P_delayed. Qed.

Lemma emits_other {R} r (answer : W -> R * W) :
  provider r <> Namecheap -> emits trace P (request r answer).
Proof. intros Hr. now apply emits_request, P_other. Qed.

Ltac emits_off :=
  repeat first
    [ progress emits_walk
    | apply emits_logged
    | apply emits_pause
    | apply emits_other; discriminate ].

Lemma emits_createZone domain : emits trace P (createZone env domain).
Proof. unfold createZone, fetchExistingZone. emits_off. Qed.

Lemma emits_createDNSRecords_loop zoneId records :
  forall recordIds errors,
    emits trace P (createDNSRecords_loop env zoneId records recordIds errors).
Proof.
  induction records as [|record rest IH]; intros recordIds errors;
    cbn [createDNSRecords_loop]; unfold createDNSRecord; emits_off; apply IH.
Qed.

Lemma emits_createDNSRecords zoneId records :
  emits trace P (createDNSRecords env zoneId records).
Proof.
  unfold createDNSRecords. apply emits_bind;
    [apply emits_createDNSRecords_loop | intros [ids errs]; apply emits_ret].
Qed.

Lemma emits_deleteDNSRecords zoneId recordIds :
  emits trace P (deleteDNSRecords env zoneId recordIds).
Proof.
  induction recordIds as [|id rest IH]; cbn [deleteDNSRecords];
    unfold deleteDNSRecord; emits_off.
Qed.

Lemma emits_waitForDomainVerification domain maxAttempts intervalMs :
  emits trace P (waitForDomainVerification env domain maxAttempts intervalMs).
Proof.
  unfold waitForDomainVerification. apply emits_bind; [apply emits_logged|].
  intros _. generalize 1. induction (Z.to_nat maxAttempts) as [|fuel IH];
    intros attempt; cbn [waitForDomainVerification_loop];
    unfold verifyDomain, logger_error, logger_info; emits_off; apply IH.
Qed.

Lemma emits_rollback state : emits trace P (rollback env state).
Proof.
  unfold rollback, removeDomain, logger_warn, logger_info, logger_error.
  emits_off; apply emits_deleteDNSRecords.
Qed.

Lemma emits_createVerificationRecords zoneId records :
  emits (fun st : Run => trace (fst st)) P
        (createVerificationRecords env zoneId records).
Proof.
  induction records as [|record rest IH]; cbn [createVerificationRecords];
    unfold createDNSRecord; emits_off.
Qed.

(** [retry] adds what the operation and the callback add, warnings and
    delays. *)
Lemma emits_retry {T} (fn : M (Sys W) T) options :
  emits trace P fn ->
  (forall cb, RetryOptions.onRetry options = Some cb ->
              forall k e, emits trace P (cb k e)) ->
  emits trace P (retry env fn options).
Proof.
  intros Hfn Hcb. unfold retry. generalize Undefined, 1.
  induction (Z.to_nat _) as [|fuel IH]; intros last attempt;
    cbn [retry_loop]; [apply emits_throw|].
  destruct (attempt <=? _); [|apply emits_throw].
  apply emits_tryCatch; [exact Hfn|]. intros e.
  destruct (attempt =? _); [apply emits_throw|].
  apply emits_bind.
  { destruct (RetryOptions.onRetry options) as [cb|] eqn:E;
      [now apply Hcb | apply emits_ret]. }
  intros _. unfold logger_warn. emits_off. apply IH.
Qed.

End OffRegistrar.


Lemma off_registrar_logged level message : off_registrar (Logged level message) = true.
Proof. reflexivity. Qed.

Lemma off_registrar_delayed ms : off_registrar (Delayed ms) = true.
Proof. reflexivity. Qed.

Lemma off_registrar_other r : provider r <> Namecheap -> off_registrar (Sent r) = true.
Proof. destruct r; intros H; try reflexivity; now contradiction H. Qed.

Lemma benign_logged level message : benign (Logged level message) = true.
Proof. reflexivity. Qed.

Lemma benign_delayed ms : benign (Delayed ms) = true.
Proof. reflexivity. Qed.

Lemma benign_other r : provider r <> Namecheap -> benign (Sent r) = true.
Proof. destruct r; intros H; try reflexivity; now contradiction H. Qed.

Lemma benign_not_purchase e : benign e = true -> not_purchase e = true.
Proof. destruct e as [[]| | |]; cbv; congruence. Qed.

Lemma purchase_final_free d1 d2 :
  forallb not_purchase d1 = true -> purchase_final (d1 ++ d2) = purchase_final d2.
Proof.
  induction d1 as [|e d1 IH]; simpl; [reflexivity|].
  intros H. apply andb_prop in H as [He H]. unfold not_purchase in He.
  destruct (is_purchase e); [discriminate|]. now apply IH.
Qed.

Lemma purchase_final_benign d : forallb benign d = true -> purchase_final d = true.
Proof.
  intros H. rewrite <- (app_nil_r d), purchase_final_free; [reflexivity|].
  rewrite forallb_forall in *. intros e He. apply benign_not_purchase. auto.
Qed.

Lemma purchase_final_then_benign d1 d2 :
  purchase_final d1 = true -> forallb benign d2 = true ->
  purchase_final (d1 ++ d2) = true.
Proof.
  induction d1 as [|e d1 IH]; simpl; intros H1 H2.
  - now apply purchase_final_benign.
  - destruct (is_purchase e); [|now apply IH].
    now rewrite forallb_app, H1, H2.
Qed.

Section Finality.

Context {St : Type} (tr : St -> list Event).

Lemma keeps_bind {A B} (m : M St A) (k : A -> M St B) :
  emits tr not_purchase m -> (forall a, adds tr keeps_purchase (k a)) ->
  adds tr keeps_purchase (bind m k).
Proof.
  intros Hm Hk s. unfold bind. destruct (Hm s) as (d1 & H1 & P1).
  destruct (m s) as [[a|e] s']; simpl in H1.
  - destruct (Hk a s') as (d2 & H2 & P2). exists (d1 ++ d2).
    rewrite H2, H1, app_assoc. split; [reflexivity|].
    unfold keeps_purchase. now rewrite purchase_final_free.
  - exists d1. split; [exact H1|]. unfold keeps_purchase.
    now rewrite <- (app_nil_r d1), purchase_final_free.
Qed.

Lemma keeps_benign {A} (m : M St A) :
  emits tr benign m -> adds tr keeps_purchase m.
Proof.
  intros Hm s. destruct (Hm s) as (d & Hd & Pd). exists d.
  split; [exact Hd | now apply purchase_final_benign].
Qed.

Lemma keeps_tryCatch {A} (m : M St A) h :
  adds tr keeps_purchase m -> (forall e, emits tr benign (h e)) ->
  adds tr keeps_purchase (tryCatch m h).
Proof.
  intros Hm Hh s. unfold tryCatch. destruct (Hm s) as (d1 & H1 & P1).
  destruct (m s) as [[a|e] s']; simpl in H1.
  - now exists d1.
  - destruct (Hh e s') as (d2 & H2 & P2). exists (d1 ++ d2).
    rewrite H2, H1, app_assoc. split; [reflexivity|].
    now apply purchase_final_then_benign.
Qed.

End Finality.

(** The purchase request is the only event of [purchaseDomain]; what
    follows it has to be benign. *)
Lemma keeps_purchaseDomain {B} domain years enableWhoisGuard
    (k : PurchaseResult.t -> M (Run (W := W)) B) :
  (forall r, emits (fun st : Run => trace (fst st)) benign (k r)) ->
  adds (fun st : Run => trace (fst st)) keeps_purchase
       (bind (sys (purchaseDomain env domain years enableWhoisGuard)) k).
Proof.
  intros Hk [sy fr]. unfold bind at 1, sys, purchaseDomain, bind.
  cbn [fst snd]. rewrite splitDomain_spec.
  destruct (contains "." domain).
  - rewrite request_returns.
    match goal with
    | |- context [k ?r ?st] => destruct (Hk r st) as (d & Hd & Pd)
    end.
    exists (Sent (PurchaseDomain domain years enableWhoisGuard) :: d).
    rewrite Hd. cbn [fst trace]. rewrite <- app_assoc. split; [reflexivity|].
    exact Pd.
  - exists []. now rewrite app_nil_r.
Qed.


Ltac benign_kind :=
  first [ exact benign_logged | exact benign_delayed | exact benign_other
        | exact off_registrar_logged | exact off_registrar_delayed
        | exact off_registrar_other ].

(** The retried delegation of step 4 adds benign events only. *)
Lemma emits_nameserver_retry domain nameservers :
  emits trace benign
        (retry env (setNameservers env domain nameservers)
               nameserver_retry_options).
Proof.
  apply emits_retry; try benign_kind.
  - unfold setNameservers. emits_walk.
  - intros cb Hcb k e. injection Hcb as <-. unfold logger_warn. emits_walk.
Qed.

(** Walks through the steps of the saga that follow the purchase. *)
Ltac emits_benign :=
  repeat first
    [ apply emits_nameserver_retry
    | apply emits_createZone; benign_kind
    | apply emits_createDNSRecords; benign_kind
    | apply emits_deleteDNSRecords; benign_kind
    | apply emits_waitForDomainVerification; benign_kind
    | apply emits_rollback; benign_kind
    | apply emits_createVerificationRecords; benign_kind
    | progress unfold run_rollback, return_result, addDomain,
        logger_info, logger_success, logger_warn, logger_error
    | progress emits_walk ].

Lemma emits_runWorkflow_records domain zone :
  emits (fun st : Run => trace (fst st)) benign
        (runWorkflow_records env domain zone).
Proof. unfold runWorkflow_records. emits_benign. Qed.

Lemma keeps_runWorkflow_try domain years enableWhoisGuard :
  adds (fun st : Run => trace (fst st)) keeps_purchase
       (runWorkflow_try env domain years enableWhoisGuard).
Proof.
  unfold runWorkflow_try, checkAvailability, logger_info.
  do 5 (apply keeps_bind; [solve [emits_walk] | intros ?]).
  match goal with
  | |- context [if negb ?c then _ else _] => destruct c; cbn [negb]
  end.
  2: apply keeps_benign; emits_benign.
  unfold logger_success, logger_warn.
  do 7 (apply keeps_bind; [solve [emits_walk] | intros ?]).
  apply keeps_purchaseDomain. intros purchaseResult.
  emits_benign.
Qed.

(** A step that returns hands its state on to the rest. *)
Lemma run_bind {A B} (m : M (Sys W) A) (k : A -> M (Sys W) B) s :
  yields returns m -> emits trace (fun _ => true) m ->
  exists a s1 d1, trace s1 = trace s ++ d1 /\ bind m k s = k a s1.
Proof.
  intros Hr He. unfold bind. destruct (Hr s) as [a Ha].
  destruct (He s) as (d1 & Hd & _). destruct (m s) as [o s1].
  simpl in *. subst o. now exists a, s1, d1.
Qed.

Lemma rollback_warns state :
  adds trace
       (fun d => forallb off_registrar d = true
                 /\ (WorkflowState.domainPurchased state = true ->
                     In (manual_action_warning (WorkflowState.domain state)) d))
       (rollback env state).
Proof.
  intros s.
  destruct (emits_rollback off_registrar) with (state := state) (s := s)
    as (d & Hd & Pd); try benign_kind.
  exists d. split; [exact Hd|]. split; [exact Pd|]. intros Hp.
  revert Hd. unfold rollback. rewrite Hp. cbn [when].
  do 5 (match goal with
        | |- context [bind ?m ?k ?s0] =>
            let Ht := fresh "Ht" in
            destruct (run_bind m k s0) as (? & ? & ? & Ht & ->);
            [ repeat first
                [ apply yields_emit | apply yields_when | apply yields_tryCatch
                | apply yields_request | apply yields_deleteDNSRecords
                | apply yields_ret | apply yields_bind; [|intros ?]
                | match goal with
                  | |- yields _ (match ?x with _ => _ end) => destruct x
                  end ]
            | unfold removeDomain, logger_warn, logger_info, logger_error;
              repeat first
                [ apply emits_deleteDNSRecords; intros; reflexivity
                | progress emits_walk ]
            | cbv beta ]
        end).
  unfold bind, logger_warn, logger_info, emit. cbn [fst snd trace].
  rewrite Ht3, Ht2, Ht1, Ht0, Ht, <- !app_assoc. intros H.
  apply app_inv_head in H. subst d.
  rewrite !in_app_iff. cbn [In].
  unfold manual_action_warning, manual_action_notice. auto 20.
Qed.

(** C3. [rollback] sends nothing to the registrar, whatever the state, and
    for a purchased domain it writes the manual-action warning to the log;
    in every run of the workflow, once the purchase request is sent, the
    only requests that still go to the registrar are those that delegate
    the nameservers: nothing undoes or refunds the purchase. *)
Theorem purchase_is_never_undone :
  (forall state s,
     exists d,
       trace (snd (rollback env state s)) = trace s ++ d
       /\ forallb off_registrar d = true
       /\ (WorkflowState.domainPurchased state = true ->
           In (manual_action_warning (WorkflowState.domain state)) d))
  /\ (forall domain years enableWhoisGuard s,
        exists d,
          trace (snd (runWorkflow env domain years enableWhoisGuard s))
          = trace s ++ d
          /\ purchase_final d = true).
Proof.
  split.
  - intros state s. destruct (rollback_warns state s) as (d & Hd & Pd & Hw).
    now exists d.
  - intros domain years enableWhoisGuard s. unfold runWorkflow.
    destruct (keeps_tryCatch (fun st : Run => trace (fst st))
                (runWorkflow_try env domain years enableWhoisGuard)
                (runWorkflow_catch env)
                (keeps_runWorkflow_try domain years enableWhoisGuard))
      with (s := (s, initial_frame domain years enableWhoisGuard))
      as (d & Hd & Pd).
    + intros e. unfold runWorkflow_catch. emits_benign.
    + destruct (tryCatch _ _ _) as [o st]. now exists d.
Qed.

End Irreversibility.

Lemma purchase_is_never_undone_witness :
  exists d,
    trace (snd (rollback Mock.happy
                  (WorkflowState.mk "example-test.com" 1 true true
                                    (Some "Z1") ["R4"; "R5"] true)
                  Mock.start)) = trace Mock.start ++ d
    /\ forallb off_registrar d = true
    /\ In (manual_action_warning "example-test.com") d.
Proof.
  destruct (proj1 (purchase_is_never_undone Mock.happy)
              (WorkflowState.mk "example-test.com" 1 true true
                                (Some "Z1") ["R4"; "R5"] true)
              Mock.start) as (d & Hd & Pd & Hw).
  exists d. split; [exact Hd|]. split; [exact Pd|]. apply Hw. reflexivity.
Defined.

(** * Further properties *)

(** ** Cutting a domain and putting it together again *)

Section Domains.

Lemma join_cons (sep p q : string) (ps : list string) :
  join sep (p :: q :: ps) = p +++ sep +++ join sep (q :: ps).
Proof. reflexivity. Qed.

(** Joining the parts of a split with the separator gives the string
    back. *)
Lemma join_split (c : ascii) (s : string) :
  join (String c EmptyString) (split c s) = s.
Proof.
  induction s as [|x rest IH]; [reflexivity|]. cbn [split].
  destruct (Ascii.eqb_spec x c) as [->|Hne].
  - destruct (split_cons c rest) as (p & ps & E). rewrite E in *.
    rewrite join_cons, IH. reflexivity.
  - destruct (split_cons c rest) as (p & ps & E). rewrite E in *.
    destruct ps as [|q ps].
    + cbn in IH |- *. now rewrite IH.
    + cbv iota beta. rewrite join_cons in IH. rewrite join_cons, <- IH.
      reflexivity.
Qed.

(** The first part of a split is free of the separator. *)
Lemma split_hd_free (c : ascii) (s : string) :
  contains c (hd EmptyString (split c s)) = false.
Proof.
  induction s as [|x rest IH]; [reflexivity|]. cbn [split].
  destruct (Ascii.eqb x c) eqn:E; [reflexivity|].
  destruct (split_cons c rest) as (p & ps & Hs). rewrite Hs in *.
  cbn [hd contains] in *. now rewrite E, IH.
Qed.

(** X1. The two parts [splitDomain] returns recompose to the domain: the
    first label, which has no dot, then a dot, then the rest; and
    [splitDomain] leaves the state alone. *)
Theorem splitDomain_recomposes {St} (domain sld tld : string) (s s' : St) :
  splitDomain domain s = (Ret (sld, tld), s') ->
  s' = s /\ sld +++ "." +++ tld = domain /\ contains "." sld = false.
Proof.
  rewrite splitDomain_spec. destruct (contains "." domain) eqn:Hdot;
    [|discriminate].
  intros H. injection H as <- <- <-. split; [reflexivity|].
  split; [|apply split_hd_free].
  pose proof (join_split "." domain) as Hj.
  pose proof (split_length "." domain) as Hl. rewrite Hdot in Hl.
  destruct (split "." domain) as [|p [|q ps]]; try discriminate Hl.
  rewrite join_cons in Hj. exact Hj.
Qed.

End Domains.

Lemma splitDomain_recomposes_witness :
  "shop" +++ "." +++ "example.co.uk" = "shop.example.co.uk"
  /\ contains "." "shop" = false.
Proof.
  apply (splitDomain_recomposes (St := unit) "shop.example.co.uk"
           "shop" "example.co.uk" tt tt).
  reflexivity.
Defined.

(** ** The configuration *)

Section Configuration.

Context {W : Type} (env : Env W).

Lemma validateFields_first_missing {St} service fields (s : St) :
  (forallb (fun field => truthy (config env service field)) fields = true
   /\ validateFields env service fields s = (Ret tt, s))
  \/ (exists pre field post,
        fields = pre ++ field :: post
        /\ forallb (fun field => truthy (config env service field)) pre = true
        /\ truthy (config env service field) = false
        /\ validateFields env service fields s
           = (Throw (Error ("Missing required " +++ service_name service
                            +++ " config: " +++ field)), s)).
Proof.
  induction fields as [|field rest IH]; [now left|]. cbn [validateFields forallb].
  destruct (truthy (config env service field)) eqn:Hf; cbn [negb andb].
  - destruct IH as [[Hall Hrun]|(pre & f & post & -> & Hpre & Hmiss & Hrun)].
    + left. now split.
    + right. exists (field :: pre), f, post. cbn [forallb app].
      rewrite Hf, Hpre. now repeat split.
  - right. exists [], field, rest. now repeat split.
Qed.

(** X2. For a service other than [deploy], [validateConfig] returns, and
    leaves the state alone, exactly when every required field is set;
    otherwise it throws the error that names the first required field,
    in the order of the list, that is not set. *)
Theorem validateConfig_first_missing {St} (service : Service) (s : St) :
  service <> deploy ->
  (configured env service /\ validateConfig env service s = (Ret tt, s))
  \/ (exists pre field post,
        requiredFields service = pre ++ field :: post
        /\ forallb (fun field => truthy (config env service field)) pre = true
        /\ truthy (config env service field) = false
        /\ validateConfig env service s
           = (Throw (Error ("Missing required " +++ service_name service
                            +++ " config: " +++ field)), s)).
Proof.
  intros Hd. unfold configured.
  destruct service; try congruence;
    apply (validateFields_first_missing _ _ s).
Qed.

End Configuration.

Lemma validateConfig_first_missing_witness :
  vercel <> deploy
  /\ ((configured MockPaths.no_hosting_project vercel
       /\ validateConfig MockPaths.no_hosting_project vercel Mock.start = (Ret tt, Mock.start))
      \/ (exists pre field post,
            requiredFields vercel = pre ++ field :: post
            /\ forallb (fun field => truthy (config MockPaths.no_hosting_project vercel field))
                       pre = true
            /\ truthy (config MockPaths.no_hosting_project vercel field) = false
            /\ validateConfig MockPaths.no_hosting_project vercel Mock.start
               = (Throw (Error ("Missing required " +++ service_name vercel
                                +++ " config: " +++ field)), Mock.start))).
Proof.
  split; [discriminate|].
  apply (validateConfig_first_missing MockPaths.no_hosting_project vercel Mock.start).
  discriminate.
Defined.

(** ** The schedule of the retrier *)

Section Schedule.

Context {W : Type} (env : Env W).

Lemma delays_app (t u : list Event) : delays (t ++ u) = delays t ++ delays u.
Proof.
  induction t as [|e t IH]; [reflexivity|].
  destruct e; cbn [app delays]; now rewrite IH.
Qed.

Lemma delays_logged (t : list Event) : forallb is_logged t = true -> delays t = [].
Proof.
  induction t as [|e t IH]; [reflexivity|].
  destruct e; cbn [forallb is_logged andb delays]; auto; discriminate.
Qed.

Lemma schedule_succ (options : RetryOptions.t (Sys W)) (k : nat) :
  schedule options (S k) = schedule options k ++ [backoff options (Z.of_nat (S k))].
Proof. unfold schedule. now rewrite seq_S, map_app. Qed.

(** The attempts that fail before the last one: each is followed by the
    callback, the warning and its backoff delay, and the loop goes on
    with the next attempt. *)
Lemma retry_loop_prefix {T} label (op : W -> Outcome T * W) options s :
  let maxAttempts := default 3 (RetryOptions.maxAttempts options) in
  quiet_options options ->
  forall j,
    Z.of_nat j < maxAttempts ->
    (forall i, (i < j)%nat ->
       exists e, fst (op (world_after env options op i (world s))) = Throw e) ->
    exists delta last,
      retry env (invoke label op) options s
      = retry_loop env (invoke label op) maxAttempts
          (default 1000 (RetryOptions.initialDelayMs options))
          (default 30000 (RetryOptions.maxDelayMs options))
          (RetryOptions.onRetry options)
          (Z.to_nat maxAttempts - j) (1 + Z.of_nat j) last
          (mkSys (world_after env options op j (world s)) (trace s ++ delta))
      /\ calls delta = j
      /\ delays delta = schedule options j.
Proof.
  intros maxAttempts Hq. induction j as [|j IH]; intros Hj Hfail.
  - exists [], Undefined. rewrite app_nil_r, Nat.sub_0_r. cbn [world_after].
    destruct s. now repeat split.
  - destruct IH as (delta & last & Hrun & Hc & Hd); [lia | auto |].
    set (sj := mkSys (world_after env options op j (world s)) (trace s ++ delta))
      in Hrun.
    destruct (Hfail j ltac:(lia)) as [e He].
    assert (Hinv : invoke label op sj
                   = (Throw e, mkSys (snd (op (world sj)))
                                     (trace sj ++ [Called label]))).
    { unfold invoke. subst sj. cbn [world trace].
      destruct (op _) as [o w']. cbn [fst snd] in *. now subst o. }
    replace (Z.to_nat maxAttempts - j)%nat
      with (S (Z.to_nat maxAttempts - S j)) in Hrun by lia.
    destruct (retry_loop_failed env (invoke label op) maxAttempts
                (default 1000 (RetryOptions.initialDelayMs options))
                (default 30000 (RetryOptions.maxDelayMs options))
                (RetryOptions.onRetry options)
                (Z.to_nat maxAttempts - S j) (1 + Z.of_nat j) last e sj _
                ltac:(lia) Hinv Hq) as (evs & Hlog & Hstep).
    rewrite Hstep in Hrun. clear Hstep.
    fold (backoff options (1 + Z.of_nat j)) in Hrun.
    replace (1 + Z.of_nat j) with (Z.of_nat (S j)) in Hrun by lia.
    subst sj. cbn [world trace] in Hrun.
    exists (delta ++ [Called label] ++ evs ++ [Delayed (backoff options (Z.of_nat (S j)))]), e.
    split; [|split].
    + rewrite Hrun. cbn [world_after].
      replace (Z.of_nat (S j) + 1) with (1 + Z.of_nat (S j)) by lia.
      now rewrite <- !app_assoc.
    + rewrite !calls_app, Hc, (calls_logged evs Hlog). cbn. lia.
    + rewrite !delays_app, Hd, (delays_logged evs Hlog), schedule_succ.
      reflexivity.
Qed.

(** X3. An operation that fails [k] times and then returns, with [k] less
    than [maxAttempts]: [retry] returns what attempt [k + 1] returned, the
    operation has been entered [k + 1] times, and the delays made are the
    backoff delays of the attempts 1 to [k], in that order. *)
Theorem retry_returns_after_failures {T} label (op : W -> Outcome T * W)
    options s (k : nat) (a : T) :
  quiet_options options ->
  Z.of_nat k < default 3 (RetryOptions.maxAttempts options) ->
  (forall i, (i < k)%nat ->
     exists e, fst (op (world_after env options op i (world s))) = Throw e) ->
  fst (op (world_after env options op k (world s))) = Ret a ->
  exists delta,
    retry env (invoke label op) options s
    = (Ret a, mkSys (snd (op (world_after env options op k (world s))))
                    (trace s ++ delta))
    /\ calls delta = S k
    /\ delays delta = schedule options k.
Proof.
  intros Hq Hk Hfail Hret.
  destruct (retry_loop_prefix label op options s Hq k Hk Hfail)
    as (delta & last & Hrun & Hc & Hd).
  exists (delta ++ [Called label]). rewrite Hrun.
  set (n := Z.to_nat (default 3 (RetryOptions.maxAttempts options))).
  replace (n - k)%nat with (S (n - S k)) by lia.
  cbn [retry_loop].
  replace (1 + Z.of_nat k <=? _) with true by (symmetry; apply Z.leb_le; lia).
  unfold tryCatch, invoke. cbn [world trace].
  destruct (op _) as [o w']. cbn [fst snd] in *. subst o.
  split; [now rewrite <- app_assoc|].
  rewrite calls_app, delays_app, Hc, Hd, app_nil_r. split; [cbn; lia|reflexivity].
Qed.

(** X4. An operation that fails at each of the [maxAttempts >= 1]
    attempts: [retry] fails with what the last attempt threw, the
    operation has been entered [maxAttempts] times, and the delays made
    are the backoff delays of all attempts but the last; no delay follows
    the last failure. *)
Theorem retry_exhausts_all_attempts {T} label (op : W -> Outcome T * W)
    options s :
  let n := Z.to_nat (default 3 (RetryOptions.maxAttempts options)) in
  quiet_options options ->
  1 <= default 3 (RetryOptions.maxAttempts options) ->
  (forall i, (i < n)%nat ->
     exists e, fst (op (world_after env options op i (world s))) = Throw e) ->
  exists delta e,
    retry env (invoke label op) options s
    = (Throw e, mkSys (snd (op (world_after env options op (n - 1) (world s))))
                      (trace s ++ delta))
    /\ fst (op (world_after env options op (n - 1) (world s))) = Throw e
    /\ calls delta = n
    /\ delays delta = schedule options (n - 1).
Proof.
  intros n Hq Hn Hfail.
  destruct (retry_loop_prefix label op options s Hq (n - 1))
    as (delta & last & Hrun & Hc & Hd); [lia | intros; apply Hfail; lia |].
  destruct (Hfail (n - 1)%nat ltac:(lia)) as [e He].
  exists (delta ++ [Called label]), e. rewrite Hrun. fold n.
  replace (n - (n - 1))%nat with 1%nat by lia. cbn [retry_loop].
  replace (1 + Z.of_nat (n - 1) <=? _) with true
    by (symmetry; apply Z.leb_le; lia).
  replace (1 + Z.of_nat (n - 1) =? _) with true
    by (symmetry; apply Z.eqb_eq; lia).
  unfold tryCatch, invoke, throw. cbn [world trace].
  destruct (op _) as [o w']. cbn [fst snd] in *. subst o.
  split; [now rewrite <- app_assoc|]. split; [reflexivity|].
  rewrite calls_app, delays_app, Hc, Hd, app_nil_r. split; [cbn; lia|reflexivity].
Qed.

Lemma within_logged cap (t : list Event) :
  forallb is_logged t = true -> forallb (within cap) t = true.
Proof.
  induction t as [|e t IH]; [reflexivity|].
  destruct e; cbn [forallb is_logged andb within]; auto; discriminate.
Qed.

(** X5. [retry] never suspends for longer than [maxDelayMs]: if the
    operation makes no longer delay itself and the callback only writes
    to the log, every delay of a run of [retry] is at most [maxDelayMs],
    however the attempts end. *)
Theorem retry_delays_capped {T} (fn : M (Sys W) T) options :
  let cap := default 30000 (RetryOptions.maxDelayMs options) in
  emits trace (within cap) fn ->
  quiet_options options ->
  emits trace (within cap) (retry env fn options).
Proof.
  intros cap Hfn Hq. unfold retry. generalize Undefined, 1.
  induction (Z.to_nat _) as [|fuel IH]; intros last attempt;
    cbn [retry_loop]; [apply emits_throw|].
  destruct (attempt <=? _); [|apply emits_throw].
  apply emits_tryCatch; [exact Hfn|]. intros e.
  destruct (attempt =? _); [apply emits_throw|].
  apply emits_bind.
  { destruct (RetryOptions.onRetry options) as [cb|] eqn:E; [|apply emits_ret].
    intros s0. destruct (Hq cb E attempt e s0) as (evs & -> & Hlog).
    exists evs. cbn [snd trace]. split; [reflexivity|].
    now apply within_logged. }
  intros _. apply emits_bind; [apply emits_emit; reflexivity|].
  intros _. apply emits_bind; [|intros _; apply IH].
  apply emits_delay. cbn [within]. apply Z.leb_le, Z.le_min_r.
Qed.

End Schedule.

Lemma retry_returns_after_failures_witness :
  exists delta,
    retry Mock.happy (invoke "operation" MockBackoff.fails_twice)
          MockBackoff.five_attempts Mock.start
    = (Ret 2%nat, mkSys 3%nat (trace Mock.start ++ delta))
    /\ calls delta = 3%nat
    /\ delays delta = [1000; 2000].
Proof.
  apply (retry_returns_after_failures Mock.happy "operation"
           MockBackoff.fails_twice MockBackoff.five_attempts Mock.start
           2%nat 2%nat).
  - intros cb Hcb. discriminate Hcb.
  - reflexivity.
  - intros [|[|i]] Hi; [eexists; reflexivity | eexists; reflexivity | lia].
  - reflexivity.
Defined.

Lemma retry_exhausts_all_attempts_witness :
  exists delta e,
    retry Mock.happy (invoke "operation" MockRetry.always_fails)
          MockBackoff.five_attempts Mock.start
    = (Throw e, mkSys 5%nat (trace Mock.start ++ delta))
    /\ Throw e = Throw (A := unit) (Error "failure 5")
    /\ calls delta = 5%nat
    /\ delays delta = [1000; 2000; 3000; 3000].
Proof.
  destruct (retry_exhausts_all_attempts Mock.happy "operation"
              MockRetry.always_fails MockBackoff.five_attempts Mock.start)
    as (delta & e & H1 & H2 & H3 & H4).
  - intros cb Hcb. discriminate Hcb.
  - cbn. lia.
  - intros i _. eexists. reflexivity.
  - exists delta, e. split; [exact H1|]. split; [now rewrite <- H2|].
    split; [exact H3 | exact H4].
Defined.

Lemma retry_delays_capped_witness :
  emits trace (within 3000)
        (retry Mock.happy (invoke "operation" MockRetry.always_fails)
               MockBackoff.five_attempts).
Proof.
  apply (retry_delays_capped Mock.happy
           (invoke "operation" MockRetry.always_fails)
           MockBackoff.five_attempts).
  - intros s. exists [Called "operation"]. split; reflexivity.
  - intros cb Hcb. discriminate Hcb.
Defined.

(** ** The zone, the deletions and the rollback *)

Section Compensation.

Context {W : Type} (env : Env W).


Lemma deleteDNSRecords_trace (zoneId : string) (recordIds : list string)
    (s : Sys W) :
  exists s',
    deleteDNSRecords env zoneId recordIds s = (Ret tt, s')
    /\ trace s'
       = trace s ++ map (fun id => Sent (DeleteDNSRecord zoneId id)) recordIds.
Proof.
  revert s. induction recordIds as [|id rest IH]; intros s.
  - exists s. cbn. now rewrite app_nil_r.
  - cbn [deleteDNSRecords]. unfold bind, deleteDNSRecord.
    rewrite request_returns.
    match goal with
    | |- context [deleteDNSRecords _ _ _ ?s1] =>
        destruct (IH s1) as (s' & -> & Ht)
    end.
    exists s'. split; [reflexivity|]. rewrite Ht. cbn [trace map].
    now rewrite <- app_assoc.
Qed.

(** X7. [deleteDNSRecords] asks for the deletion of every id once, in
    list order, and returns: what the provider answers is not looked at,
    so an answer that reports a failure does not stop the deletions that
    follow.  The world it leaves is the one the answers lead to, one
    after the other. *)
Theorem deleteDNSRecords_requests_all (zoneId : string)
    (recordIds : list string) (s : Sys W) :
  deleteDNSRecords env zoneId recordIds s
  = (Ret tt,
     mkSys (fold_left (fun w id => snd (answer_deleteDNSRecord env zoneId id w))
                      recordIds (world s))
           (trace s ++ map (fun id => Sent (DeleteDNSRecord zoneId id))
                           recordIds)).
Proof.
  revert s. induction recordIds as [|id rest IH]; intros s.
  - cbn. rewrite app_nil_r. now destruct s.
  - cbn [deleteDNSRecords fold_left map]. unfold bind, deleteDNSRecord.
    rewrite request_returns, IH. cbn [world trace].
    now rewrite <- app_assoc.
Qed.

Lemma actions_logged (t : list Event) : forallb is_logged t = true -> actions t = [].
Proof.
  unfold actions. induction t as [|e t IH]; [reflexivity|].
  destruct e; cbn; auto; discriminate.
Qed.

Lemma actions_sent {A} (f : A -> Request) (l : list A) :
  actions (map (fun a => Sent (f a)) l) = map (fun a => Sent (f a)) l.
Proof. induction l as [|a l IH]; [reflexivity|]. cbn. now f_equal. Qed.

(** What [rollback] adds to the log: its opening line, the requests that
    the state calls for, and the warning about a purchased domain. *)
Lemma rollback_adds (state : WorkflowState.t) (s : Sys W) :
  exists s' d,
    rollback env state s = (Ret tt, s')
    /\ trace s' = trace s ++ d
    /\ actions d = rollback_requests state
    /\ In rollback_notice d
    /\ (WorkflowState.domainPurchased state = true ->
        In (manual_action_warning (WorkflowState.domain state)) d).
Proof.
  destruct s as [w t]. unfold rollback, rollback_requests.
  unfold bind at 1, logger_warn at 1, emit at 1. cbn [world trace].
  unfold bind at 1, logger_warn at 1, emit at 1. cbn [world trace].
  unfold bind at 1, logger_warn at 1, emit at 1. cbn [world trace].
  unfold bind at 1.
  set (s1 := mkSys w _).
  assert (H1 : exists s2 d2,
             when (WorkflowState.vercelDomainAdded state)
               (tryCatch
                  (_ <- removeDomain env (WorkflowState.domain state) ;;
                   logger_info "Removed domain from Vercel")
                  (fun e => m <- message_of e ;;
                            logger_error ("Failed to remove domain from Vercel: "
                                          +++ m))) s1
             = (Ret tt, s2)
             /\ trace s2 = trace s1 ++ d2
             /\ actions d2
                = (if WorkflowState.vercelDomainAdded state
                   then [Sent (RemoveDomain (WorkflowState.domain state))]
                   else [])).
  { destruct (WorkflowState.vercelDomainAdded state); cbn [when].
    - unfold tryCatch, bind, removeDomain. rewrite request_returns.
      unfold logger_info, emit. cbn [world trace]. eexists _, _.
      split; [reflexivity|]. cbn [trace]. rewrite <- app_assoc.
      split; reflexivity.
    - exists s1, []. rewrite app_nil_r. now repeat split. }
  destruct H1 as (s2 & d2 & -> & Ht2 & Ha2). unfold bind at 1.
  assert (H2 : exists s3 d3,
             match WorkflowState.cloudflareZoneId state with
             | Some zoneId =>
                 when (truthy zoneId
                       && (0 <? Z.of_nat (length
                              (WorkflowState.cloudflareRecordIds state))))
                   (tryCatch
                      (deleteDNSRecords env zoneId
                         (WorkflowState.cloudflareRecordIds state) ;;;
                       logger_info "Deleted DNS records from Cloudflare")
                      (fun e => m <- message_of e ;;
                                logger_error ("Failed to delete DNS records: "
                                              +++ m)))
             | None => ret tt
             end s2 = (Ret tt, s3)
             /\ trace s3 = trace s2 ++ d3
             /\ actions d3
                = match WorkflowState.cloudflareZoneId state with
                  | Some zoneId =>
                      if truthy zoneId
                      then map (fun id => Sent (DeleteDNSRecord zoneId id))
                               (WorkflowState.cloudflareRecordIds state)
                      else []
                  | None => []
                  end).
  { destruct (WorkflowState.cloudflareZoneId state) as [zoneId|];
      [|exists s2, []; rewrite app_nil_r; now repeat split].
    destruct (truthy zoneId); cbn [andb when];
      [|exists s2, []; rewrite app_nil_r; now repeat split].
    destruct (WorkflowState.cloudflareRecordIds state) as [|id ids] eqn:Eids.
    - exists s2, []. rewrite app_nil_r. now repeat split.
    - replace (0 <? Z.of_nat (length (id :: ids))) with true
        by (symmetry; apply Z.ltb_lt; cbn [length]; lia).
      cbn [when]. unfold tryCatch, bind at 1.
      destruct (deleteDNSRecords_trace zoneId (id :: ids) s2)
        as (s3 & -> & Ht).
      unfold logger_info, emit. eexists _, _. split; [reflexivity|].
      cbn [trace]. rewrite Ht, <- app_assoc. split; [reflexivity|].
      rewrite actions_app, actions_sent. cbn. now rewrite app_nil_r. }
  destruct H2 as (s3 & d3 & -> & Ht3 & Ha3). unfold bind at 1.
  assert (H3 : exists s4 d4,
             when (WorkflowState.domainPurchased state)
               (logger_warn ("⚠️  Domain " +++ WorkflowState.domain state
                  +++ " was purchased and CANNOT be automatically refunded. "
                  +++ "Please contact Namecheap support if needed.")) s3
             = (Ret tt, s4)
             /\ trace s4 = trace s3 ++ d4
             /\ actions d4 = []
             /\ (WorkflowState.domainPurchased state = true ->
                 In (manual_action_warning (WorkflowState.domain state)) d4)).
  { destruct (WorkflowState.domainPurchased state); cbn [when].
    - unfold logger_warn, emit. eexists _, _. split; [reflexivity|].
      cbn [trace]. split; [reflexivity|]. split; [reflexivity|].
      intros _. now left.
    - exists s3, []. rewrite app_nil_r. repeat split. discriminate. }
  destruct H3 as (s4 & d4 & -> & Ht4 & Ha4 & Hw).
  unfold logger_info, emit. eexists _, _. split; [reflexivity|].
  cbn [trace]. rewrite Ht4, Ht3, Ht2. subst s1. cbn [trace].
  rewrite <- !app_assoc. split; [reflexivity|].
  rewrite !actions_app, Ha2, Ha3, Ha4. cbn [app].
  split; [cbn; now rewrite !app_nil_r|]. split.
  - unfold rollback_notice. cbn [In]. auto.
  - intros Hp. cbn [In app]. rewrite !in_app_iff. auto 10.
Qed.

(** X8. [rollback] never throws, whatever the providers answer, and what
    it does besides logging is fixed by the state: it asks the hosting
    platform to remove the domain if the domain was added, then asks for
    the deletion of every recorded DNS record, in the order the records
    were created, if the zone is known.  It sends nothing else. *)
Theorem rollback_requests_from_state (state : WorkflowState.t) (s : Sys W) :
  exists s',
    rollback env state s = (Ret tt, s')
    /\ actions (trace s') = actions (trace s) ++ rollback_requests state.
Proof.
  destruct (rollback_adds state s) as (s' & d & Hrun & Ht & Ha & _).
  exists s'. split; [exact Hrun|]. now rewrite Ht, actions_app, Ha.
Qed.

(** X9. With [maxAttempts <= 0] neither waiter checks anything: both
    return false at once, with no request and no delay, after the line
    that announces the wait and the line that reports its failure. *)
Theorem waiters_nonpositive_give_up (domain zoneId : string)
    (maxAttempts intervalMs : Z) (s : Sys W) :
  maxAttempts <= 0 ->
  waitForDomainVerification env domain maxAttempts intervalMs s
  = (Ret false,
     mkSys (world s)
       (trace s
        ++ [Logged LInfo ("Waiting for domain " +++ domain
                          +++ " to be verified on Vercel...");
            Logged LError ("Domain " +++ domain +++ " verification failed after "
                           +++ string_of_Z maxAttempts +++ " attempts")]))
  /\ waitForZoneActivation env zoneId maxAttempts intervalMs s
     = (Ret false,
        mkSys (world s)
          (trace s
           ++ [Logged LInfo ("Waiting for zone " +++ zoneId
                             +++ " to become active...");
               Logged LWarn ("Zone " +++ zoneId
                 +++ " did not become active within the timeout period")])).
Proof.
  intros Hn. unfold waitForDomainVerification, waitForZoneActivation.
  replace (Z.to_nat maxAttempts) with 0%nat by lia.
  unfold bind, logger_info, logger_error, logger_warn, emit, ret.
  cbn [waitForDomainVerification_loop waitForZoneActivation_loop world trace].
  unfold bind, logger_info, logger_error, logger_warn, emit, ret.
  cbn [world trace]. rewrite <- !app_assoc. split; reflexivity.
Qed.

End Compensation.

Lemma waiters_nonpositive_give_up_witness :
  0 <= 0
  /\ fst (waitForDomainVerification Mock.happy "example-test.com" 0 30000
            Mock.start) = Ret false
  /\ fst (waitForZoneActivation Mock.happy "Z1" 0 30000 Mock.start) = Ret false.
Proof.
  split; [lia|].
  destruct (waiters_nonpositive_give_up Mock.happy "example-test.com" "Z1"
              0 30000 Mock.start) as [H1 H2]; [lia|].
  rewrite H1, H2. split; reflexivity.
Defined.

(** ** Runs of the saga that end early *)

(** Reduces the assignments made to the two objects of a run. *)
Ltac frame_simpl :=
  cbn [set_success set_availabilityCheck set_domainPurchase set_cloudflareZone
       set_nameserversSet set_dnsRecords set_vercelDomain set_vercelVerified
       set_details_purchase set_details_zone set_details_dnsRecordIds
       set_domainPurchased set_cloudflareZoneId set_cloudflareRecordIds
       set_vercelDomainAdded set_recordIds push_recordId push_errors
       with_state with_result with_steps with_details state result
       WorkflowResult.success WorkflowResult.steps WorkflowResult.details
       WorkflowResult.errors Steps.availabilityCheck Steps.domainPurchase
       Steps.cloudflareZone Steps.nameserversSet Steps.dnsRecords
       Steps.vercelDomain Steps.vercelVerified Steps.values initial_frame
       WorkflowState.domain WorkflowState.years WorkflowState.enableWhoisGuard
       WorkflowState.domainPurchased WorkflowState.cloudflareZoneId
       WorkflowState.cloudflareRecordIds WorkflowState.vercelDomainAdded
       Details.domainId Details.transactionId Details.cloudflareZoneId
       Details.cloudflareNameservers Details.dnsRecordIds
       forallb Bool.eqb andb fst snd app].

Section Paths.

Context {W : Type} (env : Env W).

Lemma wp_validateConfig_missing {St} service pre field post
    (Q : Outcome unit -> St -> Prop) s :
  requiredFields service = pre ++ field :: post ->
  forallb (fun field => truthy (config env service field)) pre = true ->
  truthy (config env service field) = false ->
  Q (Throw (Error ("Missing required " +++ service_name service
                   +++ " config: " +++ field))) s ->
  wp (validateConfig env service) Q s.
Proof.
  intros Hreq Hpre Hmiss HQ. unfold wp.
  assert (H : validateFields env service (pre ++ field :: post) s
              = (Throw (Error ("Missing required " +++ service_name service
                               +++ " config: " +++ field)), s)).
  { clear Hreq. induction pre as [|f pre IH]; cbn [app validateFields].
    - now rewrite Hmiss.
    - cbn [forallb] in Hpre. apply andb_prop in Hpre as [-> Hpre].
      cbn [negb]. now apply IH. }
  rewrite <- Hreq in H.
  destruct service; cbn [validateConfig]; try (rewrite H; exact HQ).
  discriminate Hreq || (destruct pre; discriminate Hreq).
Qed.

Lemma wp_splitDomain_invalid {St} domain
    (Q : Outcome (string * string) -> St -> Prop) s :
  contains "." domain = false ->
  Q (Throw (Error ("Invalid domain format: " +++ domain))) s ->
  wp (splitDomain domain) Q s.
Proof. intros Hc HQ. unfold wp. now rewrite splitDomain_spec, Hc. Qed.

Lemma wp_rollback_adds state (Q : Outcome unit -> Sys W -> Prop) w t :
  (forall w' d,
     actions d = rollback_requests state ->
     In rollback_notice d ->
     (WorkflowState.domainPurchased state = true ->
      In (manual_action_warning (WorkflowState.domain state)) d) ->
     Q (Ret tt) (mkSys w' (t ++ d))) ->
  wp (rollback env state) Q (mkSys w t).
Proof.
  intros HQ. unfold wp.
  destruct (rollback_adds env state (mkSys w t)) as (s' & d & -> & Ht & Ha & Hn & Hw).
  destruct s' as [w' t']. cbn [fst snd trace] in *. subst t'. now apply HQ.
Qed.

End Paths.

(** One step of a run whose provider answers are known: the world and the
    log are tracked exactly.  The steps a proof has to choose a rule for
    ([validateConfig] and [splitDomain] when they throw, [retry],
    [rollback], the batch of DNS records) are left to it. *)
Ltac path_step :=
  lazymatch goal with
  | |- wp (bind _ _) _ _ => apply wp_bind
  | |- wp (tryCatch _ _) _ _ => apply wp_tryCatch
  | |- wp (assign _) _ _ => apply wp_assign; frame_simpl
  | |- wp read _ _ => apply wp_read
  | |- wp return_result _ _ => apply wp_return_result
  | |- wp (ret _) _ _ => apply wp_ret
  | |- wp (throw _) _ _ => apply wp_throw
  | |- wp (sys _) _ _ => apply wp_sys_exact
  | |- wp (emit _) _ _ => apply wp_emit
  | |- wp (logger_info _) _ _ => apply wp_emit
  | |- wp (logger_success _) _ _ => apply wp_emit
  | |- wp (logger_warn _) _ _ => apply wp_emit
  | |- wp (logger_error _) _ _ => apply wp_emit
  | |- wp (message_of (Error _)) _ _ => apply wp_ret
  | |- wp (validateConfig _ _) _ _ =>
      apply wp_validateConfig_configured; [discriminate | assumption |]
  | |- wp (splitDomain _) _ _ => apply wp_splitDomain; [assumption|]
  | |- wp (request _ _) _ _ => eapply wp_request; [eassumption|]
  | |- wp (when true _) _ _ => cbn [when]
  | |- wp (when false _) _ _ => cbn [when]
  | |- wp (runWorkflow_catch _ _) _ _ => unfold runWorkflow_catch
  | |- wp (run_rollback _) _ _ => unfold run_rollback
  | |- wp _ _ _ => fail
  | |- _ => progress cbv beta iota
  end.

Ltac path_go := repeat path_step.

(** A rollback that has nothing to undo. *)
Ltac rollback_idle :=
  unfold rollback; frame_simpl; cbn [when]; path_go.

(** From the run of the try and the catch block to the run of
    [runWorkflow]. *)
Ltac path_done H :=
  unfold wp in H; unfold runWorkflow;
  match type of H with
  | context [tryCatch ?m ?h ?s] => destruct (tryCatch m h s) as [? [? ?]]
  end;
  cbn [fst snd] in H.

Section EarlyExits.

Context {W : Type} (env : Env W).

(** X10. When a field that the registrar needs is not configured, the run
    sends no request at all: it records the error that names the first
    missing field, runs a rollback that has nothing to undo, and returns
    a result with no step done.  The world is as it was. *)
Theorem unconfigured_run_sends_nothing domain years enableWhoisGuard
    (s : Sys W) pre field post :
  requiredFields namecheap = pre ++ field :: post ->
  forallb (fun field => truthy (config env namecheap field)) pre = true ->
  truthy (config env namecheap field) = false ->
  exists r delta,
    runWorkflow env domain years enableWhoisGuard s
    = (Ret r, mkSys (world s) (trace s ++ delta))
    /\ WorkflowResult.success r = false
    /\ WorkflowResult.steps r
       = Steps.mk false false false false false false false
    /\ WorkflowResult.errors r
       = ["Unexpected: Missing required namecheap config: " +++ field]
    /\ actions delta = []
    /\ In rollback_notice delta.
Proof.
  intros Hreq Hpre Hmiss. destruct s as [w0 t0]. cbn [world trace].
  assert (H : wp (tryCatch (runWorkflow_try env domain years enableWhoisGuard)
                           (runWorkflow_catch env))
     (fun o st => exists r delta,
        o = Ret r /\ fst st = mkSys w0 (t0 ++ delta)
        /\ WorkflowResult.success r = false
        /\ WorkflowResult.steps r
           = Steps.mk false false false false false false false
        /\ WorkflowResult.errors r
           = ["Unexpected: Missing required namecheap config: " +++ field]
        /\ actions delta = []
        /\ In rollback_notice delta)
     (mkSys w0 t0, initial_frame domain years enableWhoisGuard)).
  { unfold runWorkflow_try, initial_frame. path_go.
    eapply wp_validateConfig_missing; [exact Hreq | exact Hpre | exact Hmiss |].
    path_go. rollback_idle.
    cbn [fst]. rewrite <- !app_assoc. cbn [app].
    eexists _, _. split; [reflexivity|]. split; [reflexivity|].
    repeat (split; [reflexivity|]).
    unfold rollback_notice. cbn [In]. auto 20. }
  path_done H. destruct H as (r & delta & -> & -> & H). now exists r, delta.
Qed.

(** X11. A domain that is not available ends the run after the one
    request of the availability check: nothing is purchased, no rollback
    is started, and the one error of the result carries the registrar's
    message, or "Domain is not available" when it gave none. *)
Theorem unavailable_domain_ends_run domain years enableWhoisGuard
    (s : Sys W) r1 w1 :
  configured env namecheap ->
  answer_checkAvailability env domain (world s) = (r1, w1) ->
  AvailabilityResult.available r1 = false ->
  exists r delta,
    runWorkflow env domain years enableWhoisGuard s
    = (Ret r, mkSys w1 (trace s ++ delta))
    /\ WorkflowResult.success r = false
    /\ WorkflowResult.steps r
       = Steps.mk false false false false false false false
    /\ WorkflowResult.errors r
       = ["Availability: "
          +++ or_else (AvailabilityResult.errorMessage r1)
                      "Domain is not available"]
    /\ actions delta = [Sent (CheckAvailability domain)]
    /\ ~ In rollback_notice delta.
Proof.
  intros Cn H1 A1. destruct s as [w0 t0]. cbn [world trace] in *.
  assert (H : wp (tryCatch (runWorkflow_try env domain years enableWhoisGuard)
                           (runWorkflow_catch env))
     (fun o st => exists r delta,
        o = Ret r /\ fst st = mkSys w1 (t0 ++ delta)
        /\ WorkflowResult.success r = false
        /\ WorkflowResult.steps r
           = Steps.mk false false false false false false false
        /\ WorkflowResult.errors r
           = ["Availability: "
              +++ or_else (AvailabilityResult.errorMessage r1)
                          "Domain is not available"]
        /\ actions delta = [Sent (CheckAvailability domain)]
        /\ ~ In rollback_notice delta)
     (mkSys w0 t0, initial_frame domain years enableWhoisGuard)).
  { unfold runWorkflow_try, initial_frame, checkAvailability. path_go.
    rewrite A1. cbn [negb]. path_go.
    cbn [fst]. rewrite <- !app_assoc. cbn [app].
    eexists _, _. split; [reflexivity|]. split; [reflexivity|].
    repeat (split; [reflexivity|]).
    unfold rollback_notice. cbn [In].
    intros H; repeat (destruct H as [H|H]; [discriminate H|]); exact H. }
  path_done H. destruct H as (r & delta & -> & -> & H). now exists r, delta.
Qed.

(** X12. The format of the domain is only looked at by the purchase: a
    domain without a dot is first sent to the availability check, and
    when the registrar calls it available, the purchase throws before
    its request.  The run records "Unexpected: Invalid domain format",
    runs a rollback that has nothing to undo, and returns with the
    availability flag as its only flag. *)
Theorem invalid_domain_found_after_check domain years enableWhoisGuard
    (s : Sys W) r1 w1 :
  configured env namecheap ->
  configured env registrant ->
  contains "." domain = false ->
  answer_checkAvailability env domain (world s) = (r1, w1) ->
  AvailabilityResult.available r1 = true ->
  exists r delta,
    runWorkflow env domain years enableWhoisGuard s
    = (Ret r, mkSys w1 (trace s ++ delta))
    /\ WorkflowResult.success r = false
    /\ WorkflowResult.steps r
       = Steps.mk true false false false false false false
    /\ WorkflowResult.errors r
       = ["Unexpected: Invalid domain format: " +++ domain]
    /\ actions delta = [Sent (CheckAvailability domain)]
    /\ In rollback_notice delta.
Proof.
  intros Cn Cr Hdot H1 A1. destruct s as [w0 t0]. cbn [world trace] in *.
  assert (H : wp (tryCatch (runWorkflow_try env domain years enableWhoisGuard)
                           (runWorkflow_catch env))
     (fun o st => exists r delta,
        o = Ret r /\ fst st = mkSys w1 (t0 ++ delta)
        /\ WorkflowResult.success r = false
        /\ WorkflowResult.steps r
           = Steps.mk true false false false false false false
        /\ WorkflowResult.errors r
           = ["Unexpected: Invalid domain format: " +++ domain]
        /\ actions delta = [Sent (CheckAvailability domain)]
        /\ In rollback_notice delta)
     (mkSys w0 t0, initial_frame domain years enableWhoisGuard)).
  { unfold runWorkflow_try, initial_frame, checkAvailability, purchaseDomain.
    path_go. rewrite A1. cbn [negb]. path_go.
    all: destruct (default false (AvailabilityResult.isPremium r1));
      cbn [when]; path_go.
    all: apply wp_splitDomain_invalid; [exact Hdot|]; path_go; rollback_idle.
    all: cbn [fst]; rewrite <- !app_assoc; cbn [app].
    all: eexists _, _; split; [reflexivity|]; split; [reflexivity|].
    all: repeat (split; [reflexivity|]).
    all: unfold rollback_notice; cbn [In]; auto 30. }
  path_done H. destruct H as (r & delta & -> & -> & H). now exists r, delta.
Qed.

(** X13. The configuration of the DNS provider is only checked in step 3:
    when it lacks a field, the run has by then purchased the domain.  It
    records the error that names the first missing field and rolls back,
    which sends nothing and leaves the warning that the purchase cannot
    be refunded; the requests of the run are the availability check and
    the purchase. *)
Theorem dns_configuration_checked_after_purchase domain years enableWhoisGuard
    (s : Sys W) r1 w1 r2 w2 pre field post :
  configured env namecheap ->
  configured env registrant ->
  requiredFields cloudflare = pre ++ field :: post ->
  forallb (fun field => truthy (config env cloudflare field)) pre = true ->
  truthy (config env cloudflare field) = false ->
  contains "." domain = true ->
  answer_checkAvailability env domain (world s) = (r1, w1) ->
  AvailabilityResult.available r1 = true ->
  answer_purchaseDomain env domain years enableWhoisGuard w1 = (r2, w2) ->
  PurchaseResult.success r2 = true ->
  exists r delta,
    runWorkflow env domain years enableWhoisGuard s
    = (Ret r, mkSys w2 (trace s ++ delta))
    /\ WorkflowResult.success r = false
    /\ WorkflowResult.steps r
       = Steps.mk true true false false false false false
    /\ WorkflowResult.errors r
       = ["Unexpected: Missing required cloudflare config: " +++ field]
    /\ actions delta
       = [Sent (CheckAvailability domain);
          Sent (PurchaseDomain domain years enableWhoisGuard)]
    /\ In (manual_action_warning domain) delta.
Proof.
  intros Cn Cr Hreq Hpre Hmiss Hdot H1 A1 H2 A2.
  destruct s as [w0 t0]. cbn [world trace] in *.
  assert (H : wp (tryCatch (runWorkflow_try env domain years enableWhoisGuard)
                           (runWorkflow_catch env))
     (fun o st => exists r delta,
        o = Ret r /\ fst st = mkSys w2 (t0 ++ delta)
        /\ WorkflowResult.success r = false
        /\ WorkflowResult.steps r
           = Steps.mk true true false false false false false
        /\ WorkflowResult.errors r
           = ["Unexpected: Missing required cloudflare config: " +++ field]
        /\ actions delta
           = [Sent (CheckAvailability domain);
              Sent (PurchaseDomain domain years enableWhoisGuard)]
        /\ In (manual_action_warning domain) delta)
     (mkSys w0 t0, initial_frame domain years enableWhoisGuard)).
  { unfold runWorkflow_try, initial_frame, checkAvailability, purchaseDomain.
    path_go. rewrite A1. cbn [negb]. path_go.
    all: destruct (default false (AvailabilityResult.isPremium r1));
      cbn [when]; path_go.
    all: rewrite A2; cbn [negb]; path_go.
    all: eapply wp_validateConfig_missing;
      [exact Hreq | exact Hpre | exact Hmiss |].
    all: path_go; rollback_idle.
    all: cbn [fst]; rewrite <- !app_assoc; cbn [app].
    all: eexists _, _; split; [reflexivity|]; split; [reflexivity|].
    all: repeat (split; [reflexivity|]).
    all: unfold manual_action_warning, manual_action_notice; cbn [In]; auto 40. }
  path_done H. destruct H as (r & delta & -> & -> & H). now exists r, delta.
Qed.

End EarlyExits.

Lemma unconfigured_run_sends_nothing_witness :
  exists r delta,
    runWorkflow MockPaths.no_registrar_key "example-test.com" 1 true Mock.start
    = (Ret r, mkSys (world Mock.start) (trace Mock.start ++ delta))
    /\ WorkflowResult.success r = false
    /\ WorkflowResult.steps r
       = Steps.mk false false false false false false false
    /\ WorkflowResult.errors r
       = ["Unexpected: Missing required namecheap config: " +++ "apiKey"]
    /\ actions delta = []
    /\ In rollback_notice delta.
Proof.
  apply (unconfigured_run_sends_nothing MockPaths.no_registrar_key
           "example-test.com" 1 true Mock.start
           ["apiUser"] "apiKey" ["username"; "clientIp"]);
    reflexivity.
Defined.

Lemma unavailable_domain_ends_run_witness :
  exists r delta,
    runWorkflow MockPaths.domain_taken "example-test.com" 1 true Mock.start
    = (Ret r, mkSys 1%nat (trace Mock.start ++ delta))
    /\ WorkflowResult.success r = false
    /\ WorkflowResult.steps r
       = Steps.mk false false false false false false false
    /\ WorkflowResult.errors r = ["Availability: " +++ "Domain is not available"]
    /\ actions delta = [Sent (CheckAvailability "example-test.com")]
    /\ ~ In rollback_notice delta.
Proof.
  apply (unavailable_domain_ends_run MockPaths.domain_taken
           "example-test.com" 1 true Mock.start
           (MockPaths.taken "example-test.com") 1%nat);
    reflexivity.
Defined.

Lemma invalid_domain_found_after_check_witness :
  exists r delta,
    runWorkflow Mock.happy "localhost" 1 true Mock.start
    = (Ret r, mkSys 1%nat (trace Mock.start ++ delta))
    /\ WorkflowResult.success r = false
    /\ WorkflowResult.steps r
       = Steps.mk true false false false false false false
    /\ WorkflowResult.errors r
       = ["Unexpected: Invalid domain format: " +++ "localhost"]
    /\ actions delta = [Sent (CheckAvailability "localhost")]
    /\ In rollback_notice delta.
Proof.
  apply (invalid_domain_found_after_check Mock.happy "localhost" 1 true
           Mock.start (Mock.available "localhost") 1%nat);
    reflexivity.
Defined.

Lemma dns_configuration_checked_after_purchase_witness :
  exists r delta,
    runWorkflow MockPaths.no_dns_account "example-test.com" 1 true Mock.start
    = (Ret r, mkSys 2%nat (trace Mock.start ++ delta))
    /\ WorkflowResult.success r = false
    /\ WorkflowResult.steps r
       = Steps.mk true true false false false false false
    /\ WorkflowResult.errors r
       = ["Unexpected: Missing required cloudflare config: " +++ "accountId"]
    /\ actions delta
       = [Sent (CheckAvailability "example-test.com");
          Sent (PurchaseDomain "example-test.com" 1 true)]
    /\ In (manual_action_warning "example-test.com") delta.
Proof.
  apply (dns_configuration_checked_after_purchase MockPaths.no_dns_account
           "example-test.com" 1 true Mock.start
           (Mock.available "example-test.com") 1%nat Mock.purchased 2%nat
           ["apiToken"] "accountId" []);
    reflexivity.
Defined.

(** ** Runs of the saga through the hosting step *)

Section LaterSteps.

Context {W : Type} (env : Env W).

Lemma hostingRecords_two domain :
  hostingRecords domain = [apex_record domain; www_record].
Proof. reflexivity. Qed.

(** A batch of two records that are both created. *)
Lemma createDNSRecords_both zoneId r1 r2 w t res1 w1 res2 w2 id1 id2 :
  answer_createDNSRecord env zoneId r1 w = (res1, w1) ->
  answer_createDNSRecord env zoneId r2 w1 = (res2, w2) ->
  created_with id1 res1 ->
  created_with id2 res2 ->
  createDNSRecords env zoneId [r1; r2] (mkSys w t)
  = (Ret (DNSBatchResult.mk true [id1; id2] []),
     mkSys w2 (t ++ [Sent (CreateDNSRecord zoneId r1);
                     Sent (CreateDNSRecord zoneId r2)])).
Proof.
  intros H1 H2 (S1 & I1 & T1) (S2 & I2 & T2).
  unfold createDNSRecords, createDNSRecords_loop, bind, createDNSRecord.
  rewrite request_returns. cbn [fst snd world trace]. rewrite H1.
  cbn [fst snd]. rewrite S1, I1. cbn [truthy_opt andb default]. rewrite T1.
  rewrite request_returns. cbn [fst snd world trace]. rewrite H2.
  cbn [fst snd]. rewrite S2, I2. cbn [truthy_opt andb default]. rewrite T2.
  unfold ret. cbn [app length Nat.eqb]. now rewrite <- !app_assoc.
Qed.

(** A verification that succeeds at the first check. *)
Lemma waitForDomainVerification_first domain maxAttempts intervalMs w t v w' :
  1 <= maxAttempts ->
  answer_verifyDomain env domain w = (v, w') ->
  VerifyDomainResult.verified v = true ->
  waitForDomainVerification env domain maxAttempts intervalMs (mkSys w t)
  = (Ret true,
     mkSys w' (t ++ [Logged LInfo ("Waiting for domain " +++ domain
                                   +++ " to be verified on Vercel...");
                     Sent (VerifyDomain domain)])).
Proof.
  intros Hmax Hv Hok. unfold waitForDomainVerification.
  destruct (Z.to_nat maxAttempts) as [|fuel] eqn:E; [lia|].
  cbn [waitForDomainVerification_loop].
  replace (1 <=? maxAttempts) with true by (symmetry; apply Z.leb_le; lia).
  unfold bind, logger_info, emit, verifyDomain. rewrite request_returns.
  cbn [world trace]. rewrite Hv. cbn [fst snd]. rewrite Hok.
  unfold ret. now rewrite <- app_assoc.
Qed.

(** X14. When every step up to the DNS records succeeds and the hosting
    platform then refuses the domain, the run records the one error of
    the hosting step and rolls back: it asks for the deletion of the two
    records it created, in the order of their creation, does not ask the
    hosting platform to remove a domain that was never added, and sends
    nothing to the registrar. *)
Theorem hosting_failure_deletes_created_records domain years enableWhoisGuard
    (s : Sys W) r1 w1 r2 w2 zone w3 r4 w4 resA w5 idA resB w6 idB add w7 :
  configured env namecheap ->
  configured env registrant ->
  configured env cloudflare ->
  configured env vercel ->
  contains "." domain = true ->
  answer_checkAvailability env domain (world s) = (r1, w1) ->
  AvailabilityResult.available r1 = true ->
  answer_purchaseDomain env domain years enableWhoisGuard w1 = (r2, w2) ->
  PurchaseResult.success r2 = true ->
  answer_postZone env domain w2 = (PostCreated zone, w3) ->
  truthy (CloudflareZone.id zone) = true ->
  answer_setNameservers env (sld_of domain) (tld_of domain)
                        (CloudflareZone.nameServers zone) w3 = (r4, w4) ->
  SetNameserversResult.success r4 = true ->
  answer_createDNSRecord env (CloudflareZone.id zone) (apex_record domain) w4
  = (resA, w5) ->
  created_with idA resA ->
  answer_createDNSRecord env (CloudflareZone.id zone) www_record w5
  = (resB, w6) ->
  created_with idB resB ->
  answer_addDomain env domain w6 = (add, w7) ->
  AddDomainResult.success add = false ->
  exists r w' delta,
    runWorkflow env domain years enableWhoisGuard s
    = (Ret r, mkSys w' (trace s ++ delta))
    /\ WorkflowResult.success r = false
    /\ WorkflowResult.steps r
       = Steps.mk true true true true true false false
    /\ WorkflowResult.errors r
       = ["Vercel Add: " +++ tmpl (AddDomainResult.errorMessage add)]
    /\ actions delta
       = [Sent (CheckAvailability domain);
          Sent (PurchaseDomain domain years enableWhoisGuard);
          Sent (CreateZone domain);
          Sent (SetNameservers (sld_of domain) (tld_of domain)
                               (CloudflareZone.nameServers zone));
          Sent (CreateDNSRecord (CloudflareZone.id zone) (apex_record domain));
          Sent (CreateDNSRecord (CloudflareZone.id zone) www_record);
          Sent (AddDomain domain);
          Sent (DeleteDNSRecord (CloudflareZone.id zone) idA);
          Sent (DeleteDNSRecord (CloudflareZone.id zone) idB)].
Proof.
  intros Cn Cr Cc Cv Hdot H1 A1 H2 A2 H3 Hz H4 A4 HA CA HB CB H7 A7.
  destruct s as [w0 t0]. cbn [world trace] in *.
  assert (H : wp (tryCatch (runWorkflow_try env domain years enableWhoisGuard)
                           (runWorkflow_catch env))
     (fun o st => exists r w' delta,
        o = Ret r /\ fst st = mkSys w' (t0 ++ delta)
        /\ WorkflowResult.success r = false
        /\ WorkflowResult.steps r
           = Steps.mk true true true true true false false
        /\ WorkflowResult.errors r
           = ["Vercel Add: " +++ tmpl (AddDomainResult.errorMessage add)]
        /\ actions delta
           = [Sent (CheckAvailability domain);
              Sent (PurchaseDomain domain years enableWhoisGuard);
              Sent (CreateZone domain);
              Sent (SetNameservers (sld_of domain) (tld_of domain)
                                   (CloudflareZone.nameServers zone));
              Sent (CreateDNSRecord (CloudflareZone.id zone)
                                    (apex_record domain));
              Sent (CreateDNSRecord (CloudflareZone.id zone) www_record);
              Sent (AddDomain domain);
              Sent (DeleteDNSRecord (CloudflareZone.id zone) idA);
              Sent (DeleteDNSRecord (CloudflareZone.id zone) idB)])
     (mkSys w0 t0, initial_frame domain years enableWhoisGuard)).
  { unfold runWorkflow_try, initial_frame.
    unfold checkAvailability, purchaseDomain, createZone.
    path_go. rewrite A1. cbn [negb]. path_go.
    all: destruct (default false (AvailabilityResult.isPremium r1));
      cbn [when]; path_go.
    all: rewrite A2; cbn [negb]; path_go.
    all: repeat (progress cbn [CreateZoneResult.success CreateZoneResult.zone];
                 path_go).
    all: eapply wp_retry_returns;
      [cbn; lia | apply (setNameservers_returns _ _ _ _ _ _ _ Hdot H4) |].
    all: rewrite A4; cbn [negb]; path_go.
    all: unfold runWorkflow_records; rewrite hostingRecords_two; path_go.
    all: eapply wp_run;
      [apply (createDNSRecords_both _ _ _ _ _ _ _ _ _ _ _ HA HB CA CB)|].
    all: path_go; cbn [DNSBatchResult.success DNSBatchResult.recordIds negb].
    all: path_go; unfold addDomain; path_go.
    all: rewrite A7; cbn [negb]; path_go.
    all: frame_simpl; apply wp_rollback_adds; intros w' d Ha _ _; path_go.
    all: unfold rollback_requests in Ha;
      cbn [state WorkflowState.vercelDomainAdded WorkflowState.cloudflareZoneId
           WorkflowState.cloudflareRecordIds WorkflowState.domain] in Ha.
    all: rewrite Hz in Ha; cbn [map app] in Ha.
    all: cbn [fst]; rewrite <- !app_assoc; cbn [app].
    all: eexists _, w', _; split; [reflexivity|]; split; [reflexivity|].
    all: cbn [WorkflowResult.success WorkflowResult.steps WorkflowResult.errors].
    all: repeat (split; [reflexivity|]).
    all: unfold actions in *; cbn [filter negb is_logged]; rewrite Ha.
    all: reflexivity. }
  path_done H. destruct H as (r & w' & delta & -> & -> & H).
  now exists r, w', delta.
Qed.

(** X15. When every provider succeeds, the hosting platform asks for no
    verification and the first verification check succeeds, the run
    returns success with all seven flags and no error.  It has sent
    eight requests, in the order of the steps, and has made no delay;
    the details carry the ids of the purchase, the zone with its
    nameservers, and the ids of the two DNS records. *)
Theorem all_steps_succeed domain years enableWhoisGuard
    (s : Sys W) r1 w1 r2 w2 zone w3 r4 w4 resA w5 idA resB w6 idB add w7
    v w8 :
  configured env namecheap ->
  configured env registrant ->
  configured env cloudflare ->
  configured env vercel ->
  contains "." domain = true ->
  answer_checkAvailability env domain (world s) = (r1, w1) ->
  AvailabilityResult.available r1 = true ->
  answer_purchaseDomain env domain years enableWhoisGuard w1 = (r2, w2) ->
  PurchaseResult.success r2 = true ->
  answer_postZone env domain w2 = (PostCreated zone, w3) ->
  answer_setNameservers env (sld_of domain) (tld_of domain)
                        (CloudflareZone.nameServers zone) w3 = (r4, w4) ->
  SetNameserversResult.success r4 = true ->
  answer_createDNSRecord env (CloudflareZone.id zone) (apex_record domain) w4
  = (resA, w5) ->
  created_with idA resA ->
  answer_createDNSRecord env (CloudflareZone.id zone) www_record w5
  = (resB, w6) ->
  created_with idB resB ->
  answer_addDomain env domain w6 = (add, w7) ->
  AddDomainResult.success add = true ->
  AddDomainResult.verificationRequired add = None ->
  answer_verifyDomain env domain w7 = (v, w8) ->
  VerifyDomainResult.verified v = true ->
  exists delta,
    runWorkflow env domain years enableWhoisGuard s
    = (Ret (WorkflowResult.mk true
              (Steps.mk true true true true true true true)
              (Details.mk (PurchaseResult.domainId r2)
                          (PurchaseResult.transactionId r2)
                          (Some (CloudflareZone.id zone))
                          (Some (CloudflareZone.nameServers zone))
                          (Some [idA; idB]))
              []),
       mkSys w8 (trace s ++ delta))
    /\ actions delta
       = [Sent (CheckAvailability domain);
          Sent (PurchaseDomain domain years enableWhoisGuard);
          Sent (CreateZone domain);
          Sent (SetNameservers (sld_of domain) (tld_of domain)
                               (CloudflareZone.nameServers zone));
          Sent (CreateDNSRecord (CloudflareZone.id zone) (apex_record domain));
          Sent (CreateDNSRecord (CloudflareZone.id zone) www_record);
          Sent (AddDomain domain);
          Sent (VerifyDomain domain)].
Proof.
  intros Cn Cr Cc Cv Hdot H1 A1 H2 A2 H3 H4 A4 HA CA HB CB H7 A7 V7 H8 A8.
  destruct s as [w0 t0]. cbn [world trace] in *.
  assert (H : wp (tryCatch (runWorkflow_try env domain years enableWhoisGuard)
                           (runWorkflow_catch env))
     (fun o st => exists delta,
        o = Ret (WorkflowResult.mk true
                   (Steps.mk true true true true true true true)
                   (Details.mk (PurchaseResult.domainId r2)
                               (PurchaseResult.transactionId r2)
                               (Some (CloudflareZone.id zone))
                               (Some (CloudflareZone.nameServers zone))
                               (Some [idA; idB]))
                   [])
        /\ fst st = mkSys w8 (t0 ++ delta)
        /\ actions delta
           = [Sent (CheckAvailability domain);
              Sent (PurchaseDomain domain years enableWhoisGuard);
              Sent (CreateZone domain);
              Sent (SetNameservers (sld_of domain) (tld_of domain)
                                   (CloudflareZone.nameServers zone));
              Sent (CreateDNSRecord (CloudflareZone.id zone)
                                    (apex_record domain));
              Sent (CreateDNSRecord (CloudflareZone.id zone) www_record);
              Sent (AddDomain domain);
              Sent (VerifyDomain domain)])
     (mkSys w0 t0, initial_frame domain years enableWhoisGuard)).
  { unfold runWorkflow_try, initial_frame.
    unfold checkAvailability, purchaseDomain, createZone.
    path_go. rewrite A1. cbn [negb]. path_go.
    all: destruct (default false (AvailabilityResult.isPremium r1));
      cbn [when]; path_go.
    all: rewrite A2; cbn [negb]; path_go.
    all: repeat (progress cbn [CreateZoneResult.success CreateZoneResult.zone];
                 path_go).
    all: eapply wp_retry_returns;
      [cbn; lia | apply (setNameservers_returns _ _ _ _ _ _ _ Hdot H4) |].
    all: rewrite A4; cbn [negb]; path_go.
    all: unfold runWorkflow_records; rewrite hostingRecords_two; path_go.
    all: eapply wp_run;
      [apply (createDNSRecords_both _ _ _ _ _ _ _ _ _ _ _ HA HB CA CB)|].
    all: path_go; cbn [DNSBatchResult.success DNSBatchResult.recordIds negb].
    all: path_go; unfold addDomain; path_go.
    all: rewrite A7, V7; cbn [negb]; path_go.
    all: eapply wp_run;
      [eapply waitForDomainVerification_first; [lia | exact H8 | exact A8]|].
    all: cbn [negb]; path_go; frame_simpl; path_go.
    all: cbn [fst]; rewrite <- !app_assoc; cbn [app].
    all: eexists; split; [reflexivity|]; split; [reflexivity|].
    all: reflexivity. }
  path_done H. destruct H as (delta & -> & -> & H). now exists delta.
Qed.

(** X16. A zone that already exists is reused: when the creation of the
    zone is answered by a conflict and the lookup finds the zone, the run
    goes on with the zone that was found, delegates to its nameservers
    and creates the records in it.  With every other step succeeding the
    run returns success, and its details carry the id and the
    nameservers of the existing zone. *)
Theorem existing_zone_is_reused domain years enableWhoisGuard
    (s : Sys W) r1 w1 r2 w2 w2' zone w3 r4 w4 resA w5 idA resB w6 idB add w7
    v w8 :
  configured env namecheap ->
  configured env registrant ->
  configured env cloudflare ->
  configured env vercel ->
  contains "." domain = true ->
  answer_checkAvailability env domain (world s) = (r1, w1) ->
  AvailabilityResult.available r1 = true ->
  answer_purchaseDomain env domain years enableWhoisGuard w1 = (r2, w2) ->
  PurchaseResult.success r2 = true ->
  answer_postZone env domain w2 = (PostConflict, w2') ->
  answer_getZone env domain w2' = (GetFound zone, w3) ->
  answer_setNameservers env (sld_of domain) (tld_of domain)
                        (CloudflareZone.nameServers zone) w3 = (r4, w4) ->
  SetNameserversResult.success r4 = true ->
  answer_createDNSRecord env (CloudflareZone.id zone) (apex_record domain) w4
  = (resA, w5) ->
  created_with idA resA ->
  answer_createDNSRecord env (CloudflareZone.id zone) www_record w5
  = (resB, w6) ->
  created_with idB resB ->
  answer_addDomain env domain w6 = (add, w7) ->
  AddDomainResult.success add = true ->
  AddDomainResult.verificationRequired add = None ->
  answer_verifyDomain env domain w7 = (v, w8) ->
  VerifyDomainResult.verified v = true ->
  exists delta,
    runWorkflow env domain years enableWhoisGuard s
    = (Ret (WorkflowResult.mk true
              (Steps.mk true true true true true true true)
              (Details.mk (PurchaseResult.domainId r2)
                          (PurchaseResult.transactionId r2)
                          (Some (CloudflareZone.id zone))
                          (Some (CloudflareZone.nameServers zone))
                          (Some [idA; idB]))
              []),
       mkSys w8 (trace s ++ delta))
    /\ actions delta
       = [Sent (CheckAvailability domain);
          Sent (PurchaseDomain domain years enableWhoisGuard);
          Sent (CreateZone domain);
          Sent (FetchExistingZone domain);
          Sent (SetNameservers (sld_of domain) (tld_of domain)
                               (CloudflareZone.nameServers zone));
          Sent (CreateDNSRecord (CloudflareZone.id zone) (apex_record domain));
          Sent (CreateDNSRecord (CloudflareZone.id zone) www_record);
          Sent (AddDomain domain);
          Sent (VerifyDomain domain)].
Proof.
  intros Cn Cr Cc Cv Hdot H1 A1 H2 A2 H3 H3' H4 A4 HA CA HB CB H7 A7 V7 H8 A8.
  destruct s as [w0 t0]. cbn [world trace] in *.
  assert (H : wp (tryCatch (runWorkflow_try env domain years enableWhoisGuard)
                           (runWorkflow_catch env))
     (fun o st => exists delta,
        o = Ret (WorkflowResult.mk true
                   (Steps.mk true true true true true true true)
                   (Details.mk (PurchaseResult.domainId r2)
                               (PurchaseResult.transactionId r2)
                               (Some (CloudflareZone.id zone))
                               (Some (CloudflareZone.nameServers zone))
                               (Some [idA; idB]))
                   [])
        /\ fst st = mkSys w8 (t0 ++ delta)
        /\ actions delta
           = [Sent (CheckAvailability domain);
              Sent (PurchaseDomain domain years enableWhoisGuard);
              Sent (CreateZone domain);
              Sent (FetchExistingZone domain);
              Sent (SetNameservers (sld_of domain) (tld_of domain)
                                   (CloudflareZone.nameServers zone));
              Sent (CreateDNSRecord (CloudflareZone.id zone)
                                    (apex_record domain));
              Sent (CreateDNSRecord (CloudflareZone.id zone) www_record);
              Sent (AddDomain domain);
              Sent (VerifyDomain domain)])
     (mkSys w0 t0, initial_frame domain years enableWhoisGuard)).
  { unfold runWorkflow_try, initial_frame.
    unfold checkAvailability, purchaseDomain, createZone, fetchExistingZone.
    path_go. rewrite A1. cbn [negb]. path_go.
    all: destruct (default false (AvailabilityResult.isPremium r1));
      cbn [when]; path_go.
    all: rewrite A2; cbn [negb]; path_go.
    all: repeat (progress cbn [CreateZoneResult.success CreateZoneResult.zone];
                 path_go).
    all: eapply wp_retry_returns;
      [cbn; lia | apply (setNameservers_returns _ _ _ _ _ _ _ Hdot H4) |].
    all: rewrite A4; cbn [negb]; path_go.
    all: unfold runWorkflow_records; rewrite hostingRecords_two; path_go.
    all: eapply wp_run;
      [apply (createDNSRecords_both _ _ _ _ _ _ _ _ _ _ _ HA HB CA CB)|].
    all: path_go; cbn [DNSBatchResult.success DNSBatchResult.recordIds negb].
    all: path_go; unfold addDomain; path_go.
    all: rewrite A7, V7; cbn [negb]; path_go.
    all: eapply wp_run;
      [eapply waitForDomainVerification_first; [lia | exact H8 | exact A8]|].
    all: cbn [negb]; path_go; frame_simpl; path_go.
    all: cbn [fst]; rewrite <- !app_assoc; cbn [app].
    all: eexists; split; [reflexivity|]; split; [reflexivity|].
    all: reflexivity. }
  path_done H. destruct H as (delta & -> & -> & H). now exists delta.
Qed.

(** A batch of two records of which the first is refused and the second
    created. *)
Lemma createDNSRecords_second_only zoneId r1 r2 w t res1 w1 res2 w2 id2 :
  answer_createDNSRecord env zoneId r1 w = (res1, w1) ->
  answer_createDNSRecord env zoneId r2 w1 = (res2, w2) ->
  CreateDNSRecordResult.success res1 = false ->
  created_with id2 res2 ->
  createDNSRecords env zoneId [r1; r2] (mkSys w t)
  = (Ret (DNSBatchResult.mk false [id2]
            [RecordType.to_string (DNSRecord.type r1) +++ " "
             +++ DNSRecord.name r1 +++ ": "
             +++ tmpl (CreateDNSRecordResult.errorMessage res1)]),
     mkSys w2 (t ++ [Sent (CreateDNSRecord zoneId r1);
                     Sent (CreateDNSRecord zoneId r2)])).
Proof.
  intros H1 H2 F1 (S2 & I2 & T2).
  unfold createDNSRecords, createDNSRecords_loop, bind, createDNSRecord.
  rewrite request_returns. cbn [fst snd world trace]. rewrite H1.
  cbn [fst snd]. rewrite F1. cbn [andb].
  rewrite request_returns. cbn [fst snd world trace]. rewrite H2.
  cbn [fst snd]. rewrite S2, I2. cbn [truthy_opt andb default]. rewrite T2.
  unfold ret. cbn [app length Nat.eqb]. now rewrite <- !app_assoc.
Qed.

(** X17. A DNS record that is refused in step 5 does not stop the run:
    with the apex record refused and the www record created, the run
    records the error of the refused record, leaves the flag of the DNS
    records unset, and goes on to add and verify the domain.  It returns
    without success and without rollback, with the other six flags set
    and the id of the created record in its details. *)
Theorem refused_record_does_not_abort domain years enableWhoisGuard
    (s : Sys W) r1 w1 r2 w2 zone w3 r4 w4 resA w5 resB w6 idB add w7 v w8 :
  configured env namecheap ->
  configured env registrant ->
  configured env cloudflare ->
  configured env vercel ->
  contains "." domain = true ->
  answer_checkAvailability env domain (world s) = (r1, w1) ->
  AvailabilityResult.available r1 = true ->
  answer_purchaseDomain env domain years enableWhoisGuard w1 = (r2, w2) ->
  PurchaseResult.success r2 = true ->
  answer_postZone env domain w2 = (PostCreated zone, w3) ->
  answer_setNameservers env (sld_of domain) (tld_of domain)
                        (CloudflareZone.nameServers zone) w3 = (r4, w4) ->
  SetNameserversResult.success r4 = true ->
  answer_createDNSRecord env (CloudflareZone.id zone) (apex_record domain) w4
  = (resA, w5) ->
  CreateDNSRecordResult.success resA = false ->
  answer_createDNSRecord env (CloudflareZone.id zone) www_record w5
  = (resB, w6) ->
  created_with idB resB ->
  answer_addDomain env domain w6 = (add, w7) ->
  AddDomainResult.success add = true ->
  AddDomainResult.verificationRequired add = None ->
  answer_verifyDomain env domain w7 = (v, w8) ->
  VerifyDomainResult.verified v = true ->
  exists delta,
    runWorkflow env domain years enableWhoisGuard s
    = (Ret (WorkflowResult.mk false
              (Steps.mk true true true true false true true)
              (Details.mk (PurchaseResult.domainId r2)
                          (PurchaseResult.transactionId r2)
                          (Some (CloudflareZone.id zone))
                          (Some (CloudflareZone.nameServers zone))
                          (Some [idB]))
              ["A " +++ domain +++ ": "
               +++ tmpl (CreateDNSRecordResult.errorMessage resA)]),
       mkSys w8 (trace s ++ delta))
    /\ actions delta
       = [Sent (CheckAvailability domain);
          Sent (PurchaseDomain domain years enableWhoisGuard);
          Sent (CreateZone domain);
          Sent (SetNameservers (sld_of domain) (tld_of domain)
                               (CloudflareZone.nameServers zone));
          Sent (CreateDNSRecord (CloudflareZone.id zone) (apex_record domain));
          Sent (CreateDNSRecord (CloudflareZone.id zone) www_record);
          Sent (AddDomain domain);
          Sent (VerifyDomain domain)]
    /\ ~ In rollback_notice delta.
Proof.
  intros Cn Cr Cc Cv Hdot H1 A1 H2 A2 H3 H4 A4 HA FA HB CB H7 A7 V7 H8 A8.
  destruct s as [w0 t0]. cbn [world trace] in *.
  assert (H : wp (tryCatch (runWorkflow_try env domain years enableWhoisGuard)
                           (runWorkflow_catch env))
     (fun o st => exists delta,
        o = Ret (WorkflowResult.mk false
                   (Steps.mk true true true true false true true)
                   (Details.mk (PurchaseResult.domainId r2)
                               (PurchaseResult.transactionId r2)
                               (Some (CloudflareZone.id zone))
                               (Some (CloudflareZone.nameServers zone))
                               (Some [idB]))
                   ["A " +++ domain +++ ": "
                    +++ tmpl (CreateDNSRecordResult.errorMessage resA)])
        /\ fst st = mkSys w8 (t0 ++ delta)
        /\ actions delta
           = [Sent (CheckAvailability domain);
              Sent (PurchaseDomain domain years enableWhoisGuard);
              Sent (CreateZone domain);
              Sent (SetNameservers (sld_of domain) (tld_of domain)
                                   (CloudflareZone.nameServers zone));
              Sent (CreateDNSRecord (CloudflareZone.id zone)
                                    (apex_record domain));
              Sent (CreateDNSRecord (CloudflareZone.id zone) www_record);
              Sent (AddDomain domain);
              Sent (VerifyDomain domain)]
        /\ ~ In rollback_notice delta)
     (mkSys w0 t0, initial_frame domain years enableWhoisGuard)).
  { unfold runWorkflow_try, initial_frame.
    unfold checkAvailability, purchaseDomain, createZone.
    path_go. rewrite A1. cbn [negb]. path_go.
    all: destruct (default false (AvailabilityResult.isPremium r1));
      cbn [when]; path_go.
    all: rewrite A2; cbn [negb]; path_go.
    all: repeat (progress cbn [CreateZoneResult.success CreateZoneResult.zone];
                 path_go).
    all: eapply wp_retry_returns;
      [cbn; lia | apply (setNameservers_returns _ _ _ _ _ _ _ Hdot H4) |].
    all: rewrite A4; cbn [negb]; path_go.
    all: unfold runWorkflow_records; rewrite hostingRecords_two; path_go.
    all: eapply wp_run;
      [apply (createDNSRecords_second_only _ _ _ _ _ _ _ _ _ _ HA HB FA CB)|].
    all: path_go; cbn [DNSBatchResult.success DNSBatchResult.recordIds
                       DNSBatchResult.errors negb].
    all: path_go; unfold addDomain; path_go.
    all: rewrite A7, V7; cbn [negb]; path_go.
    all: eapply wp_run;
      [eapply waitForDomainVerification_first; [lia | exact H8 | exact A8]|].
    all: cbn [negb]; path_go; frame_simpl; path_go.
    all: cbn [fst]; rewrite <- !app_assoc; cbn [app].
    all: eexists; split; [reflexivity|]; split; [reflexivity|].
    all: split; [reflexivity|].
    all: unfold rollback_notice; cbn [In].
    all: intros H; repeat (destruct H as [H|H]; [discriminate H|]); exact H. }
  path_done H. destruct H as (delta & -> & -> & H). now exists delta.
Qed.

(** A verification that no check ever confirms. *)
Lemma waitForDomainVerification_never domain maxAttempts intervalMs w t :
  1 <= maxAttempts ->
  (forall w, VerifyDomainResult.verified
               (fst (answer_verifyDomain env domain w)) = false) ->
  exists w' d,
    waitForDomainVerification env domain maxAttempts intervalMs (mkSys w t)
    = (Ret false, mkSys w' (t ++ d))
    /\ actions d
       = poll_pattern (Sent (VerifyDomain domain)) intervalMs
                      (Z.to_nat maxAttempts)
    /\ ~ In rollback_notice d.
Proof.
  intros Hmax Hnever.
  assert (Hloop : forall fuel attempt s,
            (1 <= fuel)%nat -> attempt + Z.of_nat fuel = maxAttempts + 1 ->
            exists w' d,
              waitForDomainVerification_loop env domain maxAttempts intervalMs
                                             fuel attempt s
              = (Ret false, mkSys w' (trace s ++ d))
              /\ actions d
                 = poll_pattern (Sent (VerifyDomain domain)) intervalMs fuel
              /\ ~ In rollback_notice d).
  { induction fuel as [|fuel IH]; intros attempt s Hfuel Hsum; [lia|].
    cbn [waitForDomainVerification_loop].
    replace (attempt <=? maxAttempts) with true
      by (symmetry; apply Z.leb_le; lia).
    unfold bind at 1, verifyDomain. rewrite request_returns, Hnever.
    unfold bind at 1, logger_info, emit. cbn [world trace]. unfold bind at 1.
    destruct fuel as [|fuel].
    - replace (attempt <? maxAttempts) with false
        by (symmetry; apply Z.ltb_ge; lia).
      cbn [when ret waitForDomainVerification_loop].
      unfold bind, logger_error, emit, ret. cbn [world trace].
      rewrite <- !app_assoc. eexists _, _. split; [reflexivity|].
      split; [reflexivity|]. unfold rollback_notice. cbn [In app].
      intros H; repeat (destruct H as [H|H]; [discriminate H|]); exact H.
    - replace (attempt <? maxAttempts) with true
        by (symmetry; apply Z.ltb_lt; lia).
      cbn [when]. unfold delay at 1. cbn [world trace].
      match goal with
      | |- context [waitForDomainVerification_loop _ _ _ _ _ _ ?s2] =>
          destruct (IH (attempt + 1) s2 ltac:(lia) ltac:(lia))
            as (w' & d & -> & Ha & Hn)
      end.
      cbn [trace]. rewrite <- !app_assoc. eexists _, _.
      split; [reflexivity|]. split.
      + rewrite poll_pattern_succ by lia. cbn [app].
        unfold actions in *. cbn [filter is_logged negb]. now rewrite Ha.
      + unfold rollback_notice in *. cbn [In app].
        intros H; repeat (destruct H as [H|H]; [discriminate H|]).
        now apply Hn. }
  unfold waitForDomainVerification, bind at 1, logger_info, emit.
  cbn [world trace].
  match goal with
  | |- context [waitForDomainVerification_loop _ _ _ _ _ _ ?s1] =>
      destruct (Hloop (Z.to_nat maxAttempts) 1 s1 ltac:(lia) ltac:(lia))
        as (w' & d & -> & Ha & Hn)
  end.
  cbn [trace]. rewrite <- app_assoc. eexists _, _. split; [reflexivity|].
  split; [exact Ha|]. unfold rollback_notice in *. cbn [In app].
  intros [H|H]; [discriminate H | now apply Hn].
Qed.

(** X18. A verification that is never confirmed costs ten checks and nine
    delays of 30 seconds and is not rolled back: with every earlier step
    succeeding, the run checks ten times, suspending for 30000 ms
    between two checks, then records the one error of the verification
    and returns without success, with the six earlier flags set; no
    rollback is started, the domain stays on the hosting platform and
    the DNS records stay in the zone. *)
Theorem verification_timeout_is_not_rolled_back domain years enableWhoisGuard
    (s : Sys W) r1 w1 r2 w2 zone w3 r4 w4 resA w5 idA resB w6 idB add w7 :
  configured env namecheap ->
  configured env registrant ->
  configured env cloudflare ->
  configured env vercel ->
  contains "." domain = true ->
  answer_checkAvailability env domain (world s) = (r1, w1) ->
  AvailabilityResult.available r1 = true ->
  answer_purchaseDomain env domain years enableWhoisGuard w1 = (r2, w2) ->
  PurchaseResult.success r2 = true ->
  answer_postZone env domain w2 = (PostCreated zone, w3) ->
  answer_setNameservers env (sld_of domain) (tld_of domain)
                        (CloudflareZone.nameServers zone) w3 = (r4, w4) ->
  SetNameserversResult.success r4 = true ->
  answer_createDNSRecord env (CloudflareZone.id zone) (apex_record domain) w4
  = (resA, w5) ->
  created_with idA resA ->
  answer_createDNSRecord env (CloudflareZone.id zone) www_record w5
  = (resB, w6) ->
  created_with idB resB ->
  answer_addDomain env domain w6 = (add, w7) ->
  AddDomainResult.success add = true ->
  AddDomainResult.verificationRequired add = None ->
  (forall w, VerifyDomainResult.verified
               (fst (answer_verifyDomain env domain w)) = false) ->
  exists w' delta,
    runWorkflow env domain years enableWhoisGuard s
    = (Ret (WorkflowResult.mk false
              (Steps.mk true true true true true true false)
              (Details.mk (PurchaseResult.domainId r2)
                          (PurchaseResult.transactionId r2)
                          (Some (CloudflareZone.id zone))
                          (Some (CloudflareZone.nameServers zone))
                          (Some [idA; idB]))
              ["Vercel Verification: Failed after 10 attempts - requires manual review"]),
       mkSys w' (trace s ++ delta))
    /\ actions delta
       = [Sent (CheckAvailability domain);
          Sent (PurchaseDomain domain years enableWhoisGuard);
          Sent (CreateZone domain);
          Sent (SetNameservers (sld_of domain) (tld_of domain)
                               (CloudflareZone.nameServers zone));
          Sent (CreateDNSRecord (CloudflareZone.id zone) (apex_record domain));
          Sent (CreateDNSRecord (CloudflareZone.id zone) www_record);
          Sent (AddDomain domain)]
         ++ poll_pattern (Sent (VerifyDomain domain)) 30000 10
    /\ ~ In rollback_notice delta.
Proof.
  intros Cn Cr Cc Cv Hdot H1 A1 H2 A2 H3 H4 A4 HA CA HB CB H7 A7 V7 Hnever.
  destruct s as [w0 t0]. cbn [world trace] in *.
  assert (H : wp (tryCatch (runWorkflow_try env domain years enableWhoisGuard)
                           (runWorkflow_catch env))
     (fun o st => exists w' delta,
        o = Ret (WorkflowResult.mk false
                   (Steps.mk true true true true true true false)
                   (Details.mk (PurchaseResult.domainId r2)
                               (PurchaseResult.transactionId r2)
                               (Some (CloudflareZone.id zone))
                               (Some (CloudflareZone.nameServers zone))
                               (Some [idA; idB]))
                   ["Vercel Verification: Failed after 10 attempts - requires manual review"])
        /\ fst st = mkSys w' (t0 ++ delta)
        /\ actions delta
           = [Sent (CheckAvailability domain);
              Sent (PurchaseDomain domain years enableWhoisGuard);
              Sent (CreateZone domain);
              Sent (SetNameservers (sld_of domain) (tld_of domain)
                                   (CloudflareZone.nameServers zone));
              Sent (CreateDNSRecord (CloudflareZone.id zone)
                                    (apex_record domain));
              Sent (CreateDNSRecord (CloudflareZone.id zone) www_record);
              Sent (AddDomain domain)]
             ++ poll_pattern (Sent (VerifyDomain domain)) 30000 10
        /\ ~ In rollback_notice delta)
     (mkSys w0 t0, initial_frame domain years enableWhoisGuard)).
  { unfold runWorkflow_try, initial_frame.
    unfold checkAvailability, purchaseDomain, createZone.
    path_go. rewrite A1. cbn [negb]. path_go.
    all: destruct (default false (AvailabilityResult.isPremium r1));
      cbn [when]; path_go.
    all: rewrite A2; cbn [negb]; path_go.
    all: repeat (progress cbn [CreateZoneResult.success CreateZoneResult.zone];
                 path_go).
    all: eapply wp_retry_returns;
      [cbn; lia | apply (setNameservers_returns _ _ _ _ _ _ _ Hdot H4) |].
    all: rewrite A4; cbn [negb]; path_go.
    all: unfold runWorkflow_records; rewrite hostingRecords_two; path_go.
    all: eapply wp_run;
      [apply (createDNSRecords_both _ _ _ _ _ _ _ _ _ _ _ HA HB CA CB)|].
    all: path_go; cbn [DNSBatchResult.success DNSBatchResult.recordIds negb].
    all: path_go; unfold addDomain; path_go.
    all: rewrite A7, V7; cbn [negb]; path_go.
    all: match goal with
         | |- wp (waitForDomainVerification _ _ _ _) _ (mkSys ?w ?t) =>
             destruct (waitForDomainVerification_never domain 10 30000 w t
                         ltac:(lia) Hnever) as (w' & d & Hrun & Ha & Hn);
             eapply wp_run; [exact Hrun|]
         end.
    all: cbn [negb]; path_go; frame_simpl; path_go.
    all: cbn [fst]; rewrite <- !app_assoc; cbn [app].
    all: eexists w', _; split; [reflexivity|]; split; [reflexivity|].
    all: change (Z.to_nat 10) with 10%nat in Ha.
    all: split;
      [ unfold actions in *; cbn [filter is_logged negb];
        rewrite filter_app, Ha; cbn [filter is_logged negb app];
        now rewrite app_nil_r |].
    all: unfold rollback_notice in *; cbn [In]; rewrite ?in_app_iff; cbn [In].
    all: intros H; repeat (destruct H as [H|H]; [discriminate H|]).
    all: destruct H as [H|H]; [now apply Hn|].
    all: repeat (destruct H as [H|H]; [discriminate H|]); exact H. }
  path_done H. destruct H as (w' & delta & -> & -> & H). now exists w', delta.
Qed.

End LaterSteps.

Lemma hosting_failure_deletes_created_records_witness :
  exists r w' delta,
    runWorkflow MockPaths.hosting_refuses "example-test.com" 1 true Mock.start
    = (Ret r, mkSys w' (trace Mock.start ++ delta))
    /\ WorkflowResult.success r = false
    /\ WorkflowResult.steps r
       = Steps.mk true true true true true false false
    /\ WorkflowResult.errors r = ["Vercel Add: " +++ "Project not found"]
    /\ actions delta
       = [Sent (CheckAvailability "example-test.com");
          Sent (PurchaseDomain "example-test.com" 1 true);
          Sent (CreateZone "example-test.com");
          Sent (SetNameservers "example-test" "com" ["ns1.x"; "ns2.x"]);
          Sent (CreateDNSRecord "Z1" (apex_record "example-test.com"));
          Sent (CreateDNSRecord "Z1" www_record);
          Sent (AddDomain "example-test.com");
          Sent (DeleteDNSRecord "Z1" "R4");
          Sent (DeleteDNSRecord "Z1" "R5")].
Proof.
  apply (hosting_failure_deletes_created_records MockPaths.hosting_refuses
           "example-test.com" 1 true Mock.start
           (Mock.available "example-test.com") 1%nat Mock.purchased 2%nat
           Mock.zone1 3%nat (SetNameserversResult.mk true None) 4%nat
           (Mock.created 4) 5%nat "R4" (Mock.created 5) 6%nat "R5"
           MockPaths.not_added 7%nat);
    try reflexivity; repeat split.
Defined.

Lemma all_steps_succeed_witness :
  exists delta,
    runWorkflow Mock.happy "example-test.com" 1 true Mock.start
    = (Ret (WorkflowResult.mk true
              (Steps.mk true true true true true true true)
              (Details.mk (Some "D1") (Some "T1") (Some "Z1")
                          (Some ["ns1.x"; "ns2.x"]) (Some ["R4"; "R5"]))
              []),
       mkSys 8%nat (trace Mock.start ++ delta))
    /\ actions delta
       = [Sent (CheckAvailability "example-test.com");
          Sent (PurchaseDomain "example-test.com" 1 true);
          Sent (CreateZone "example-test.com");
          Sent (SetNameservers "example-test" "com" ["ns1.x"; "ns2.x"]);
          Sent (CreateDNSRecord "Z1" (apex_record "example-test.com"));
          Sent (CreateDNSRecord "Z1" www_record);
          Sent (AddDomain "example-test.com");
          Sent (VerifyDomain "example-test.com")].
Proof.
  apply (all_steps_succeed Mock.happy "example-test.com" 1 true Mock.start
           (Mock.available "example-test.com") 1%nat Mock.purchased 2%nat
           Mock.zone1 3%nat (SetNameserversResult.mk true None) 4%nat
           (Mock.created 4) 5%nat "R4" (Mock.created 5) 6%nat "R5"
           (AddDomainResult.mk true None None None) 7%nat
           (VerifyDomainResult.mk true true None) 8%nat);
    try reflexivity; repeat split.
Defined.

Lemma existing_zone_is_reused_witness :
  exists delta,
    runWorkflow MockPaths.zone_exists "example-test.com" 1 true Mock.start
    = (Ret (WorkflowResult.mk true
              (Steps.mk true true true true true true true)
              (Details.mk (Some "D1") (Some "T1") (Some "Z1")
                          (Some ["ns1.x"; "ns2.x"]) (Some ["R5"; "R6"]))
              []),
       mkSys 9%nat (trace Mock.start ++ delta))
    /\ actions delta
       = [Sent (CheckAvailability "example-test.com");
          Sent (PurchaseDomain "example-test.com" 1 true);
          Sent (CreateZone "example-test.com");
          Sent (FetchExistingZone "example-test.com");
          Sent (SetNameservers "example-test" "com" ["ns1.x"; "ns2.x"]);
          Sent (CreateDNSRecord "Z1" (apex_record "example-test.com"));
          Sent (CreateDNSRecord "Z1" www_record);
          Sent (AddDomain "example-test.com");
          Sent (VerifyDomain "example-test.com")].
Proof.
  apply (existing_zone_is_reused MockPaths.zone_exists "example-test.com" 1
           true Mock.start
           (Mock.available "example-test.com") 1%nat Mock.purchased 2%nat
           3%nat Mock.zone1 4%nat (SetNameserversResult.mk true None) 5%nat
           (Mock.created 5) 6%nat "R5" (Mock.created 6) 7%nat "R6"
           (AddDomainResult.mk true None None None) 8%nat
           (VerifyDomainResult.mk true true None) 9%nat);
    try reflexivity; repeat split.
Defined.

Lemma refused_record_does_not_abort_witness :
  exists delta,
    runWorkflow MockPaths.apex_refused "example-test.com" 1 true Mock.start
    = (Ret (WorkflowResult.mk false
              (Steps.mk true true true true false true true)
              (Details.mk (Some "D1") (Some "T1") (Some "Z1")
                          (Some ["ns1.x"; "ns2.x"]) (Some ["R5"]))
              ["A " +++ "example-test.com" +++ ": " +++ "quota exceeded"]),
       mkSys 8%nat (trace Mock.start ++ delta))
    /\ actions delta
       = [Sent (CheckAvailability "example-test.com");
          Sent (PurchaseDomain "example-test.com" 1 true);
          Sent (CreateZone "example-test.com");
          Sent (SetNameservers "example-test" "com" ["ns1.x"; "ns2.x"]);
          Sent (CreateDNSRecord "Z1" (apex_record "example-test.com"));
          Sent (CreateDNSRecord "Z1" www_record);
          Sent (AddDomain "example-test.com");
          Sent (VerifyDomain "example-test.com")]
    /\ ~ In rollback_notice delta.
Proof.
  apply (refused_record_does_not_abort MockPaths.apex_refused
           "example-test.com" 1 true Mock.start
           (Mock.available "example-test.com") 1%nat Mock.purchased 2%nat
           Mock.zone1 3%nat (SetNameserversResult.mk true None) 4%nat
           (Mock.refused "quota exceeded") 5%nat (Mock.created 5) 6%nat "R5"
           (AddDomainResult.mk true None None None) 7%nat
           (VerifyDomainResult.mk true true None) 8%nat);
    try reflexivity; repeat split.
Defined.

Lemma verification_timeout_is_not_rolled_back_witness :
  exists w' delta,
    runWorkflow MockPoll.failing "example-test.com" 1 true Mock.start
    = (Ret (WorkflowResult.mk false
              (Steps.mk true true true true true true false)
              (Details.mk (Some "D1") (Some "T1") (Some "Z1")
                          (Some ["ns1.x"; "ns2.x"]) (Some ["R4"; "R5"]))
              ["Vercel Verification: Failed after 10 attempts - requires manual review"]),
       mkSys w' (trace Mock.start ++ delta))
    /\ actions delta
       = [Sent (CheckAvailability "example-test.com");
          Sent (PurchaseDomain "example-test.com" 1 true);
          Sent (CreateZone "example-test.com");
          Sent (SetNameservers "example-test" "com" ["ns1.x"; "ns2.x"]);
          Sent (CreateDNSRecord "Z1" (apex_record "example-test.com"));
          Sent (CreateDNSRecord "Z1" www_record);
          Sent (AddDomain "example-test.com")]
         ++ poll_pattern (Sent (VerifyDomain "example-test.com")) 30000 10
    /\ ~ In rollback_notice delta.
Proof.
  apply (verification_timeout_is_not_rolled_back MockPoll.failing
           "example-test.com" 1 true Mock.start
           (Mock.available "example-test.com") 1%nat Mock.purchased 2%nat
           Mock.zone1 3%nat (SetNameserversResult.mk true None) 4%nat
           (Mock.created 4) 5%nat "R4" (Mock.created 5) 6%nat "R5"
           (AddDomainResult.mk true None None None) 7%nat);
    try reflexivity; repeat split.
Defined.

(** ** What every run of the saga keeps *)

(** Walks through a computation built from the combinators, for a kind of
    event that is decided by computation. *)
Ltac emits_go :=
  repeat first
    [ assumption
    | apply emits_bind; [|intros ?]
    | apply emits_ret
    | apply emits_throw
    | apply emits_when
    | apply emits_tryCatch; [|intros ?]
    | apply emits_message_of
    | apply emits_splitDomain
    | apply emits_validateConfig
    | apply emits_assign
    | apply emits_read
    | apply emits_emit; reflexivity
    | apply emits_delay; reflexivity
    | apply emits_request; reflexivity
    | apply emits_sys
    | match goal with
      | |- emits _ _ (if ?c then _ else _) => destruct c
      | |- emits _ _ (match ?x with _ => _ end) => destruct x
      | |- emits _ _ (let (_, _) := ?x in _) => destruct x
      end ].

Section Forward.

Context {W : Type} (env : Env W).

Lemma forward_createZone domain : emits trace no_undo (createZone env domain).
Proof. unfold createZone, fetchExistingZone. emits_go. Qed.

Lemma forward_purchaseDomain domain years enableWhoisGuard :
  emits trace no_undo (purchaseDomain env domain years enableWhoisGuard).
Proof. unfold purchaseDomain. emits_go. Qed.

Lemma forward_createDNSRecords_loop zoneId records :
  forall recordIds errors,
    emits trace no_undo
          (createDNSRecords_loop env zoneId records recordIds errors).
Proof.
  induction records as [|record rest IH]; intros recordIds errors;
    cbn [createDNSRecords_loop]; unfold createDNSRecord; emits_go; apply IH.
Qed.

Lemma forward_createDNSRecords zoneId records :
  emits trace no_undo (createDNSRecords env zoneId records).
Proof.
  unfold createDNSRecords. apply emits_bind;
    [apply forward_createDNSRecords_loop | intros [ids errs]; apply emits_ret].
Qed.

Lemma forward_waitForDomainVerification domain maxAttempts intervalMs :
  emits trace no_undo (waitForDomainVerification env domain maxAttempts intervalMs).
Proof.
  unfold waitForDomainVerification, logger_info.
  apply emits_bind; [apply emits_emit; reflexivity|].
  intros _. generalize 1. induction (Z.to_nat maxAttempts) as [|fuel IH];
    intros attempt; cbn [waitForDomainVerification_loop];
    unfold verifyDomain, logger_error, logger_info; emits_go; apply IH.
Qed.

Lemma forward_nameserver_retry domain nameservers :
  emits trace no_undo
        (retry env (setNameservers env domain nameservers)
               (nameserver_retry_options)).
Proof.
  unfold retry. generalize Undefined, 1.
  induction (Z.to_nat _) as [|fuel IH]; intros last attempt;
    cbn [retry_loop]; [apply emits_throw|].
  destruct (attempt <=? _); [|apply emits_throw].
  apply emits_tryCatch; [unfold setNameservers; emits_go|]. intros e.
  destruct (attempt =? _); [apply emits_throw|].
  cbn [nameserver_retry_options RetryOptions.onRetry].
  unfold logger_warn. emits_go. apply IH.
Qed.

(** The frame the loop of step 6 leaves: untouched if no TXT record was
    created, and otherwise with the ids of the created records appended
    to the one array of record ids. *)
Lemma createVerificationRecords_frame zoneId records :
  forall sy fr,
  exists sy' ids,
    createVerificationRecords env zoneId records (sy, fr)
    = (Ret tt,
       (sy', match ids with
             | [] => fr
             | _ => set_recordIds
                      (WorkflowState.cloudflareRecordIds (state fr) ++ ids) fr
             end))
    /\ trace sy'
       = trace sy ++ map (fun record => Sent (CreateDNSRecord zoneId
                                                (txt_record record)))
                         (filter is_txt records).
Proof.
  induction records as [|record rest IH]; intros sy fr.
  - exists sy, []. cbn. now rewrite app_nil_r.
  - cbn [createVerificationRecords filter]. unfold bind at 1.
    fold (is_txt record). destruct (is_txt record) eqn:Htxt.
    + unfold bind at 1, sys, createDNSRecord. cbn [fst snd].
      rewrite request_returns. fold (txt_record record).
      set (res := fst (answer_createDNSRecord env zoneId (txt_record record)
                                               (world sy))).
      destruct (CreateDNSRecordResult.success res
                && truthy_opt (CreateDNSRecordResult.recordId res)); cbn [when].
      * unfold assign. cbn [fst snd].
        match goal with
        | |- context [createVerificationRecords _ _ _ (?sy1, ?fr1)] =>
            destruct (IH sy1 fr1) as (sy' & ids & -> & Htr)
        end.
        exists sy', (default "" (CreateDNSRecordResult.recordId res) :: ids).
        split.
        -- destruct fr as [st [su sp de er]], ids as [|i ids];
             cbn; rewrite <- ?app_assoc; reflexivity.
        -- rewrite Htr. cbn. now rewrite <- app_assoc.
      * unfold ret.
        match goal with
        | |- context [createVerificationRecords _ _ _ (?sy1, ?fr1)] =>
            destruct (IH sy1 fr1) as (sy' & ids & -> & Htr)
        end.
        exists sy', ids. split; [reflexivity|].
        rewrite Htr. cbn. now rewrite <- app_assoc.
    + unfold ret. destruct (IH sy fr) as (sy' & ids & -> & Htr).
      now exists sy', ids.
Qed.

Lemma since_start (sy : Sys W) : since (trace sy) no_undo sy.
Proof. exists []. now rewrite app_nil_r. Qed.

Lemma wp_sys_since {R} (Rp : Outcome R -> Prop) (P : Event -> bool) t0
    (m : M (Sys W) R) (Q : Outcome R -> Run (W := W) -> Prop) sy fr :
  yields Rp m ->
  emits trace P m ->
  since t0 P sy ->
  (forall o sy', Rp o -> since t0 P sy' -> Q o (sy', fr)) ->
  wp (sys m) Q (sy, fr).
Proof.
  intros Hy He (d & Hd & Pd) HQ. unfold wp, sys. cbn [fst snd].
  specialize (Hy sy). destruct (He sy) as (d' & Hd' & Pd').
  destruct (m sy) as [o sy']. cbn [fst snd] in *. apply HQ; [exact Hy|].
  exists (d ++ d'). rewrite Hd', Hd, app_assoc, forallb_app, Pd, Pd'. auto.
Qed.

Lemma wp_createVerificationRecords_since zoneId records t0
    (Q : Outcome unit -> Run (W := W) -> Prop) sy fr :
  since t0 no_undo sy ->
  (forall sy' ids,
     since t0 no_undo sy' ->
     Q (Ret tt)
       (sy', match ids with
             | [] => fr
             | _ => set_recordIds
                      (WorkflowState.cloudflareRecordIds (state fr) ++ ids) fr
             end)) ->
  wp (createVerificationRecords env zoneId records) Q (sy, fr).
Proof.
  intros (d & Hd & Pd) HQ. unfold wp.
  destruct (createVerificationRecords_frame zoneId records sy fr)
    as (sy' & ids & -> & Htr).
  apply HQ. exists (d ++ map (fun record => Sent (CreateDNSRecord zoneId
                                                   (txt_record record)))
                        (filter is_txt records)).
  rewrite Htr, Hd, app_assoc, forallb_app, Pd. split; [reflexivity|].
  cbn [andb]. clear Htr.
  induction (filter is_txt records) as [|x l IH]; [reflexivity | exact IH].
Qed.

End Forward.

(** Closes what is asked of the two objects when their fields are known. *)
Ltac coherent_tac :=
  unfold run_post, coherent, ordered, details_match, agrees; frame_simpl;
  cbn [default];
  repeat match goal with
         | |- _ /\ _ => split
         | |- _ <-> _ => split
         end;
  try solve [ reflexivity | discriminate | congruence | assumption
            | intros; discriminate | intros; congruence
            | intros; split; congruence ].

(** One step of a run whose provider answers are arbitrary: the two
    objects are tracked, and of the log only that nothing in it undoes
    anything.  The steps that branch or may throw are left to the
    proof. *)
Ltac inv_sys yields_lemma emits_lemma :=
  eapply (wp_sys_since returns no_undo);
  [ yields_lemma | emits_lemma | eassumption | intros ? ? [? ->] ? ].

Ltac inv_step :=
  lazymatch goal with
  | |- wp (bind _ _) _ _ => apply wp_bind
  | |- wp (assign _) _ _ => apply wp_assign
  | |- wp read _ _ => apply wp_read
  | |- wp return_result _ _ => apply wp_return_result
  | |- wp (ret _) _ _ => apply wp_ret
  | |- wp (sys (createDNSRecords _ _ _)) _ _ => fail
  | |- wp (sys (purchaseDomain _ _ _ _)) _ _ => fail
  | |- wp (sys (retry _ _ _)) _ _ => fail
  | |- wp (sys (createZone _ _)) _ _ =>
      inv_sys ltac:(apply yields_createZone) ltac:(apply forward_createZone)
  | |- wp (sys (waitForDomainVerification _ _ _ _)) _ _ =>
      inv_sys ltac:(apply yields_waitForDomainVerification)
              ltac:(apply forward_waitForDomainVerification)
  | |- wp (sys _) _ _ =>
      inv_sys ltac:(first [apply yields_emit | apply yields_request])
              ltac:(first [apply emits_emit; reflexivity
                          | apply emits_request; reflexivity])
  | |- wp (run_rollback _) _ _ => apply wp_run_rollback; intros ?
  | |- wp (createVerificationRecords _ _ _) _ _ =>
      eapply wp_createVerificationRecords_since; [eassumption | intros ? [|? ?] ?]
  | |- wp _ _ _ => fail
  | |- _ => progress cbv beta iota
  end.

Ltac inv_go := repeat inv_step.

(** A step that may throw an [Error]. *)
Ltac inv_defined yields_lemma emits_lemma :=
  eapply (wp_sys_since defined no_undo);
  [ yields_lemma | emits_lemma | eassumption | ];
  intros [?|[|?]] ? ? ?;
  [ | exfalso; auto | solve [coherent_tac] ].

Section Invariants.

Context {W : Type} (env : Env W).

(** The catch block adds an error and rolls back; the flags, the details
    and the state stay as they were. *)
Lemma wp_catch_coherent e sy fr :
  e <> Undefined -> coherent fr ->
  Steps.vercelDomain (WorkflowResult.steps (result fr)) = false ->
  wp (runWorkflow_catch env e)
     (fun o st => exists r, o = Ret r /\ r = result (snd st)
                            /\ coherent (snd st)
                            /\ Steps.vercelDomain (WorkflowResult.steps r) = false)
     (sy, fr).
Proof.
  intros He Hc Hv. destruct e as [|m]; [congruence|].
  unfold runWorkflow_catch, message_of. apply wp_bind, wp_ret.
  apply wp_bind. eapply (wp_sys returns); [apply yields_emit|].
  intros ? ? [? ->]. apply wp_bind, wp_ret. apply wp_bind, wp_assign.
  apply wp_bind, wp_run_rollback. intros ?. apply wp_return_result.
  eexists. split; [reflexivity|]. split; [reflexivity|].
  destruct fr as [st [su sp de er]]. split; [exact Hc | exact Hv].
Qed.

(** Steps 5 to 7, from the two objects as step 4 leaves them. *)
Lemma wp_records_coherent domain zone sy t0 dom yrs guard domainId
    transactionId :
  since t0 no_undo sy ->
  wp (runWorkflow_records env domain zone) (run_post t0)
     (sy, mkFrame
            (WorkflowState.mk dom yrs guard true
                              (Some (CloudflareZone.id zone)) [] false)
            (WorkflowResult.mk false
               (Steps.mk true true true true false false false)
               (Details.mk domainId transactionId
                           (Some (CloudflareZone.id zone))
                           (Some (CloudflareZone.nameServers zone)) None)
               [])).
Proof.
  intros Hs. unfold runWorkflow_records. inv_go.
  eapply (wp_sys_since _ no_undo);
    [apply yields_createDNSRecords | apply forward_createDNSRecords
    | eassumption |].
  intros ? ? (r & -> & Hr) ?. inv_go.
  destruct (DNSBatchResult.success r) eqn:Hok; cbn [negb].
  all: inv_go.
  all: apply wp_validateConfig; [|intros m; coherent_tac].
  all: inv_go.
  all: match goal with
       | |- context [AddDomainResult.success ?a] =>
           destruct (AddDomainResult.success a); cbn [negb];
           [ destruct (AddDomainResult.verificationRequired a) as [[|]|];
             try destruct (AddDomainResult.verificationRecords a) |]
       end.
  all: inv_go.
  all: try match goal with
       | |- context [negb ?b] => destruct b; cbn [negb]
       end.
  all: inv_go; frame_simpl; inv_go.
  all: coherent_tac.
Qed.

(** The try block of [runWorkflow], from its two objects as they are
    created. *)
Lemma wp_try_coherent domain years enableWhoisGuard sy :
  wp (runWorkflow_try env domain years enableWhoisGuard)
     (run_post (trace sy))
     (sy, initial_frame domain years enableWhoisGuard).
Proof.
  pose proof (since_start sy) as Hs.
  unfold runWorkflow_try, initial_frame. inv_go.
  apply wp_validateConfig; [|intros m; coherent_tac].
  inv_go.
  match goal with
  | |- context [AvailabilityResult.available ?a] =>
      destruct (AvailabilityResult.available a); cbn [negb];
      [ destruct (default false (AvailabilityResult.isPremium a)); cbn [when] |]
  end.
  all: inv_go.
  3: coherent_tac.
  all: apply wp_validateConfig; [|intros m; coherent_tac].
  all: inv_go.
  all: inv_defined ltac:(apply purchaseDomain_defined)
                   ltac:(apply forward_purchaseDomain).
  all: inv_go.
  all: match goal with
       | |- context [PurchaseResult.success ?a] =>
           destruct (PurchaseResult.success a); cbn [negb]
       end.
  all: inv_go.
  2, 4: coherent_tac.
  all: apply wp_validateConfig; [|intros m; coherent_tac].
  all: inv_go.
  all: match goal with
       | |- context [CreateZoneResult.success ?a] =>
           destruct (CreateZoneResult.success a);
           [ destruct (CreateZoneResult.zone a) |]
       end.
  all: inv_go.
  2, 3, 5, 6: coherent_tac.
  all: inv_defined ltac:(apply nameserver_retry_defined)
                   ltac:(apply forward_nameserver_retry).
  all: inv_go.
  all: match goal with
       | |- context [SetNameserversResult.success ?a] =>
           destruct (SetNameserversResult.success a); cbn [negb]
       end.
  all: inv_go.
  2, 4: coherent_tac.
  all: frame_simpl; apply wp_records_coherent; assumption.
Qed.

(** Every run of the body of [runWorkflow] returns the result of its
    frame, with the two objects coherent; if the domain was added to the
    hosting platform, nothing was undone. *)
Lemma runWorkflow_coherent domain years enableWhoisGuard (s : Sys W) :
  exists r sy fr,
    tryCatch (runWorkflow_try env domain years enableWhoisGuard)
             (runWorkflow_catch env)
             (s, initial_frame domain years enableWhoisGuard)
    = (Ret r, (sy, fr))
    /\ r = result fr
    /\ coherent fr
    /\ (Steps.vercelDomain (WorkflowResult.steps r) = true ->
        since (trace s) no_undo sy).
Proof.
  assert (H : wp (tryCatch (runWorkflow_try env domain years enableWhoisGuard)
                           (runWorkflow_catch env))
                 (fun o st => exists r, o = Ret r /\ r = result (snd st)
                    /\ coherent (snd st)
                    /\ (Steps.vercelDomain (WorkflowResult.steps r) = true ->
                        since (trace s) no_undo (fst st)))
                 (s, initial_frame domain years enableWhoisGuard)).
  { apply wp_tryCatch.
    eapply wp_conseq; [apply wp_try_coherent|].
    intros [r|e] [sy fr]; cbn [snd fst run_post].
    - intros (Hr & Hc & Hn). now exists r.
    - intros (He & Hc & Hv).
      eapply wp_conseq; [apply (wp_catch_coherent e sy fr He Hc Hv)|].
      intros o st (r & -> & Hr & Hc' & Hv'). exists r.
      split; [reflexivity|]. split; [exact Hr|]. split; [exact Hc'|].
      intros Hv''. congruence. }
  unfold wp in H. destruct (tryCatch _ _ _) as [o [sy fr]].
  cbn [fst snd] in H. destruct H as (r & -> & H). now exists r, sy, fr.
Qed.

(** X19. In the result of every run, a step flag that is set comes with
    the flags of the steps before it: verification with the hosting
    step, the hosting step and the DNS records with the delegation, the
    delegation with the zone, the zone with the purchase, the purchase
    with the availability check. *)
Theorem runWorkflow_flags_ordered domain years enableWhoisGuard (s : Sys W) :
  exists r s',
    runWorkflow env domain years enableWhoisGuard s = (Ret r, s')
    /\ ordered (WorkflowResult.steps r).
Proof.
  destruct (runWorkflow_coherent domain years enableWhoisGuard s)
    as (r & sy & fr & Hrun & -> & (Ho & _) & _).
  unfold runWorkflow. rewrite Hrun. now exists (result fr), sy.
Qed.

(** X20. In the result of every run the details go with the flags: no
    purchase ids without the purchase flag, the zone id and the
    nameservers exactly when the zone flag is set, and the list of
    record ids exactly when the delegation flag is set. *)
Theorem runWorkflow_details_match_flags domain years enableWhoisGuard
    (s : Sys W) :
  exists r s',
    runWorkflow env domain years enableWhoisGuard s = (Ret r, s')
    /\ details_match r.
Proof.
  destruct (runWorkflow_coherent domain years enableWhoisGuard s)
    as (r & sy & fr & Hrun & -> & (_ & Hd & _) & _).
  unfold runWorkflow. rewrite Hrun. now exists (result fr), sy.
Qed.

(** X21. A run whose result has the hosting flag set has undone nothing:
    it sent no request to remove the domain from the hosting platform
    and none to delete a DNS record.  In particular a verification that
    fails in step 7 leaves the domain and the records in place. *)
Theorem runWorkflow_keeps_hosted_domain domain years enableWhoisGuard
    (s : Sys W) :
  exists r s',
    runWorkflow env domain years enableWhoisGuard s = (Ret r, s')
    /\ (Steps.vercelDomain (WorkflowResult.steps r) = true ->
        exists delta,
          trace s' = trace s ++ delta /\ forallb no_undo delta = true).
Proof.
  destruct (runWorkflow_coherent domain years enableWhoisGuard s)
    as (r & sy & fr & Hrun & -> & _ & Hn).
  unfold runWorkflow. rewrite Hrun. exists (result fr), sy.
  split; [reflexivity|]. exact Hn.
Qed.

(** X22. When the body of [runWorkflow] ends, the state that [rollback]
    reads agrees with the result that is returned: the purchase and the
    hosting flags are those of the state, the zone id is the same, and
    the record ids of the details are exactly the ids that a rollback
    deletes, those of the TXT records of step 6 included. *)
Theorem runWorkflow_state_agrees domain years enableWhoisGuard (s : Sys W) :
  exists r sy fr,
    tryCatch (runWorkflow_try env domain years enableWhoisGuard)
             (runWorkflow_catch env)
             (s, initial_frame domain years enableWhoisGuard)
    = (Ret r, (sy, fr))
    /\ r = result fr
    /\ agrees fr.
Proof.
  destruct (runWorkflow_coherent domain years enableWhoisGuard s)
    as (r & sy & fr & Hrun & Hr & (_ & _ & Ha) & _).
  now exists r, sy, fr.
Qed.

End Invariants.

(** ** One purchase at most *)

Section OnePurchase.

Context {W : Type} (env : Env W).

Lemma catch_benign e :
  emits (fun st : Run => trace (fst st)) benign (runWorkflow_catch env e).
Proof.
  unfold runWorkflow_catch, run_rollback, return_result, logger_error.
  repeat first
    [ apply emits_rollback;
        first [exact benign_logged | exact benign_delayed | exact benign_other]
    | apply emits_bind; [|intros ?]
    | apply emits_message_of
    | apply emits_sys
    | apply emits_emit; reflexivity
    | apply emits_assign
    | apply emits_read
    | apply emits_ret ].
Qed.

Lemma purchases_benign (d : list Event) :
  forallb benign d = true -> purchases d = 0%nat.
Proof.
  unfold purchases. induction d as [|e d IH]; [reflexivity|].
  cbn [forallb filter]. intros H. apply andb_prop in H as [He Hd].
  apply benign_not_purchase in He. unfold not_purchase in He.
  destruct (is_purchase e); [discriminate|]. now apply IH.
Qed.

Lemma purchase_final_once (d : list Event) :
  purchase_final d = true -> (purchases d <= 1)%nat.
Proof.
  unfold purchases. induction d as [|e d IH]; [cbn; lia|].
  cbn [purchase_final filter]. destruct (is_purchase e).
  - intros H. apply purchases_benign in H. unfold purchases in H.
    cbn [length]. lia.
  - exact IH.
Qed.

(** X23. No run purchases twice: whatever the providers answer, and
    whether the run ends by a return, by a rollback or in the catch
    block, the log of a run holds one purchase request at most. *)
Theorem runWorkflow_purchases_at_most_once domain years enableWhoisGuard
    (s : Sys W) :
  exists delta,
    trace (snd (runWorkflow env domain years enableWhoisGuard s))
    = trace s ++ delta
    /\ (purchases delta <= 1)%nat.
Proof.
  unfold runWorkflow.
  destruct (keeps_tryCatch (fun st : Run => trace (fst st))
              (runWorkflow_try env domain years enableWhoisGuard)
              (runWorkflow_catch env)
              (keeps_runWorkflow_try env domain years enableWhoisGuard)
              catch_benign
              (s, initial_frame domain years enableWhoisGuard))
    as (d & Hd & Pd).
  destruct (tryCatch _ _ _) as [o st]. exists d.
  split; [exact Hd | now apply purchase_final_once].
Qed.

End OnePurchase.

(** ** The deployment *)

Section Deployment.

Context {W : Type} (env : Env W) (denv : DeployEnv W).

(** One check of [waitForDeployment], by the verdict of its request. *)
Lemma checkDeployment_verdict deploymentUrl (s : Sys W) :
  let answer := answer_getDeployment denv deploymentUrl (world s) in
  exists evs,
    forallb is_logged evs = true
    /\ tryCatch (checkDeployment env denv deploymentUrl) (fun _ => ret None) s
       = (Ret match verdict denv deploymentUrl (world s) with
              | Ready u => Some (Readiness.mk true (or_else u deploymentUrl))
              | Broken => Some (Readiness.mk false deploymentUrl)
              | Pending => None
              end,
          mkSys (snd answer)
                (trace s ++ Called (deployment_address env deploymentUrl) :: evs)).
Proof.
  intros answer. unfold verdict, tryCatch, checkDeployment, bind at 1.
  unfold getDeployment, invoke. fold answer.
  destruct answer as [[status|e] w']; cbn [fst snd verdict_of].
  - unfold bind at 1, logger_info, emit. cbn [world trace].
    destruct (is_state (DeploymentStatus.readyState status) "READY").
    + eexists. split; cycle 1.
      * unfold ret. rewrite <- app_assoc. reflexivity.
      * reflexivity.
    + destruct (is_state _ "ERROR" || is_state _ "CANCELED").
      * eexists. split; cycle 1.
        -- unfold bind, logger_error, emit, ret. cbn [world trace].
           rewrite <- !app_assoc. reflexivity.
        -- reflexivity.
      * eexists. split; cycle 1.
        -- unfold ret. rewrite <- app_assoc. reflexivity.
        -- reflexivity.
  - exists []. split; reflexivity.
Qed.

Lemma waitForDeployment_loop_spec deploymentUrl maxAttempts intervalMs :
  let answer := answer_getDeployment denv deploymentUrl in
  let at_check j w :=
    elapse env intervalMs
      (check_world (fun w => snd (answer (elapse env intervalMs w))) j w) in
  forall fuel i s,
  Z.of_nat fuel = Z.max 0 (maxAttempts - i) ->
  exists r k s',
    waitForDeployment_loop env denv deploymentUrl maxAttempts intervalMs
                           fuel i s = (Ret r, s')
    /\ (k <= fuel)%nat
    /\ actions (trace s')
       = actions (trace s)
         ++ delay_check_pattern
              (Called (deployment_address env deploymentUrl)) intervalMs k
    /\ (Readiness.ready r = false -> Readiness.finalUrl r = deploymentUrl)
    /\ (Readiness.ready r = true ->
        exists w u, verdict denv deploymentUrl w = Ready u
                    /\ Readiness.finalUrl r = or_else u deploymentUrl)
    /\ ((k < fuel)%nat -> exists w, verdict denv deploymentUrl w <> Pending)
    /\ ((forall w, verdict denv deploymentUrl w = Pending) ->
        Readiness.ready r = false /\ k = fuel)
    /\ ((1 <= fuel)%nat ->
        forall u, verdict denv deploymentUrl (elapse env intervalMs (world s))
                  = Ready u ->
        r = Readiness.mk true (or_else u deploymentUrl) /\ k = 1%nat)
    /\ ((1 <= fuel)%nat ->
        verdict denv deploymentUrl (elapse env intervalMs (world s)) = Broken ->
        r = Readiness.mk false deploymentUrl /\ k = 1%nat)
    /\ (forall j, (S j < k)%nat ->
        verdict denv deploymentUrl (at_check j (world s)) = Pending)
    /\ match k with
       | O =>
           fuel = 0%nat
           /\ r = Readiness.mk false deploymentUrl
           /\ world s' = world s
       | S j =>
           r = readiness_of (verdict denv deploymentUrl (at_check j (world s)))
                            deploymentUrl
           /\ (verdict denv deploymentUrl (at_check j (world s)) = Pending ->
               k = fuel)
           /\ world s' = snd (answer (at_check j (world s)))
       end.
Proof.
  intros answer at_check.
  induction fuel as [|fuel IH]; intros i s Hfuel.
  - cbn [waitForDeployment_loop]. unfold bind, logger_error, emit, ret.
    eexists _, 0%nat, _. split; [reflexivity|]. cbn [trace].
    rewrite actions_app. cbn. rewrite !app_nil_r.
    split; [lia|]. split; [reflexivity|]. split; [reflexivity|].
    split; [discriminate|]. split; [lia|]. split; [auto|].
    split; [lia|]. split; [lia|]. split; [intros j Hj; lia | auto].
  - cbn [waitForDeployment_loop].
    replace (i <? maxAttempts) with true by (symmetry; apply Z.ltb_lt; lia).
    unfold bind at 1, delay at 1. unfold bind at 1.
    set (s1 := mkSys (elapse env intervalMs (world s))
                     (trace s ++ [Delayed intervalMs])).
    destruct (checkDeployment_verdict deploymentUrl s1) as (evs & Hlog & ->).
    change (world s1) with (elapse env intervalMs (world s)).
    fold answer.
    destruct (verdict denv deploymentUrl (elapse env intervalMs (world s)))
      as [u| |] eqn:Hv.
    + eexists _, 1%nat, _. unfold ret. split; [reflexivity|].
      cbn [trace]. subst s1. cbn [trace].
      rewrite !actions_app. cbn [actions filter is_logged negb].
      fold (actions evs). rewrite (actions_logged evs Hlog).
      split; [lia|]. split; [now rewrite <- app_assoc|].
      split; [discriminate|].
      split; [intros _; now exists (elapse env intervalMs (world s)), u|].
      split; [intros _; exists (elapse env intervalMs (world s)); congruence|].
      split; [intros Hall; specialize (Hall (elapse env intervalMs (world s)));
              congruence|].
      split; [intros _ u' Hu'; injection Hu' as <-; auto|].
      split; [discriminate|]. split; [intros j Hj; lia|].
      unfold at_check. cbn [check_world world]. rewrite Hv.
      split; [reflexivity|]. split; [discriminate | reflexivity].
    + eexists _, 1%nat, _. unfold ret. split; [reflexivity|].
      cbn [trace]. subst s1. cbn [trace].
      rewrite !actions_app. cbn [actions filter is_logged negb].
      fold (actions evs). rewrite (actions_logged evs Hlog).
      split; [lia|]. split; [now rewrite <- app_assoc|].
      split; [reflexivity|]. split; [discriminate|].
      split; [intros _; exists (elapse env intervalMs (world s)); congruence|].
      split; [intros Hall; specialize (Hall (elapse env intervalMs (world s)));
              congruence|].
      split; [discriminate|]. split; [auto|]. split; [intros j Hj; lia|].
      unfold at_check. cbn [check_world world]. rewrite Hv.
      split; [reflexivity|]. split; [discriminate | reflexivity].
    + match goal with
      | |- context [waitForDeployment_loop _ _ _ _ _ _ _ ?s2] =>
          destruct (IH (i + 1) s2 ltac:(lia))
            as (r & k & s' & -> & Hk & Ha & Hurl & Hready & Hearly & Hnever
                & _ & _ & Hpending & Hlast)
      end.
      cbn [world] in Hpending, Hlast.
      exists r, (S k), s'. split; [reflexivity|].
      cbn [trace] in Ha. subst s1. cbn [trace] in Ha.
      rewrite Ha, !actions_app. cbn [actions filter is_logged negb].
      fold (actions evs). rewrite (actions_logged evs Hlog).
      cbn [delay_check_pattern]. rewrite <- !app_assoc. cbn [app].
      split; [lia|]. split; [reflexivity|]. split; [exact Hurl|].
      split; [exact Hready|].
      split; [intros Hlt; apply Hearly; lia|].
      split; [intros Hall; destruct (Hnever Hall) as [Hr ->]; auto|].
      split; [intros _ u Hu; discriminate Hu|]. split; [discriminate|].
      split.
      * intros [|j] Hj; [exact Hv | apply Hpending; lia].
      * destruct k as [|j].
        -- destruct Hlast as (-> & -> & ->).
           unfold at_check. cbn [check_world world]. rewrite Hv.
           split; [reflexivity|]. split; reflexivity.
        -- destruct Hlast as (Hr & Hp & Hw).
           split; [exact Hr|]. split; [intros Hj; now rewrite (Hp Hj) | exact Hw].
Qed.

(** X24. [waitForDeployment] suspends before every check: [k] checks come
    with [k] delays, the first delay before the first check, and with
    [maxAttempts <= 0] it neither suspends nor checks.  It never throws:
    a status request that throws counts as pending.  A check that says
    READY ends the wait with the address of the answer, or the given one
    if the answer has none; a check that says ERROR or CANCELED ends it
    at once as not ready; this holds of whichever check it is, since
    every check before the last was pending and the verdict of the last
    check gives the result.  Otherwise the wait uses all [maxAttempts]
    checks, and a result that is not ready carries the address it was
    given. *)
Theorem waitForDeployment_delays_then_checks deploymentUrl
    maxAttempts intervalMs (s : Sys W) :
  awaited env denv
    (waitForDeployment env denv deploymentUrl maxAttempts intervalMs s) s
    deploymentUrl maxAttempts intervalMs.
Proof.
  unfold awaited, waitForDeployment, bind at 1, logger_info, emit.
  match goal with
  | |- context [waitForDeployment_loop _ _ _ _ _ _ _ ?s1] =>
      destruct (waitForDeployment_loop_spec deploymentUrl maxAttempts
                  intervalMs (Z.to_nat maxAttempts) 0 s1 ltac:(lia))
        as (r & k & s' & Hrun & Hk & Ha & Hurl & Hready & Hearly & Hnever
            & Hfirst & Hbroken & Hpending & Hlast)
  end.
  exists r, k, s'. cbn [world trace] in *. rewrite actions_app in Ha.
  cbn in Ha. rewrite app_nil_r in Ha.
  split; [exact Hrun|]. split; [exact Hk|]. split; [exact Ha|].
  split; [exact Hurl|]. split; [exact Hready|]. split; [exact Hearly|].
  split; [exact Hnever|].
  split; [intros Hmax; apply Hfirst; lia|].
  split; [intros Hmax; apply Hbroken; lia|].
  split; [exact Hpending | exact Hlast].
Qed.

(** X25. [deployZipToVercel] checks the archive and the two tokens before
    it does anything, in that order: when the archive does not exist or
    a token is not set, it returns the failure of the first check that
    fails, after its three opening lines, and has entered no operation;
    the world is as it was. *)
Theorem deployZipToVercel_refuses_early zipPath projectName (s : Sys W) :
  existsSync denv zipPath (world s) = false
  \/ truthy (config env github "token") = false
  \/ truthy (config env vercel "token") = false ->
  deployZipToVercel env denv zipPath projectName s
  = (Ret (DeployResult.failure
            (Some (if negb (existsSync denv zipPath (world s))
                   then "ZIP file not found: " +++ zipPath
                   else if negb (truthy (config env github "token"))
                   then "GITHUB_TOKEN must be set in .env"
                   else "VERCEL_TOKEN must be set in .env"))),
     mkSys (world s) (trace s ++ zip_lines)).
Proof.
  intros Hgate. unfold deployZipToVercel, bind, logger_info, emit, observe, ret.
  cbn [world trace]. rewrite <- !app_assoc. cbn [app]. fold zip_lines.
  destruct (existsSync denv zipPath (world s)); cbn [negb]; [|reflexivity].
  destruct (truthy (config env github "token")); cbn [negb]; [|reflexivity].
  destruct (truthy (config env vercel "token")); cbn [negb]; [|reflexivity].
  destruct Hgate as [H|[H|H]]; discriminate H.
Qed.

(** X26. Past its checks [deployZipToVercel] always cleans up.  Whether
    the extraction, the repository, the deployment or the wait fail or
    succeed, when [deployZipToVercel] is left the directory of the
    extraction does not exist, provided [rmSync] removes what it is
    asked to remove; the one exception is an [rmSync] that throws, and
    then [deployZipToVercel] throws what [rmSync] threw. *)
Theorem deployZipToVercel_cleans_up zipPath projectName (s : Sys W) :
  let dir := extractDir_of denv zipPath in
  let run := deployZipToVercel env denv zipPath projectName s in
  existsSync denv zipPath (world s) = true ->
  truthy (config env github "token") = true ->
  truthy (config env vercel "token") = true ->
  (forall w, fst (answer_rmSync denv dir w) = Ret tt ->
             existsSync denv dir (snd (answer_rmSync denv dir w)) = false) ->
  existsSync denv dir (world (snd run)) = false
  \/ exists e w, fst run = Throw e /\ fst (answer_rmSync denv dir w) = Throw e.
Proof.
  intros dir run Hzip Hgh Hvc Hrm. subst run.
  unfold deployZipToVercel, bind, logger_info, emit, observe.
  cbn [world trace]. rewrite Hzip, Hgh, Hvc. cbn [negb]. fold dir.
  unfold finally.
  destruct (deployZipToVercel_try env denv zipPath dir _ _) as [o s1].
  unfold cleanup, bind, observe.
  destruct (existsSync denv dir (world s1)) eqn:Hex; cbn [when].
  - unfold rmSync, invoke. specialize (Hrm (world s1)).
    destruct (answer_rmSync denv dir (world s1)) as [[[]|e] w'] eqn:Erm;
      cbn [fst snd world] in *.
    + left. now apply Hrm.
    + right. exists e, (world s1). rewrite Erm. split; reflexivity.
  - unfold ret. cbn [snd]. now left.
Qed.

End Deployment.

(** ** The workflow with the deployment *)

Section WithDeploy.

Context {W : Type} (env : Env W) (denv : DeployEnv W).

Lemma validateConfig_deploy {St} (s : St) :
  truthy (config env github "token") = true ->
  truthy (config env vercel "token") = true ->
  validateConfig env deploy s = (Ret tt, s).
Proof. intros Hg Hv. cbn [validateConfig]. now rewrite Hg, Hv. Qed.

(** The six opening lines, then the check of the two tokens. *)
Lemma runWorkflowWithDeploy_begins zipPath domain years enableWhoisGuard
    (s : Sys W) :
  truthy (config env github "token") = true ->
  truthy (config env vercel "token") = true ->
  runWorkflowWithDeploy env denv zipPath domain years enableWhoisGuard s
  = (deployResult <- deployZipToVercel env denv zipPath (Some (dashed domain)) ;;
     if negb (DeployResult.success deployResult) then
       logger_error ("Deployment failed: "
                     +++ tmpl (DeployResult.errorMessage deployResult)) ;;;
       ret (deploy_failed (DeployResult.errorMessage deployResult), None)
     else
       if truthy_opt (DeployResult.vercelProjectId deployResult) then
         let projectId :=
           default "" (DeployResult.vercelProjectId deployResult) in
         logger_info ("Vercel project ID set to: " +++ projectId) ;;;
         logger_success ("Using Vercel project: " +++ projectId) ;;;
         workflowResult <- runWorkflow (with_projectId env projectId) domain
                                       years enableWhoisGuard ;;
         ret (workflowResult, DeployResult.deploymentUrl deployResult)
       else
         workflowResult <- runWorkflow env domain years enableWhoisGuard ;;
         ret (workflowResult, DeployResult.deploymentUrl deployResult))
    (mkSys (world s) (trace s ++ deploy_lines env zipPath domain)).
Proof.
  intros Hg Hv. unfold runWorkflowWithDeploy.
  do 6 (unfold bind at 1, logger_info at 1, emit at 1; cbn [world trace]).
  unfold bind at 1. rewrite (validateConfig_deploy _ Hg Hv).
  rewrite <- !app_assoc. reflexivity.
Qed.

(** Every run of the workflow returns a consistent result. *)
Lemma runWorkflow_returns_consistent (env' : Env W) domain years
    enableWhoisGuard (s : Sys W) :
  exists r s',
    runWorkflow env' domain years enableWhoisGuard s = (Ret r, s')
    /\ consistent r.
Proof.
  assert (H : wp (tryCatch (runWorkflow_try env' domain years enableWhoisGuard)
                           (runWorkflow_catch env'))
                 (fun o _ => exists r, o = Ret r /\ consistent r)
                 (s, initial_frame domain years enableWhoisGuard)).
  { apply wp_tryCatch.
    eapply wp_conseq; [apply wp_runWorkflow_try|].
    intros [r|e] [sy fr]; cbn [snd].
    - intros Hr. now exists r.
    - intros [He Hu]. now apply wp_runWorkflow_catch. }
  unfold wp in H. unfold runWorkflow.
  destruct (tryCatch _ _ _) as [o s']. cbn [fst snd] in H.
  destruct H as (r & -> & Hr). now exists r, (fst s').
Qed.

(** X27. When the archive does not exist, [runWorkflowWithDeploy] stops
    before the domain workflow: with the two tokens set, it returns the
    result of a failed deployment, all flags false and the one error
    "Deploy: ZIP file not found", and it has written log lines only: no
    request went to any provider, so nothing was purchased. *)
Theorem missing_archive_purchases_nothing zipPath domain years
    enableWhoisGuard (s : Sys W) :
  truthy (config env github "token") = true ->
  truthy (config env vercel "token") = true ->
  existsSync denv zipPath (world s) = false ->
  exists delta,
    runWorkflowWithDeploy env denv zipPath domain years enableWhoisGuard s
    = (Ret (deploy_failed (Some ("ZIP file not found: " +++ zipPath)), None),
       mkSys (world s) (trace s ++ delta))
    /\ forallb is_logged delta = true
    /\ consistent (deploy_failed (Some ("ZIP file not found: " +++ zipPath))).
Proof.
  intros Hg Hv Hzip.
  rewrite (runWorkflowWithDeploy_begins _ _ _ _ _ Hg Hv). unfold bind at 1.
  unfold deployZipToVercel.
  do 3 (unfold bind at 1, logger_info at 1, emit at 1; cbn [world trace]).
  unfold bind at 1, observe at 1. cbn [world]. rewrite Hzip.
  cbn [negb ret DeployResult.failure DeployResult.success
       DeployResult.errorMessage].
  unfold bind, logger_error, emit, ret. cbn [world trace].
  rewrite <- !app_assoc. eexists. split; [reflexivity|].
  split; [reflexivity|].
  unfold consistent, all_steps, deploy_failed. cbn.
  split; [split; [discriminate | intros (H & _); discriminate H]|].
  split; [intros _; discriminate | discriminate].
Qed.

(** X28. An extraction that throws is not turned into a result value:
    with the archive present and the two tokens set, the error of
    [extractZip] leaves [deployZipToVercel] by its finally block, which
    removes the directory of the extraction if it exists, and
    [runWorkflowWithDeploy] throws it.  The repository, the deployment
    and the domain workflow are never reached: the extraction and the
    removal are the only operations entered, and no request went to any
    provider. *)
Theorem failed_extraction_escapes zipPath domain years enableWhoisGuard
    (s : Sys W) e w1 :
  let dir := extractDir_of denv zipPath in
  truthy (config env github "token") = true ->
  truthy (config env vercel "token") = true ->
  existsSync denv zipPath (world s) = true ->
  answer_extractZip denv zipPath dir (world s) = (Throw e, w1) ->
  (existsSync denv dir w1 = true -> fst (answer_rmSync denv dir w1) = Ret tt) ->
  exists delta,
    runWorkflowWithDeploy env denv zipPath domain years enableWhoisGuard s
    = (Throw e,
       mkSys (if existsSync denv dir w1
              then snd (answer_rmSync denv dir w1) else w1)
             (trace s ++ delta))
    /\ actions delta
       = Called ("extractZip " +++ zipPath)
         :: (if existsSync denv dir w1
             then [Called ("rmSync " +++ dir)] else []).
Proof.
  intros dir Hg Hv Hzip Hex Hrm.
  rewrite (runWorkflowWithDeploy_begins _ _ _ _ _ Hg Hv). unfold bind at 1.
  unfold deployZipToVercel.
  do 3 (unfold bind at 1, logger_info at 1, emit at 1; cbn [world trace]).
  unfold bind at 1, observe at 1. cbn [world]. rewrite Hzip, Hg, Hv.
  cbn [negb]. unfold bind at 1, observe at 1. cbn [world]. fold dir.
  unfold finally, deployZipToVercel_try, bind at 1, extractZip, invoke.
  cbn [world trace]. rewrite Hex.
  unfold cleanup, bind, observe. cbn [world].
  destruct (existsSync denv dir w1); cbn [when].
  - unfold rmSync, invoke. cbn [world trace]. specialize (Hrm eq_refl).
    destruct (answer_rmSync denv dir w1) as [o w2]. cbn [fst snd] in *.
    subst o. rewrite <- !app_assoc. eexists. split; reflexivity.
  - unfold ret. rewrite <- !app_assoc. eexists. split; reflexivity.
Qed.

(** X29. When [deployZipToVercel] returns, [runWorkflowWithDeploy]
    returns, and the workflow result it returns is consistent: success
    exactly with all seven flags, an error for a missing flag, none with
    success.  After a failed deployment it is the result with no flag
    and the one error of the deployment, and the world is as the
    deployment left it.  After a deployment that succeeded, the result
    and the final state are those of [runWorkflow], run from the state
    the deployment left, and it comes with the address of the
    deployment: when the deployment names a project, the workflow runs
    with that project in its configuration, after the two lines that
    announce it; when it names none, the workflow runs with the
    configuration as it is. *)
Theorem runWorkflowWithDeploy_consistent zipPath domain years enableWhoisGuard
    (s : Sys W) d s1 :
  truthy (config env github "token") = true ->
  truthy (config env vercel "token") = true ->
  deployZipToVercel env denv zipPath (Some (dashed domain))
    (mkSys (world s) (trace s ++ deploy_lines env zipPath domain))
  = (Ret d, s1) ->
  exists r u s',
    runWorkflowWithDeploy env denv zipPath domain years enableWhoisGuard s
    = (Ret (r, u), s')
    /\ consistent r
    /\ (DeployResult.success d = false ->
        r = deploy_failed (DeployResult.errorMessage d) /\ u = None
        /\ world s' = world s1)
    /\ (DeployResult.success d = true -> u = DeployResult.deploymentUrl d)
    /\ (DeployResult.success d = true ->
        truthy_opt (DeployResult.vercelProjectId d) = true ->
        let projectId := default "" (DeployResult.vercelProjectId d) in
        runWorkflow (with_projectId env projectId) domain years
          enableWhoisGuard
          (mkSys (world s1)
             (trace s1
              ++ [Logged LInfo ("Vercel project ID set to: " +++ projectId);
                  Logged LSuccess ("Using Vercel project: " +++ projectId)]))
        = (Ret r, s'))
    /\ (DeployResult.success d = true ->
        truthy_opt (DeployResult.vercelProjectId d) = false ->
        runWorkflow env domain years enableWhoisGuard s1 = (Ret r, s')).
Proof.
  intros Hg Hv Hd.
  rewrite (runWorkflowWithDeploy_begins _ _ _ _ _ Hg Hv). unfold bind at 1.
  rewrite Hd. destruct (DeployResult.success d) eqn:Hs; cbn [negb].
  - destruct (truthy_opt (DeployResult.vercelProjectId d)).
    + do 2 (unfold bind at 1; cbn [logger_info logger_success emit world trace]).
      unfold bind at 1. rewrite <- app_assoc. cbn [app].
      match goal with
      | |- context [runWorkflow ?env' _ _ _ ?s2] =>
          destruct (runWorkflow_returns_consistent env' domain years
                      enableWhoisGuard s2) as (r & s' & Hrun & Hr)
      end.
      rewrite Hrun.
      exists r, (DeployResult.deploymentUrl d), s'. unfold ret.
      split; [reflexivity|]. split; [exact Hr|]. split; [discriminate|].
      split; [auto|]. split; [intros _ _; reflexivity | discriminate].
    + unfold bind at 1.
      destruct (runWorkflow_returns_consistent env domain years
                  enableWhoisGuard s1) as (r & s' & Hrun & Hr).
      rewrite Hrun.
      exists r, (DeployResult.deploymentUrl d), s'. unfold ret.
      split; [reflexivity|]. split; [exact Hr|]. split; [discriminate|].
      split; [auto|]. split; [discriminate | intros _ _; reflexivity].
  - unfold bind, logger_error, emit, ret. eexists _, _, _.
    split; [reflexivity|]. cbn [world].
    split; [|split; [auto|]; split; [discriminate|]; split; discriminate].
    unfold consistent, all_steps, deploy_failed. cbn.
    split; [split; [discriminate | intros (H & _); discriminate H]|].
    split; [intros _; discriminate | discriminate].
Qed.

(** X30. The check command only asks: with the registrar configured,
    [checkDomainAvailability] sends the one request of the availability
    check, returns, and writes its verdict to the log.  An answer that
    carries an error message is reported as an error and as nothing
    else, even when it also says that the domain is available; an answer
    without one is reported as available or as not available. *)
Theorem checkDomainAvailability_only_asks domain (s : Sys W) r1 w1 :
  configured env namecheap ->
  answer_checkAvailability env domain (world s) = (r1, w1) ->
  exists lines,
    checkDomainAvailability env domain s
    = (Ret tt,
       mkSys w1 (trace s ++ Sent (CheckAvailability domain) :: lines))
    /\ forallb is_logged lines = true
    /\ (truthy_opt (AvailabilityResult.errorMessage r1) = true ->
        lines = [Logged LError
                   ("Error: " +++ tmpl (AvailabilityResult.errorMessage r1))])
    /\ (truthy_opt (AvailabilityResult.errorMessage r1) = false ->
        AvailabilityResult.available r1 = false ->
        lines = [Logged LWarn ("❌ " +++ domain +++ " is NOT AVAILABLE")])
    /\ (truthy_opt (AvailabilityResult.errorMessage r1) = false ->
        AvailabilityResult.available r1 = true ->
        In (Logged LSuccess ("✅ " +++ domain +++ " is AVAILABLE")) lines).
Proof.
  intros Cn H1. unfold checkDomainAvailability, bind at 1.
  change (validateConfig env namecheap s)
    with (validateFields env namecheap (requiredFields namecheap) s).
  rewrite (validateFields_configured env namecheap _ s Cn).
  unfold bind at 1, checkAvailability. rewrite request_returns, H1.
  cbn [fst snd].
  destruct (truthy_opt (AvailabilityResult.errorMessage r1)).
  - unfold logger_error, emit. cbn [world trace]. rewrite <- app_assoc.
    eexists. split; [reflexivity|]. split; [reflexivity|].
    split; [reflexivity|]. split; discriminate.
  - destruct (AvailabilityResult.available r1).
    + unfold bind, logger_success, emit. cbn [world trace].
      destruct (default false (AvailabilityResult.isPremium r1)); cbn [when].
      * unfold logger_info, emit. cbn [world trace]. rewrite <- !app_assoc.
        eexists. split; [reflexivity|]. split; [reflexivity|].
        split; [discriminate|]. split; [discriminate|]. intros _ _.
        now left.
      * unfold ret. rewrite <- !app_assoc.
        eexists. split; [reflexivity|]. split; [reflexivity|].
        split; [discriminate|]. split; [discriminate|]. intros _ _.
        now left.
    + unfold logger_warn, emit. cbn [world trace]. rewrite <- app_assoc.
      eexists. split; [reflexivity|]. split; [reflexivity|].
      split; [discriminate|]. split; [reflexivity|]. discriminate.
Qed.

End WithDeploy.

Lemma deployZipToVercel_refuses_early_witness :
  deployZipToVercel Mock.happy MockDeploy.site "missing.zip" None Mock.start
  = (Ret (DeployResult.failure (Some "ZIP file not found: missing.zip")),
     mkSys 0%nat zip_lines).
Proof.
  apply (deployZipToVercel_refuses_early Mock.happy MockDeploy.site
           "missing.zip" None Mock.start).
  left. reflexivity.
Defined.

Lemma deployZipToVercel_cleans_up_witness :
  existsSync MockDeploy.site "extracted"
    (world (snd (deployZipToVercel Mock.happy MockDeploy.site "site.zip"
                   (Some "example-test-com") Mock.start))) = false
  \/ exists e w,
       fst (deployZipToVercel Mock.happy MockDeploy.site "site.zip"
              (Some "example-test-com") Mock.start) = Throw e
       /\ fst (answer_rmSync MockDeploy.site "extracted" w) = Throw e.
Proof.
  apply (deployZipToVercel_cleans_up Mock.happy MockDeploy.site "site.zip"
           (Some "example-test-com") Mock.start); reflexivity.
Defined.

Lemma missing_archive_purchases_nothing_witness :
  exists delta,
    runWorkflowWithDeploy Mock.happy MockDeploy.site "missing.zip"
      "example-test.com" 1 true Mock.start
    = (Ret (deploy_failed (Some ("ZIP file not found: " +++ "missing.zip")),
            None),
       mkSys (world Mock.start) (trace Mock.start ++ delta))
    /\ forallb is_logged delta = true
    /\ consistent (deploy_failed
                     (Some ("ZIP file not found: " +++ "missing.zip"))).
Proof.
  apply (missing_archive_purchases_nothing Mock.happy MockDeploy.site
           "missing.zip" "example-test.com" 1 true Mock.start);
    reflexivity.
Defined.

Lemma failed_extraction_escapes_witness :
  exists delta,
    runWorkflowWithDeploy Mock.happy MockDeploy.corrupt "site.zip"
      "example-test.com" 1 true Mock.start
    = (Throw (Error "Invalid or unsupported zip format"),
       mkSys 101%nat (trace Mock.start ++ delta))
    /\ actions delta
       = [Called ("extractZip " +++ "site.zip");
          Called ("rmSync " +++ "extracted")].
Proof.
  apply (failed_extraction_escapes Mock.happy MockDeploy.corrupt "site.zip"
           "example-test.com" 1 true Mock.start
           (Error "Invalid or unsupported zip format") 1%nat);
    reflexivity.
Defined.

Lemma runWorkflowWithDeploy_consistent_witness :
  exists r u s',
    runWorkflowWithDeploy Mock.happy MockDeploy.site "site.zip"
      "example-test.com" 1 true Mock.start
    = (Ret (r, u), s')
    /\ consistent r
    /\ u = Some "site.vercel.app"
    /\ WorkflowResult.success r = true
    /\ world s' = 113%nat.
Proof.
  edestruct (runWorkflowWithDeploy_consistent Mock.happy MockDeploy.site
               "site.zip" "example-test.com" 1 true Mock.start
               (DeployResult.set_deploymentUrl "site.vercel.app"
                                               MockDeploy.deployed))
    as (r & u & s' & Hrun & Hc & _ & Hu & Hwith & _);
    [reflexivity | reflexivity | vm_compute; reflexivity |].
  exists r, u, s'. split; [exact Hrun|]. split; [exact Hc|].
  split; [apply Hu; reflexivity|].
  specialize (Hwith eq_refl eq_refl). vm_compute in Hwith.
  injection Hwith as <- <-. split; reflexivity.
Defined.

Lemma checkDomainAvailability_only_asks_witness :
  exists lines,
    checkDomainAvailability MockPaths.domain_taken "example-test.com" Mock.start
    = (Ret tt,
       mkSys 1%nat (trace Mock.start
                    ++ Sent (CheckAvailability "example-test.com") :: lines))
    /\ lines = [Logged LWarn ("❌ " +++ "example-test.com"
                              +++ " is NOT AVAILABLE")].
Proof.
  destruct (checkDomainAvailability_only_asks MockPaths.domain_taken
              "example-test.com" Mock.start
              (MockPaths.taken "example-test.com") 1%nat)
    as (lines & Hrun & _ & _ & Hwarn & _); [reflexivity | reflexivity |].
  exists lines. split; [exact Hrun|]. apply Hwarn; reflexivity.
Defined.
